(** * CephForge: the execution-orchestration core, embedded and verified

    A shallow embedding of the parts of the manager that the specification
    makes statements about:

    - [Py]        the Python list/slice/truthiness primitives the code relies on;
    - [Workload]  [common/models/workload.py], the [IOConfig] validator;
    - [Fio]       [WorkloadExecutor._build_fio_command];
    - [Ssh]       [SSHClient.run_command] and [WorkloadExecutor.run_ssh_command];
    - [Store]     [DataStore.update_execution_status] and [DataStore.read_metrics];
    - [MetricsRoute] the [get_metrics] route;
    - [Prechecks] [PrecheckRunner.run_all_prechecks];
    - [Engine]    [ExecutionEngine.run_execution] and its phases;
    - [Scenario]  concrete runs of the engine (the scenarios S2-S4 of the
                  specification);
    - [Builtins]  further string and list primitives of Python;
    - [MetricsFile] the text of the metrics file: [DataStore.append_metrics],
                  [DataStore.read_metrics] line by line, and the
                  [get_latest_metrics] route;
    - [Control]   the stop, pause, resume and scale routes with
                  [ExecutionEngine.scale_up] and [scale_down];
    - [CephChecks] [CephPrechecks.run_all_checks];
    - [ClientHealth] [ClientConnectivityChecker.check_single_client] and
                  [generate_summary];
    - [Executor]  the operations of [WorkloadExecutor] on a client;
    - [Outcome]   what a run of the engine leaves behind.

    The theorems follow the definitions, one module of facts per module of
    the embedding.

    Integers are [Z], strings are [string], dictionaries with a fixed set of
    keys read through [dict.get(key, default)] are records of options (a
    key that may hold [None] in place of a dictionary has three values),
    open-ended dictionaries (SQL rows, keyword arguments) are [gmap]s.
    An expression that may raise has a [Py.result]. *)

From Stdlib Require Import ZArith.
From stdpp Require Import base tactics option list strings gmap pretty.

Local Open Scope Z_scope.
Local Open Scope string_scope.
Local Open Scope list_scope.

(** ** Python primitives *)

Module Py.

(** Truthiness of an optional string: [None] and [""] are falsy. *)
Definition truthy_str (o : option string) : bool :=
  match o with
  | Some s => negb (String.eqb s "")
  | None => false
  end.

(** [a or b] on strings. *)
Definition str_or (a b : string) : string :=
  if String.eqb a "" then b else a.

(** [sep.join(parts)]. *)
Definition join (sep : string) (parts : list string) : string :=
  String.concat sep parts.

(** The elements of [l] at positions [k], [k + step], [k + 2 step], ...:
    [k] counts down to the next element taken and is reloaded with
    [step - 1] each time. *)
Fixpoint every_from {A} (step : nat) (k : nat) (l : list A) : list A :=
  match l with
  | [] => []
  | x :: t =>
      match k with
      | O => x :: every_from step (Nat.pred step) t
      | S k' => every_from step k' t
      end
  end.

(** Outcome of an expression that may raise. *)
Inductive result (A : Type) : Type :=
| Ok (a : A)
| Raise (exn : string) (msg : string).
Arguments Ok {A} a.
Arguments Raise {A} exn msg.

(** [a // b] on integers: floor division, [ZeroDivisionError] on [b = 0]. *)
Definition floordiv (a b : Z) : result Z :=
  if Z.eqb b 0
  then Raise "ZeroDivisionError" "integer division or modulo by zero"
  else Ok (a / b).

(** [l[::step]]: forward for a positive step, from the last element
    backwards for a negative one, [ValueError] for zero. *)
Definition slice_step {A} (l : list A) (step : Z) : result (list A) :=
  match step with
  | Z0 => Raise "ValueError" "slice step cannot be zero"
  | Zpos p => Ok (every_from (Pos.to_nat p) 0 l)
  | Zneg p => Ok (every_from (Pos.to_nat p) 0 (rev l))
  end.

(** [l[:stop]]: a negative [stop] counts from the end. *)
Definition slice_to {A} (l : list A) (stop : Z) : list A :=
  if Z.leb 0 stop
  then take (Z.to_nat stop) l
  else take (Z.to_nat (Z.of_nat (length l) + stop)) l.

Definition bind {A B} (m : result A) (k : A → result B) : result B :=
  match m with
  | Ok a => k a
  | Raise exn msg => Raise exn msg
  end.

(** [repr] of a list of strings, for strings that need no escaping. *)
Definition repr_list (l : list string) : string :=
  "[" +:+ join ", " ((λ s, "'" +:+ s +:+ "'") <$> l) +:+ "]".

(** Python floats: the type and the operations the code applies to
    them, left abstract. [f_pos x] is [x > 0]. *)
Class Float : Type := mkFloat {
  float : Type;
  f_of_int : Z → float;
  f_add : float → float → float;
  f_div : float → float → float;
  f_max : float → float → float;
  f_pos : float → bool
}.

(** Integer arithmetic as an instance, to run the model on examples. *)
Definition Z_float : Float :=
  mkFloat Z (λ z, z) Z.add Z.div Z.max (Z.ltb 0).

End Py.

Notation "x <- m ;; k" := (Py.bind m (λ x, k))
  (at level 100, m at next level, right associativity, only parsing).

(** ** Workload model: [IOConfig] *)

Module Workload.

Record IOConfig : Type := mkIOConfig {
  read_percent : Z;
  write_percent : Z
}.

(** [Field(ge=0, le=100)]. *)
Definition percent_in_range (v : Z) : bool :=
  Z.leb 0 v && Z.leb v 100.

(** [IOConfig.validate_rw_percent(cls, v, info)]; [data_read] is
    [info.data.get("read_percent")], present only when [read_percent]
    itself validated. *)
Definition validate_rw_percent (v : Z) (data_read : option Z) : Z :=
  let read_pct := default 100 data_read in
  if negb (Z.eqb (read_pct + v) 100)
  then 100 - read_pct
  else v.

(** [IOConfig(read_percent=r, write_percent=w)]; [None] is a keyword the
    call omits. The fields are validated in declaration order, the field
    constraint of [write_percent] before its validator, and any failed
    field makes the construction fail. An omitted field takes its default
    ([read_percent] 100, [write_percent] 0): pydantic applies neither the
    constraint nor the validator of a field to its default
    ([validate_default] is not set), yet [info.data] holds the default of
    a field validated before. *)
Definition make_IOConfig (r w : option Z) : option IOConfig :=
  let data_read :=
    match r with
    | Some r => if percent_in_range r then Some r else None
    | None => Some 100
    end in
  let w' :=
    match w with
    | Some w =>
        if percent_in_range w
        then Some (validate_rw_percent w data_read) else None
    | None => Some 0
    end in
  match data_read, w' with
  | Some r', Some w'' => Some (mkIOConfig r' w'')
  | _, _ => None
  end.

End Workload.

(** ** The FIO command line *)

Module Fio.

(** The keys [_build_fio_command] reads from [io_config], each through
    [dict.get] with a default; [None] is an absent key. *)
Record io_config : Type := mkIo {
  pattern : option string;
  block_size : option string;
  read_percent : option Z;
  io_depth : option Z;
  num_jobs : option Z;
  direct_io : option bool
}.

Record test_config : Type := mkTest {
  duration : option Z;
  ramp_time : option Z;
  file_size : option string
}.

(** The [rw] mode selection. *)
Definition rw_mode (pat : string) (read_pct : Z) : string :=
  if Z.eqb read_pct 100 then
    (if String.eqb pat "random" then "randread" else "read")
  else if Z.eqb read_pct 0 then
    (if String.eqb pat "random" then "randwrite" else "write")
  else
    (if String.eqb pat "random" then "randrw" else "rw").

(** [rw in ["randrw", "rw"]]. *)
Definition is_mixed_rw (rw : string) : bool :=
  String.eqb rw "randrw" || String.eqb rw "rw".

(** The argument list [fio_args] as the function builds it. *)
Definition fio_args (io : io_config) (test : test_config)
    (directory execution_id client_id : string) : list string :=
  let pat := default "random" (pattern io) in
  let bs := default "4k" (block_size io) in
  let read_pct := default 100 (read_percent io) in
  let depth := default 32 (io_depth io) in
  let jobs := default 1 (num_jobs io) in
  let direct := default true (direct_io io) in
  let dur := default 60 (duration test) in
  let ramp := default 0 (ramp_time test) in
  let size := default "1G" (file_size test) in
  let rw := rw_mode pat read_pct in
  [ "fio";
    "--name=scale_test_" +:+ client_id;
    "--directory=" +:+ directory;
    "--rw=" +:+ rw;
    "--bs=" +:+ bs;
    "--size=" +:+ size;
    "--numjobs=" +:+ pretty jobs;
    "--iodepth=" +:+ pretty depth;
    "--runtime=" +:+ pretty dur;
    "--time_based";
    "--group_reporting";
    "--output-format=json" ]
  ++ (if is_mixed_rw rw then ["--rwmixread=" +:+ pretty read_pct] else [])
  ++ (if direct then ["--direct=1"] else [])
  ++ (if Z.ltb 0 ramp then ["--ramp_time=" +:+ pretty ramp] else [])
  ++ ["--ioengine=libaio"; "--end_fsync=1"].

(** [_build_fio_command]: the arguments joined by single spaces. *)
Definition _build_fio_command (io : io_config) (test : test_config)
    (directory execution_id client_id : string) : string :=
  Py.join " " (fio_args io test directory execution_id client_id).

End Fio.

(** ** Remote commands over ssh *)

Module Ssh.

(** What starting a local subprocess and waiting for it can do:
    the process exits, [asyncio.wait_for] times out, the executable is
    missing ([FileNotFoundError]), or anything else is raised (a failure
    to decode the output included). *)
Inductive spawn_outcome : Type :=
| Exited (returncode : Z) (out err : string)
| TimedOut
| NotFound (msg : string)
| Failed (msg : string).

(** The controller host: what each argument vector does when spawned, and
    which paths exist. *)
Record host : Type := mkHost {
  spawn : list string → spawn_outcome;
  path_exists : string → bool
}.

Record SSHCommandResult : Type := mkResult {
  exit_code : Z;
  stdout : string;
  stderr : string
}.

Definition success (r : SSHCommandResult) : bool := Z.eqb (exit_code r) 0.

Record SSHClient : Type := mkClient {
  hostname : string;
  username : string;
  private_key_path : option string;
  password : option string;
  port : Z
}.

Definition _build_ssh_command (h : host) (c : SSHClient) (command : string)
    : list string :=
  let ssh_opts :=
    [ "-o"; "StrictHostKeyChecking=no";
      "-o"; "UserKnownHostsFile=/dev/null";
      "-o"; "LogLevel=ERROR";
      "-o"; "ConnectTimeout=10";
      "-p"; pretty (port c) ]
    ++ match private_key_path c with
       | Some k =>
           if Py.truthy_str (Some k) && path_exists h k then ["-i"; k] else []
       | None => []
       end in
  let target := username c +:+ "@" +:+ hostname c in
  match password c with
  | Some pw =>
      if Py.truthy_str (Some pw)
      then ["sshpass"; "-p"; pw; "ssh"] ++ ssh_opts ++ [target; command]
      else ["ssh"] ++ ssh_opts ++ [target; command]
  | None => ["ssh"] ++ ssh_opts ++ [target; command]
  end.

(** [SSHClient.run_command]. The result comes with the argument vectors
    that were spawned, in order, and with the messages handed to
    [logger.warning], in order. The [RuntimeError] of [raise_on_error] is
    raised inside the [try] and so lands in [except Exception]. *)
Definition run_command (h : host) (c : SSHClient) (command : string)
    (timeout : Z) (raise_on_error : bool)
    : SSHCommandResult * list (list string) * list string :=
  let ssh_cmd := _build_ssh_command h c command in
  match spawn h ssh_cmd with
  | Exited rc out err =>
      let result := mkResult rc out err in
      if raise_on_error && negb (success result)
      then (mkResult (-1) "" ("Command failed: " +:+ Py.str_or err out),
            [ssh_cmd], [])
      else (result, [ssh_cmd], [])
  | TimedOut =>
      (mkResult (-1) ""
         ("Command timed out after " +:+ pretty timeout +:+ "s"),
       [ssh_cmd], [])
  | NotFound _ =>
      if Py.truthy_str (password c) && bool_decide ("sshpass" ∈ ssh_cmd)
      then
        let warning := "sshpass not installed, trying without password auth" in
        let ssh_cmd' := drop 3 ssh_cmd in
        match spawn h ssh_cmd' with
        | Exited rc out err =>
            (mkResult rc out err, [ssh_cmd; ssh_cmd'], [warning])
        | TimedOut => (mkResult (-1) "" "", [ssh_cmd; ssh_cmd'], [warning])
        | NotFound msg | Failed msg =>
            (mkResult (-1) "" msg, [ssh_cmd; ssh_cmd'], [warning])
        end
      else
        (mkResult (-1) ""
           "SSH command failed: sshpass not found for password auth",
         [ssh_cmd], [])
  | Failed msg => (mkResult (-1) "" msg, [ssh_cmd], [])
  end.

(** [WorkloadExecutor.run_ssh_command]: the triple
    [(returncode, stdout, stderr)] as an [SSHCommandResult], with the
    argument vectors spawned. *)
Definition run_ssh_command (h : host) (hostn usern command : string)
    (passw key_path : option string) (portn : Z) (timeout : Z)
    : SSHCommandResult * list (list string) :=
  let ssh_opts :=
    [ "-o"; "StrictHostKeyChecking=no";
      "-o"; "UserKnownHostsFile=/dev/null";
      "-o"; "ConnectTimeout=10";
      "-p"; pretty portn ]
    ++ match key_path with
       | Some k =>
           if Py.truthy_str (Some k)
           then ["-i"; k; "-o"; "BatchMode=yes"] else []
       | None => []
       end in
  let ssh_cmd := ["ssh"] ++ ssh_opts ++ [usern +:+ "@" +:+ hostn; command] in
  let ssh_cmd :=
    match passw with
    | Some pw =>
        if Py.truthy_str (Some pw) && negb (Py.truthy_str key_path)
        then ["sshpass"; "-p"; pw] ++ ssh_cmd else ssh_cmd
    | None => ssh_cmd
    end in
  match spawn h ssh_cmd with
  | Exited rc out err => (mkResult rc out err, [ssh_cmd])
  | TimedOut => (mkResult (-1) "" "Command timed out", [ssh_cmd])
  | NotFound msg | Failed msg => (mkResult (-1) "" msg, [ssh_cmd])
  end.

(** The helper tool is absent on the controller host: spawning any
    argument vector that starts with [sshpass] is a [FileNotFoundError]. *)
Definition sshpass_absent (h : host) : Prop :=
  ∀ argv, head argv = Some "sshpass" → ∃ msg, spawn h argv = NotFound msg.

(** A host without [sshpass] on which [ssh] itself answers. *)
Definition host_without_sshpass : host :=
  mkHost (λ argv, match argv with
                  | prog :: _ =>
                      if String.eqb prog "sshpass"
                      then NotFound "[Errno 2] No such file or directory: 'sshpass'"
                      else Exited 0 "connected" ""
                  | [] => Failed "empty command"
                  end)
         (λ _, false).

Definition password_client : SSHClient :=
  mkClient "10.0.0.5" "root" None (Some "secret") 22.

End Ssh.

(** ** The data store: execution records and the metrics file *)

Module Store.

Section store.
Context {F : Py.Float}.

(** A value bound to a [?] of a statement or held in a column. Timestamps
    are instants on an integer time line (the code stores their ISO text). *)
Inductive value : Type :=
| VNull
| VInt (z : Z)
| VText (s : string)
| VReal (x : Py.float)
| VTime (t : Z).

(** The columns of the [executions] table ([SCHEMA_SQL]). *)
Definition executions_columns : list string :=
  [ "id"; "name"; "status"; "workload_type"; "storage_backend";
    "cluster_name"; "started_at"; "completed_at"; "duration_seconds";
    "client_count"; "total_iops"; "avg_latency_us";
    "total_throughput_mbps"; "config_path"; "metrics_path"; "report_path";
    "error_message"; "network_baseline"; "created_at" ].

(** The table: its rows, each a map from column name to value. *)
Definition table : Type := list (gmap string value).

Definition is_terminal (status : string) : bool :=
  bool_decide (status ∈ ["completed"; "failed"; "cancelled"]).

(** The keyword arguments after the two [if]s of
    [update_execution_status]. *)
Definition stamp_kwargs (now : Z) (status : string)
    (kwargs : gmap string value) : gmap string value :=
  let kwargs1 :=
    if String.eqb status "running"
       && negb (bool_decide (is_Some (kwargs !! "started_at")))
    then <["started_at" := VTime now]> kwargs
    else kwargs in
  if is_terminal status
  then <["completed_at" := VTime now]> kwargs1
  else kwargs1.

(** [WHERE id = ?]. *)
Definition has_id (execution_id : string) (r : gmap string value) : bool :=
  match r !! "id" with
  | Some (VText s) => String.eqb s execution_id
  | _ => false
  end.

(** [UPDATE executions SET k1 = ?, ... WHERE id = ?]: the assignments
    replace the named columns of every row whose [id] matches. *)
Definition sql_update (assignments : gmap string value)
    (execution_id : string) (t : table) : table :=
  (λ r : gmap string value,
     if has_id execution_id r then assignments ∪ r else r) <$> t.

(** [DataStore.update_execution_status(execution_id, status, **kwargs)].
    A keyword that repeats a positional parameter is a [TypeError] at the
    call; a keyword that is no column makes the statement fail. *)
Definition update_execution_status (now : Z) (t : table)
    (execution_id status : string) (kwargs : gmap string value)
    : Py.result table :=
  if bool_decide (is_Some (kwargs !! "status")
                  ∨ is_Some (kwargs !! "execution_id"))
  then Py.Raise "TypeError" "got multiple values for argument"
  else
    let kwargs' := stamp_kwargs now status kwargs in
    if bool_decide (map_Forall (λ k _, k ∈ executions_columns) kwargs')
    then Py.Ok (sql_update (<["status" := VText status]> kwargs')
                  execution_id t)
    else Py.Raise "OperationalError" "no such column".

(** [get_execution]: the first row with that id. *)
Definition get_execution (t : table) (execution_id : string)
    : option (gmap string value) :=
  head (filter (λ r, has_id execution_id r = true) t).

(** The [status] column of the record, if there is one. *)
Definition status_of (t : table) (execution_id : string) : option value :=
  get_execution t execution_id ≫= λ r, r !! "status".

End store.

(** A line of a JSON-lines file: blank, not decodable as JSON, or a
    decoded record. *)
Inductive line (A : Type) : Type :=
| Blank
| Malformed
| Json (m : A).
Arguments Blank {A}.
Arguments Malformed {A}.
Arguments Json {A} m.

(** A [datetime]: naive or aware of its time zone, and its position on
    the time line of its kind (wall-clock time for a naive one, the UTC
    instant for an aware one). *)
Record datetime : Type := mkDatetime {
  aware : bool;
  instant : Z
}.

(** [a < b] on datetimes; a naive one and an aware one cannot be
    ordered. *)
Definition dt_lt (a b : datetime) : Py.result bool :=
  if Bool.eqb (aware a) (aware b)
  then Py.Ok (Z.ltb (instant a) (instant b))
  else Py.Raise "TypeError"
         "can't compare offset-naive and offset-aware datetimes".

Section metrics.
Context {A : Type}.
(** What [datetime.fromisoformat(m.get("ts", "").replace("Z", "+00:00"))]
    gives for a decoded line [m]: the datetime, or the exception raised
    ([AttributeError] when [m] is no dictionary or its ["ts"] no string,
    [ValueError] when the text is no ISO date, the empty text of a
    missing ["ts"] included). [read_metrics] catches none of them. *)
Context (ts : A → Py.result datetime).

(** Does the record pass the time filter? A record before [start_time]
    is dropped without being compared with [end_time]. *)
Definition in_window (start_time end_time : option datetime) (m : A)
    : Py.result bool :=
  match start_time, end_time with
  | None, None => Py.Ok true
  | _, _ =>
      t <- ts m ;;
      before <- match start_time with
                | Some s => dt_lt t s
                | None => Py.Ok false
                end ;;
      if before : bool then Py.Ok false
      else
        after <- match end_time with
                 | Some e => dt_lt e t
                 | None => Py.Ok false
                 end ;;
        Py.Ok (negb after)
  end.

Fixpoint read_lines (start_time end_time : option datetime)
    (lines : list (line A))
    : Py.result (list A) :=
  match lines with
  | [] => Py.Ok []
  | Blank :: rest | Malformed :: rest => read_lines start_time end_time rest
  | Json m :: rest =>
      keep <- in_window start_time end_time m ;;
      tail <- read_lines start_time end_time rest ;;
      Py.Ok (if keep : bool then m :: tail else tail)
  end.

(** [DataStore.read_metrics]; [file] is [None] when [aggregate.jsonl]
    does not exist. *)
Definition read_metrics (file : option (list (line A)))
    (start_time end_time : option datetime) : Py.result (list A) :=
  match file with
  | None => Py.Ok []
  | Some lines => read_lines start_time end_time lines
  end.

End metrics.

End Store.

(** ** The metrics route *)

Module MetricsRoute.

Section route.
Context {A : Type} (ts : A → Py.result Store.datetime).

(** The "apply limit" step of [get_metrics]. *)
Definition apply_limit (metrics : list A) (limit : Z) : Py.result (list A) :=
  if Z.ltb limit (Z.of_nat (length metrics))
  then
    step <- Py.floordiv (Z.of_nat (length metrics)) limit ;;
    strided <- Py.slice_step metrics step ;;
    Py.Ok (Py.slice_to strided limit)
  else Py.Ok metrics.

(** [get_metrics(execution_id, start_time, end_time, limit)]: the
    ["metrics"] field of the response. [limit] is declared
    [Query(default=1000, le=10000)]. *)
Definition get_metrics (execution_exists : bool)
    (file : option (list (Store.line A)))
    (start_time end_time : option Store.datetime) (limit : Z)
    : Py.result (list A) :=
  if Z.ltb 10000 limit
  then Py.Raise "RequestValidationError" "limit"
  else if negb execution_exists
  then Py.Raise "HTTPException" "404"
  else
    metrics <- Store.read_metrics ts file start_time end_time ;;
    apply_limit metrics limit.

End route.

(** Five samples one second apart, the record being its own instant; the
    timestamps are naive, as [datetime.utcnow().isoformat()] writes
    them. *)
Definition naive_ts (t : Z) : Py.result Store.datetime :=
  Py.Ok (Store.mkDatetime false t).

Definition five_samples : list (Store.line Z) :=
  [Store.Json 1; Store.Json 2; Store.Json 3; Store.Json 4; Store.Json 5].

End MetricsRoute.

(** ** The precheck runner *)

Module Prechecks.

Inductive CheckSeverity : Type := INFO | WARNING | CRITICAL.

Record CheckResult : Type := mkCheck {
  name : string;
  passed : bool;
  severity : CheckSeverity;
  message : string
}.

Inductive ClientStatus : Type :=
| UNKNOWN | ONLINE | OFFLINE | BUSY | ERROR | UNREACHABLE.

Definition status_value (s : ClientStatus) : string :=
  match s with
  | UNKNOWN => "unknown" | ONLINE => "online" | OFFLINE => "offline"
  | BUSY => "busy" | ERROR => "error" | UNREACHABLE => "unreachable"
  end.

Record ClientHealthResult : Type := mkHealth {
  client_id : string;
  hostname : string;
  status : ClientStatus;
  errors : list string
}.

Record CustomCommandConfig : Type := mkCommand {
  command : string;
  blocking : bool
}.

Record CommandResult : Type := mkCommandResult {
  r_command : string;
  r_stderr : string;
  r_success : bool;
  r_blocking : bool
}.

(** What the collaborators of the runner answer: the Ceph checker
    ([get_cluster_state] gives the health status, [run_all_checks] the
    checks, either may raise), each custom command (success and stderr),
    and the health check of each client, given its id and hostname. *)
Record probes : Type := mkProbes {
  cluster_state_probe : Py.result string;
  cluster_checks_probe : Py.result (list CheckResult);
  command_probe : CustomCommandConfig → bool * string;
  client_probe : string → string → ClientHealthResult
}.

Record PrecheckRunner : Type := mkRunner {
  backend_is_ceph : bool;
  clients : list (string * string);
  check_cluster : bool;
  check_clients : bool;
  check_network : bool;
  custom_commands : list CustomCommandConfig
}.

Record PrecheckReport : Type := mkReport {
  overall_status : string;
  can_proceed : bool;
  cluster_health : option string;
  cluster_checks : list CheckResult;
  clients_total : Z;
  clients_online : Z;
  clients_offline : Z;
  client_results : list ClientHealthResult;
  excluded_clients : list string;
  custom_command_results : list CommandResult;
  network_baseline : option string;
  warnings : list string;
  blocking_issues : list string;
  proceed_message : string
}.

(** [CustomCommandRunner.run_command], as far as the runner reads it. *)
Definition run_command (p : probes) (cmd : CustomCommandConfig)
    : CommandResult :=
  let '(ok, err) := command_probe p cmd in
  mkCommandResult (command cmd) err ok (blocking cmd).

(** [CustomCommandRunner.run_multiple]: stops after the first blocking
    command that failed. *)
Fixpoint run_multiple (p : probes) (commands : list CustomCommandConfig)
    : list CommandResult :=
  match commands with
  | [] => []
  | cmd :: rest =>
      let result := run_command p cmd in
      if blocking cmd && negb (r_success result)
      then [result]
      else result :: run_multiple p rest
  end.

(** Phase 1: issues and warnings of the cluster checks. *)
Definition cluster_issue (c : CheckResult) : list string :=
  if negb (passed c)
  then ["[Cluster] " +:+ name c +:+ ": " +:+ message c] else [].

Definition cluster_warning (c : CheckResult) : list string :=
  if negb (passed c) then []
  else match severity c with
       | WARNING => ["[Cluster] " +:+ name c +:+ ": " +:+ message c]
       | _ => []
       end.

(** Phase 3: the warning of a client that is not online. *)
Definition client_warning (r : ClientHealthResult) : list string :=
  match status r with
  | ONLINE => []
  | UNREACHABLE =>
      ["[Client] " +:+ hostname r +:+ ": unreachable - "
       +:+ Py.join ", " (errors r)]
  | s => ["[Client] " +:+ hostname r +:+ ": " +:+ status_value s]
  end.

Definition is_online (r : ClientHealthResult) : bool :=
  match status r with ONLINE => true | _ => false end.

(** Phase 1: cluster health, the checks, and the issues and warnings they
    give. *)
Definition cluster_phase (rn : PrecheckRunner) (p : probes)
    : option string * list CheckResult * list string * list string :=
  if check_cluster rn && backend_is_ceph rn then
    match cluster_state_probe p, cluster_checks_probe p with
    | Py.Ok h, Py.Ok cs =>
        (Some h, cs, cs ≫= cluster_issue, cs ≫= cluster_warning)
    | Py.Ok h, Py.Raise _ e =>
        (Some h, [], ["[Cluster] Connection failed: " +:+ e], [])
    | Py.Raise _ e, _ =>
        (None, [], ["[Cluster] Connection failed: " +:+ e], [])
    end
  else (None, [], [], []).

(** Phase 2: the issue of a custom command that failed and is blocking. *)
Definition command_issue (r : CommandResult) : list string :=
  if negb (r_success r) && r_blocking r
  then ["[Command] " +:+ r_command r +:+ ": " +:+ r_stderr r] else [].

(** Phase 3: the health results of the clients. *)
Definition client_phase (rn : PrecheckRunner) (p : probes)
    : list ClientHealthResult :=
  if check_clients rn && negb (bool_decide (clients rn = []))
  then (λ c, client_probe p c.1 c.2) <$> clients rn else [].

(** "Determine overall status": status, [can_proceed] and the message. *)
Definition verdict (blocking_issues warnings : list string)
    : string * bool * string :=
  match blocking_issues, warnings with
  | _ :: _, _ =>
      ("failed", false,
       "Cannot proceed: " +:+ pretty (length blocking_issues)
       +:+ " critical issue(s)")
  | [], _ :: _ =>
      ("passed_with_warnings", true,
       "Can proceed with " +:+ pretty (length warnings) +:+ " warning(s)")
  | [], [] => ("passed", true, "All checks passed. Ready to proceed.")
  end.

(** [PrecheckRunner.run_all_prechecks]. *)
Definition run_all_prechecks (rn : PrecheckRunner) (p : probes)
    : PrecheckReport :=
  let '(health, checks, blocking1, warnings1) := cluster_phase rn p in
  let results2 := run_multiple p (custom_commands rn) in
  let blocking2 := results2 ≫= command_issue in
  let results3 := client_phase rn p in
  let online := Z.of_nat (length (filter (λ r, is_online r = true) results3)) in
  let excluded := client_id <$> filter (λ r, is_online r = false) results3 in
  let warnings3 := results3 ≫= client_warning in
  let total := Z.of_nat (length (clients rn)) in
  let baseline := if check_network rn then Some "Not implemented" else None in
  let blocking_all := blocking1 ++ blocking2 in
  let warnings_all := warnings1 ++ warnings3 in
  let '(overall, proceed, msg) := verdict blocking_all warnings_all in
  mkReport overall proceed health checks total online (total - online)
    results3 excluded results2 baseline warnings_all blocking_all msg.

End Prechecks.

(** ** The execution engine

    One execution is followed from [run_execution] to its end. The three
    dictionaries of the engine, keyed by execution id, are therefore
    options. The collaborators (data store inventory, precheck probes,
    workload executor, event bus) answer through the fields of [env]; what
    the engine does to them is appended to a trace. [run_execution] is a
    coroutine: [stop_execution] can run whenever it is suspended, which
    [stop_requested] decides phase by phase. The clock of one run is read
    as a single instant. *)

Module Engine.

(** A client of the inventory: the dictionary of [get_clients], of which
    the engine reads the ["id"] key (required by the [Client] model). *)
Record client : Type := mkClient {
  client_id : string;
  hostname : string
}.

(** The per-client operations of the workload executor that the engine
    fans out. *)
Inductive remote_op : Type :=
| EnsureFio | InstallCephCommon | MountFilesystem
| RunFio | RunFillCluster | UnmountFilesystem | CleanupClient.

(** When a stop request can arrive while [run_execution] is suspended. *)
Inductive moment : Type :=
| DuringPrechecks | DuringPrepare | DuringRun | DuringCleanup.

Record client_selection : Type := mkSelection {
  mode : option string;
  count : option Z;
  client_ids : option (list string)
}.

(** A non-empty ["mount"] dictionary. *)
Record mount_config : Type := mkMount {
  filesystem_type : option string;
  auto_unmount : option bool;
  mount_point : option string
}.

Record precheck_config : Type := mkPrecheckConfig {
  cluster_health : option bool;
  client_health : option bool;
  network_baseline : option bool;
  custom_commands : option (list Prechecks.CustomCommandConfig)
}.

(** The keys of [workload_config] the engine reads; [None] is an absent
    key (for ["mount"] also [None] or an empty dictionary, which the
    code treats alike). *)
Record workload_config : Type := mkWorkload {
  tool : option string;
  storage_type : option string;
  mount : option mount_config;
  clients : option client_selection;
  prechecks : option precheck_config
}.

Section engine.
Context {F : Py.Float}.

(** The metrics [run_fio] returns ([_parse_fio_results]). *)
Record fio_metrics : Type := mkMetrics {
  iops_r : Z; iops_w : Z; iops_t : Z;
  bw_r : Py.float; bw_w : Py.float; bw_t : Py.float;
  lat_r : Py.float; lat_w : Py.float; lat_avg : Py.float
}.

(** A record of [metrics/clients/<id>.jsonl]. *)
Record client_metrics : Type := mkClientMetrics {
  cm_ts : Z;
  cm_client_id : string;
  cm_metrics : fio_metrics
}.

(** A record of [metrics/aggregate.jsonl]. *)
Record aggregate_metrics : Type := mkAggregate {
  a_ts : Z;
  a_iops_t : Z;
  a_bw_t : Py.float;
  a_lat_avg : Py.float;
  a_clients : nat
}.

Record summary : Type := mkSummary {
  s_completed_at : Z;
  s_total_samples : nat;
  s_clients : list string;
  s_client_count : nat;
  s_peak_iops : Z;
  s_peak_throughput_mbps : Py.float;
  s_avg_latency_us : Py.float
}.

(** What the engine does to the outside world. *)
Inductive event : Type :=
| Remote (op : remote_op) (c : client)
| WriteLog (msg : string)
| SavePrecheckReport (r : Prechecks.PrecheckReport)
| AppendClientMetrics (cid : string) (m : client_metrics)
| AppendMetrics (m : aggregate_metrics)
| SaveCommandLog (ops : list (remote_op * string))
| SaveSummary (sm : summary)
| PublishStop (c : client).

Definition run_result : Type := bool * string * option fio_metrics.

(** The surroundings of one execution: the clock, the inventory, whether
    the cluster configuration validates as a [ClusterConfig] and names a
    Ceph backend, and what every collaborator answers (a task either
    returns or raises; [publish_to_agent] stands for building the stop
    event and publishing it). *)
Record env : Type := mkEnv {
  utcnow : Z;
  get_clients : list client;
  cluster_config_valid : bool;
  backend_is_ceph : bool;
  probes : Prechecks.probes;
  ensure_fio_installed : client → Py.result (bool * string);
  mount_filesystem : client → Py.result (bool * string);
  run_fio : client → Py.result run_result;
  run_fill_cluster : client → Py.result run_result;
  publish_to_agent : client → Py.result unit;
  stop_requested : moment → bool
}.

(** [self._active_executions[execution_id]]. *)
Record exec_state : Type := mkExec {
  phase : string;
  ex_clients : list client;
  ex_client_ids : list string;
  excluded_clients : option (list string)
}.

Record state : Type := mkState {
  active : option exec_state;
  stop_flag : option bool;
  pause_flag : option bool;
  db : Store.table;
  aggregate_file : list (Store.line aggregate_metrics);
  command_log : list (remote_op * string);
  trace : list event
}.

Definition initial_state (t : Store.table) : state :=
  mkState None None None t [] [] [].

(** *** State and exceptions *)

Definition M (A : Type) : Type := state → Py.result A * state.

Definition ret {A} (a : A) : M A := λ s, (Py.Ok a, s).

Definition bind {A B} (m : M A) (k : A → M B) : M B :=
  λ s, match m s with
       | (Py.Ok a, s') => k a s'
       | (Py.Raise exn msg, s') => (Py.Raise exn msg, s')
       end.

Definition raise {A} (exn msg : string) : M A := λ s, (Py.Raise exn msg, s).

Definition gets {A} (f : state → A) : M A := λ s, (Py.Ok (f s), s).

Definition modify (f : state → state) : M unit := λ s, (Py.Ok tt, f s).

(** [try: m except Exception as e: h(str(e))]. *)
Definition try_except {A} (m : M A) (h : string → M A) : M A :=
  λ s, match m s with
       | (Py.Ok a, s') => (Py.Ok a, s')
       | (Py.Raise _ msg, s') => h msg s'
       end.

(** [try: m finally: f]. *)
Definition try_finally {A} (m : M A) (f : M unit) : M A :=
  λ s, let '(r, s') := m s in
       match f s' with
       | (Py.Ok _, s'') => (r, s'')
       | (Py.Raise exn msg, s'') => (Py.Raise exn msg, s'')
       end.

Fixpoint for_each {A} (f : A → M unit) (l : list A) : M unit :=
  match l with
  | [] => ret tt
  | x :: rest => bind (f x) (λ _, for_each f rest)
  end.

Notation "x <~ m ;; k" := (bind m (λ x, k))
  (at level 100, m at next level, right associativity, only parsing).
Notation "m ;;; k" := (bind m (λ _, k))
  (at level 100, right associativity, only parsing).

(** *** Field updates *)

Definition with_active (a : option exec_state) (s : state) : state :=
  mkState a (stop_flag s) (pause_flag s) (db s) (aggregate_file s)
    (command_log s) (trace s).
Definition with_stop_flag (b : option bool) (s : state) : state :=
  mkState (active s) b (pause_flag s) (db s) (aggregate_file s)
    (command_log s) (trace s).
Definition with_pause_flag (b : option bool) (s : state) : state :=
  mkState (active s) (stop_flag s) b (db s) (aggregate_file s)
    (command_log s) (trace s).
Definition with_db (t : Store.table) (s : state) : state :=
  mkState (active s) (stop_flag s) (pause_flag s) t (aggregate_file s)
    (command_log s) (trace s).
Definition with_aggregate_file (f : list (Store.line aggregate_metrics))
    (s : state) : state :=
  mkState (active s) (stop_flag s) (pause_flag s) (db s) f
    (command_log s) (trace s).
Definition with_command_log (l : list (remote_op * string)) (s : state)
    : state :=
  mkState (active s) (stop_flag s) (pause_flag s) (db s) (aggregate_file s)
    l (trace s).
Definition with_trace (tr : list event) (s : state) : state :=
  mkState (active s) (stop_flag s) (pause_flag s) (db s) (aggregate_file s)
    (command_log s) tr.

Definition with_phase (p : string) (x : exec_state) : exec_state :=
  mkExec p (ex_clients x) (ex_client_ids x) (excluded_clients x).
Definition with_clients (cs : list client) (x : exec_state) : exec_state :=
  mkExec (phase x) cs (ex_client_ids x) (excluded_clients x).
Definition with_client_ids (ids : list string) (x : exec_state)
    : exec_state :=
  mkExec (phase x) (ex_clients x) ids (excluded_clients x).
Definition with_excluded (ex : list string) (x : exec_state) : exec_state :=
  mkExec (phase x) (ex_clients x) (ex_client_ids x) (Some ex).

(** *** The engine *)

Variable e : env.
Variable execution_id : string.
Variable wl : workload_config.

Definition emit (ev : event) : M unit :=
  modify (λ s, with_trace (trace s ++ [ev]) s).

(** Does the executor put the commands of this operation in its command
    log? ([unmount_filesystem] and [cleanup_client] do not.) *)
Definition logs_commands (op : remote_op) : bool :=
  match op with
  | UnmountFilesystem | CleanupClient => false
  | _ => true
  end.

(** Start [op] on every client of [cs] (the tasks of one [gather]). The
    command log is kept at the grain of operations. *)
Definition fan_out (op : remote_op) (cs : list client) : M unit :=
  modify (λ s,
    with_trace (trace s ++ (Remote op <$> cs))
      (with_command_log
         (command_log s ++
            (if logs_commands op then (λ c, (op, client_id c)) <$> cs
             else []))
         s)).

(** [await self.data_store.update_execution_status(...)]. *)
Definition db_update (status : string) (kwargs : gmap string Store.value)
    : M unit :=
  λ s, match Store.update_execution_status (utcnow e) (db s)
               execution_id status kwargs with
       | Py.Ok t => (Py.Ok tt, with_db t s)
       | Py.Raise exn msg => (Py.Raise exn msg, s)
       end.

(** [self._update_state(execution_id, phase=p)]. *)
Definition _update_state (p : string) : M unit :=
  modify (λ s, with_active (with_phase p <$> active s) s).

(** [self._active_executions[execution_id]]. *)
Definition the_active : M exec_state :=
  λ s, match active s with
       | Some x => (Py.Ok x, s)
       | None => (Py.Raise "KeyError" execution_id, s)
       end.

(** [ExecutionEngine.stop_execution]. *)
Definition stop_execution : M unit :=
  modify (with_stop_flag (Some true)).

(** [run_execution] is suspended in an [await] of phase [m]; the stop
    route calls [stop_execution] meanwhile when [stop_requested] says so. *)
Definition suspended (m : moment) : M unit :=
  if stop_requested e m then stop_execution else ret tt.

(** [self._stop_flags.get(execution_id)], as a condition. *)
Definition stop_is_set : M bool :=
  gets (λ s, default false (stop_flag s)).

Definition _cleanup_execution : M unit :=
  modify (λ s, with_active None (with_stop_flag None (with_pause_flag None s))).

Definition _handle_stopped : M unit :=
  db_update "cancelled" ∅ ;;;
  cs <~ gets (λ s, from_option ex_clients [] (active s)) ;;
  for_each (λ c, match publish_to_agent e c with
                 | Py.Ok _ => emit (PublishStop c)
                 | Py.Raise exn msg => raise exn msg
                 end) cs ;;;
  _cleanup_execution.

(** The [PrecheckRunner] the precheck phase builds, and its report. *)
Definition precheck_runner : Prechecks.PrecheckRunner :=
  let pc := prechecks wl in
  Prechecks.mkRunner (backend_is_ceph e)
    ((λ c, (client_id c, hostname c)) <$> get_clients e)
    (default true (pc ≫= cluster_health))
    (default true (pc ≫= client_health))
    (default false (pc ≫= network_baseline))
    (default [] (pc ≫= custom_commands)).

Definition precheck_report : Prechecks.PrecheckReport :=
  Prechecks.run_all_prechecks precheck_runner (probes e).

Definition _run_prechecks_phase : M unit :=
  db_update "prechecks" ∅ ;;;
  _update_state "precheck" ;;;
  suspended DuringPrechecks ;;;
  if negb (cluster_config_valid e)
  then raise "ValidationError" "ClusterConfig"
  else
    let report := precheck_report in
    emit (SavePrecheckReport report) ;;;
    if negb (Prechecks.can_proceed report)
    then raise "Exception"
           ("Prechecks failed: "
            +:+ Py.repr_list (Prechecks.blocking_issues report))
    else
      x <~ the_active ;;
      modify (with_active
                (Some (with_excluded (Prechecks.excluded_clients report) x))).

(** The selection policy of the prepare phase. *)
Definition select_clients (excluded : list string) (cs : list client)
    : list client :=
  let sel := clients wl in
  let md := default "all" (sel ≫= mode) in
  let available :=
    filter (λ c, client_id c ∉ excluded) cs in
  if String.eqb md "all" then available
  else if String.eqb md "count" then
    match sel ≫= count with
    | Some n => Py.slice_to available n
    | None => available
    end
  else if String.eqb md "specific" then
    filter (λ c, client_id c ∈ default [] (sel ≫= client_ids)) available
  else available.

(** [WorkloadExecutor.ensure_fio_on_clients]: one
    [(client_id, success, message)] per client. *)
Definition ensure_fio_on_clients (cs : list client)
    : list (string * bool * string) :=
  (λ c, match ensure_fio_installed e c with
        | Py.Raise _ msg => (client_id c, false, msg)
        | Py.Ok (ok, msg) => (client_id c, ok, msg)
        end) <$> cs.

(** The ids for which the installation did not succeed ([fio_failed]). *)
Definition fio_failed_of (cs : list client) : list string :=
  (λ r, r.1.1) <$> filter (λ r, r.1.2 = false) (ensure_fio_on_clients cs).

(** Did the mount task of the client raise or report failure? *)
Definition mount_failed (c : client) : bool :=
  match mount_filesystem e c with
  | Py.Ok (true, _) => false
  | _ => true
  end.

(** The ids of those clients ([failed_mounts]). *)
Definition failed_mounts_of (cs : list client) : list string :=
  client_id <$> filter (λ c, mount_failed c = true) cs.

(** [storage_type == "file" and mount_config]. *)
Definition is_file_workload_with_mount : option mount_config :=
  if String.eqb (default "block" (storage_type wl)) "file"
  then mount wl else None.

(** "Ensure FIO is installed on all clients": the value is the local
    variable [selected_clients] afterwards. *)
Definition ensure_fio_step (selected_clients : list client)
    : M (list client) :=
  if String.eqb (default "fio" (tool wl)) "fio" then
    fan_out EnsureFio selected_clients ;;;
    let fio_failed := fio_failed_of selected_clients in
    if bool_decide (fio_failed = []) then ret selected_clients
    else
      emit (WriteLog ("FIO install failed on: "
                      +:+ Py.repr_list fio_failed)) ;;;
      ret (filter (λ c, client_id c ∉ fio_failed) selected_clients)
  else ret selected_clients.

(** "Check if this is a file workload that needs mounting". *)
Definition mount_step (selected_clients : list client) : M unit :=
  match is_file_workload_with_mount with
  | Some mc =>
      (if String.eqb (default "" (filesystem_type mc)) "cephfs"
       then fan_out InstallCephCommon selected_clients else ret tt) ;;;
      fan_out MountFilesystem selected_clients ;;;
      let failed_mounts := failed_mounts_of selected_clients in
      if bool_decide (failed_mounts = []) then ret tt
      else
        emit (WriteLog ("Mount failed on clients: "
                        +:+ Py.repr_list failed_mounts)) ;;;
        y <~ the_active ;;
        modify (with_active
                  (Some (with_clients
                           (filter (λ c, client_id c ∉ failed_mounts)
                              selected_clients) y)))
  | None => ret tt
  end.

Definition _run_prepare_phase : M unit :=
  db_update "preparing" ∅ ;;;
  _update_state "prepare" ;;;
  suspended DuringPrepare ;;;
  let cs := get_clients e in
  x <~ the_active ;;
  let excluded := default [] (excluded_clients x) in
  let selected_clients := select_clients excluded cs in
  if bool_decide (selected_clients = [])
  then raise "Exception" "No clients available for execution"
  else
    modify (with_active
              (Some (with_client_ids (client_id <$> selected_clients)
                       (with_clients selected_clients x)))) ;;;
    selected_clients <~ ensure_fio_step selected_clients ;;
    mount_step selected_clients ;;;
    y <~ the_active ;;
    db_update "preparing"
      {[ "client_count" := Store.VInt (Z.of_nat (length (ex_clients y))) ]}.

(** The local [selected_clients] after the FIO step. *)
Definition after_ensure_fio (selected_clients : list client) : list client :=
  if String.eqb (default "fio" (tool wl)) "fio"
     && negb (bool_decide (fio_failed_of selected_clients = []))
  then filter (λ c, client_id c ∉ fio_failed_of selected_clients)
         selected_clients
  else selected_clients.

(** The client list the prepare phase leaves in
    [_active_executions[execution_id]["clients"]], which the run phase
    fans out to. *)
Definition participants_at_run_start (excluded : list string) : list client :=
  let selected_clients := select_clients excluded (get_clients e) in
  let survivors := after_ensure_fio selected_clients in
  match is_file_workload_with_mount with
  | Some _ =>
      if bool_decide (failed_mounts_of survivors = []) then selected_clients
      else filter (λ c, client_id c ∉ failed_mounts_of survivors) survivors
  | None => selected_clients
  end.

(** The participant set in the words of the specification: the selection
    policy applied to the inventory without the excluded clients, minus
    the clients whose tool installation failed, minus the clients whose
    mount failed. *)
Definition survivor_arithmetic (excluded : list string) : list client :=
  let selected_clients := select_clients excluded (get_clients e) in
  let installed :=
    if String.eqb (default "fio" (tool wl)) "fio"
    then filter (λ c, client_id c ∉ fio_failed_of selected_clients)
           selected_clients
    else selected_clients in
  match is_file_workload_with_mount with
  | Some _ =>
      filter (λ c, client_id c ∉ failed_mounts_of installed) installed
  | None => installed
  end.

(** The running totals of the result loop. *)
Record totals : Type := mkTotals {
  total_iops : Z;
  total_throughput : Py.float;
  total_latency : Py.float;
  latency_count : Z
}.

Definition add_metrics (acc : totals) (m : fio_metrics) : totals :=
  let acc1 :=
    mkTotals (total_iops acc + iops_t m)
      (Py.f_add (total_throughput acc) (bw_t m))
      (total_latency acc) (latency_count acc) in
  if Py.f_pos (lat_avg m)
  then mkTotals (total_iops acc1) (total_throughput acc1)
         (Py.f_add (total_latency acc1) (lat_avg m))
         (latency_count acc1 + 1)
  else acc1.

(** One turn of the loop over the gathered results. *)
Definition process_result (acc : totals) (c : client)
    (r : Py.result run_result) : M totals :=
  match r with
  | Py.Raise _ msg =>
      emit (WriteLog ("FIO failed on " +:+ client_id c +:+ ": " +:+ msg)) ;;;
      ret acc
  | Py.Ok (true, _, Some m) =>
      emit (AppendClientMetrics (client_id c)
              (mkClientMetrics (utcnow e) (client_id c) m)) ;;;
      ret (add_metrics acc m)
  | Py.Ok (_, message, _) =>
      emit (WriteLog ("FIO issue on " +:+ client_id c +:+ ": " +:+ message)) ;;;
      ret acc
  end.

(** What one turn of the loop does to the outside world. *)
Definition result_events (cr : client * Py.result run_result) : list event :=
  match cr.2 with
  | Py.Raise _ msg =>
      [WriteLog ("FIO failed on " +:+ client_id cr.1 +:+ ": " +:+ msg)]
  | Py.Ok (true, _, Some m) =>
      [AppendClientMetrics (client_id cr.1)
         (mkClientMetrics (utcnow e) (client_id cr.1) m)]
  | Py.Ok (_, message, _) =>
      [WriteLog ("FIO issue on " +:+ client_id cr.1 +:+ ": " +:+ message)]
  end.

Fixpoint process_results (acc : totals)
    (rs : list (client * Py.result run_result)) : M totals :=
  match rs with
  | [] => ret acc
  | (c, r) :: rest =>
      acc' <~ process_result acc c r ;;
      process_results acc' rest
  end.

(** The tool decides which operation the run phase fans out, and with it
    the task of each client. *)
Definition run_op : remote_op :=
  if String.eqb (default "fio" (tool wl)) "fill_cluster"
  then RunFillCluster else RunFio.

Definition run_task (c : client) : Py.result run_result :=
  match run_op with
  | RunFillCluster => run_fill_cluster e c
  | _ => run_fio e c
  end.

(** The aggregate record computed from the totals. *)
Definition average_latency (acc : totals) : Py.float :=
  if Z.ltb 0 (latency_count acc)
  then Py.f_div (total_latency acc) (Py.f_of_int (latency_count acc))
  else Py.f_of_int 0.

Definition _run_execution_phase : M unit :=
  db_update "running" ∅ ;;;
  _update_state "steady_state" ;;;
  suspended DuringRun ;;;
  x <~ the_active ;;
  let cs := ex_clients x in
  if bool_decide (cs = [])
  then raise "Exception" "No clients available for execution"
  else
    fan_out run_op cs ;;;
    let results := (λ c, (c, run_task c)) <$> cs in
    acc <~ process_results
             (mkTotals 0 (Py.f_of_int 0) (Py.f_of_int 0) 0) results ;;
    let avg_latency := average_latency acc in
    let aggregate :=
      mkAggregate (utcnow e) (total_iops acc) (total_throughput acc)
        avg_latency (length cs) in
    emit (AppendMetrics aggregate) ;;;
    modify (λ s, with_aggregate_file
                   (aggregate_file s ++ [Store.Json aggregate]) s) ;;;
    db_update "running"
      (<[ "total_iops" := Store.VInt (total_iops acc) ]>
       (<[ "total_throughput_mbps" := Store.VReal (total_throughput acc) ]>
        {[ "avg_latency_us" := Store.VReal avg_latency ]})).

(** The summary statistics of the cleanup phase. *)
Definition summarize (cs : list client) (metrics : list aggregate_metrics)
    : summary :=
  let peak_iops := foldl (λ acc m, Z.max acc (a_iops_t m)) 0 metrics in
  let peak_tp :=
    foldl (λ acc m, Py.f_max acc (a_bw_t m)) (Py.f_of_int 0) metrics in
  let lats := filter (λ m, Py.f_pos (a_lat_avg m) = true) metrics in
  let total_lat :=
    foldl (λ acc m, Py.f_add acc (a_lat_avg m)) (Py.f_of_int 0) lats in
  let avg :=
    if bool_decide (lats = []) then Py.f_of_int 0
    else Py.f_div total_lat (Py.f_of_int (Z.of_nat (length lats))) in
  mkSummary (utcnow e) (length metrics) (client_id <$> cs) (length cs)
    peak_iops peak_tp avg.

Definition _run_cleanup_phase : M unit :=
  log <~ gets command_log ;;
  (if bool_decide (log = []) then ret tt
   else emit (SaveCommandLog log) ;;; modify (with_command_log [])) ;;;
  _update_state "cleanup" ;;;
  suspended DuringCleanup ;;;
  x <~ the_active ;;
  let cs := ex_clients x in
  match is_file_workload_with_mount with
  | Some mc =>
      if default true (auto_unmount mc)
      then fan_out UnmountFilesystem cs else ret tt
  | None => ret tt
  end ;;;
  fan_out CleanupClient cs ;;;
  file <~ gets aggregate_file ;;
  match Store.read_metrics (λ m, Py.Ok (Store.mkDatetime false (a_ts m)))
          (Some file) None None with
  | Py.Raise exn msg => raise exn msg
  | Py.Ok metrics =>
      emit (SaveSummary (summarize cs metrics)) ;;;
      _update_state "done"
  end.

(** [ExecutionEngine.run_execution]. *)
Definition run_execution (run_prechecks : bool) : M unit :=
  modify (λ s, with_active (Some (mkExec "init" [] [] None))
                 (with_stop_flag (Some false)
                    (with_pause_flag (Some false) s))) ;;;
  try_finally
    (try_except
       (stopped <~ (if run_prechecks
                    then _run_prechecks_phase ;;; stop_is_set
                    else ret false) ;;
        if stopped : bool then _handle_stopped
        else
          _run_prepare_phase ;;;
          stopped <~ stop_is_set ;;
          if stopped : bool then _handle_stopped
          else
            _run_execution_phase ;;;
            _run_cleanup_phase ;;;
            db_update "completed" ∅)
       (λ error_message,
          db_update "failed"
            {[ "error_message" := Store.VText error_message ]} ;;;
          emit (WriteLog ("Execution failed: " +:+ error_message))))
    _cleanup_execution.

End engine.

Global Instance client_eq_dec : EqDecision client.
Proof. solve_decision. Defined.

(** The same surroundings, except that the run task of worker [w]
    raises. *)
Definition inject_failure `{F : Py.Float} (w : client) (exn msg : string)
    (e : env) : env :=
  mkEnv (utcnow e) (get_clients e) (cluster_config_valid e)
    (backend_is_ceph e) (probes e) (ensure_fio_installed e)
    (mount_filesystem e)
    (λ c, if decide (c = w) then Py.Raise exn msg else run_fio e c)
    (λ c, if decide (c = w) then Py.Raise exn msg else run_fill_cluster e c)
    (publish_to_agent e) (stop_requested e).

(** The records appended to [metrics/clients/<cid>.jsonl]. *)
Definition metrics_appended_for `{F : Py.Float} (cid : string)
    (tr : list event) : list client_metrics :=
  tr ≫= λ ev, match ev with
              | AppendClientMetrics cid' m =>
                  if String.eqb cid' cid then [m] else []
              | _ => []
              end.

(** The client of an event that starts operation [op]. *)
Definition remote_client `{F : Py.Float} (op : remote_op) (ev : event)
    : list client :=
  match ev with
  | Remote op' c =>
      match op, op' with
      | EnsureFio, EnsureFio
      | InstallCephCommon, InstallCephCommon
      | MountFilesystem, MountFilesystem
      | RunFio, RunFio
      | RunFillCluster, RunFillCluster
      | UnmountFilesystem, UnmountFilesystem
      | CleanupClient, CleanupClient => [c]
      | _, _ => []
      end
  | _ => []
  end.

(** The clients an operation was started on, in order. *)
Definition started_on `{F : Py.Float} (op : remote_op) (tr : list event)
    : list client :=
  tr ≫= remote_client op.

(** The messages written to the execution log, in order. *)
Definition log_lines `{F : Py.Float} (tr : list event) : list string :=
  tr ≫= λ ev, match ev with WriteLog msg => [msg] | _ => [] end.

Definition is_remote `{F : Py.Float} (ev : event) : bool :=
  match ev with Remote _ _ => true | _ => false end.

(** The status column of the execution record after a run. *)
Definition final_status `{F : Py.Float} (execution_id : string)
    (s : state) : option Store.value :=
  Store.status_of (db s) execution_id.

(** The table holds the record of the execution. *)
Definition has_record `{F : Py.Float} (t : Store.table)
    (execution_id : string) : Prop :=
  is_Some (Store.get_execution t execution_id).

(** Keyword arguments that name columns, none of them [status] or [id]. *)
Definition engine_kwargs `{F : Py.Float} (kwargs : gmap string Store.value)
    : Prop :=
  kwargs !! "status" = None ∧ kwargs !! "execution_id" = None
  ∧ kwargs !! "id" = None
  ∧ map_Forall (λ k _, k ∈ Store.executions_columns) kwargs.

End Engine.

(** ** Concrete runs *)

Module Scenario.
Import Engine.

#[local] Existing Instance Py.Z_float.

Definition c1 : client := mkClient "client-1" "192.168.1.100".
Definition c2 : client := mkClient "client-2" "192.168.1.101".
Definition c3 : client := mkClient "client-3" "192.168.1.102".

Definition sample_metrics : fio_metrics :=
  mkMetrics 1000 0 1000 100 0 100 200 0 100.

Definition all_green : Prechecks.probes :=
  Prechecks.mkProbes (Py.Ok "HEALTH_OK") (Py.Ok [])
    (λ _, (true, ""))
    (λ i h, Prechecks.mkHealth i h Prechecks.ONLINE []).

(** Cluster health returns [HEALTH_ERR]. *)
Definition health_err : Prechecks.probes :=
  Prechecks.mkProbes (Py.Ok "HEALTH_ERR")
    (Py.Ok [Prechecks.mkCheck "cluster_health" false Prechecks.CRITICAL
              "Cluster health is HEALTH_ERR"])
    (λ _, (true, ""))
    (λ i h, Prechecks.mkHealth i h Prechecks.ONLINE []).

(** The default workload: fio on block storage, all clients. *)
Definition fio_workload : workload_config :=
  mkWorkload (Some "fio") (Some "block") None
    (Some (mkSelection (Some "all") None None)) None.

(** The execution record as [create_execution] leaves it. *)
Definition pending_row : gmap string Store.value :=
  {[ "id" := Store.VText "exec-1"; "status" := Store.VText "pending" ]}.

(** Everything succeeds; the optional arguments make one client fail its
    FIO installation and place a stop request. *)
Definition env_with (inventory : list client) (pr : Prechecks.probes)
    (fio_missing_on : string) (stop_at : moment → bool) : env :=
  mkEnv 1000 inventory true true pr
    (λ c, if String.eqb (client_id c) fio_missing_on
          then Py.Ok (false, "Failed to install FIO: No package manager found")
          else Py.Ok (true, "FIO already installed: fio-3.35"))
    (λ _, Py.Ok (true, "Mounted"))
    (λ _, Py.Ok (true, "FIO completed", Some sample_metrics))
    (λ _, Py.Ok (true, "Fill completed", Some sample_metrics))
    (λ _, Py.Ok tt)
    stop_at.

Definition never : moment → bool := λ _, false.
Definition during_run : moment → bool :=
  λ m, match m with DuringRun => true | _ => false end.
Definition during_prechecks : moment → bool :=
  λ m, match m with DuringPrechecks => true | _ => false end.

(** S2: the precheck blocks. *)
Definition blocked_run : Py.result unit * state :=
  run_execution (env_with [c1; c2; c3] health_err "" never)
    "exec-1" fio_workload true (initial_state [pending_row]).

(** S3: three workers, [client-2] lacks fio and the install fails. *)
Definition partial_prepare_run : Py.result unit * state :=
  run_execution (env_with [c1; c2; c3] all_green "client-2" never)
    "exec-1" fio_workload true (initial_state [pending_row]).

(** S4: a stop request arrives while the benchmark runs. *)
Definition stopped_run : Py.result unit * state :=
  run_execution (env_with [c1; c2; c3] all_green "" during_run)
    "exec-1" fio_workload true (initial_state [pending_row]).

(** A stop request during the prechecks. *)
Definition stopped_early_run : Py.result unit * state :=
  run_execution (env_with [c1; c2; c3] all_green "" during_prechecks)
    "exec-1" fio_workload true (initial_state [pending_row]).

(** The engine state when the run phase starts on three prepared
    clients. *)
Definition prepared_state : state :=
  mkState (Some (mkExec "prepare" [c1; c2; c3]
                   ["client-1"; "client-2"; "client-3"] (Some [])))
    (Some false) (Some false) [pending_row] [] [] [].

End Scenario.

(** ** More Python primitives *)

Module Builtins.

(** [l[start:]]: a negative [start] counts from the end. *)
Definition slice_from {A} (l : list A) (start : Z) : list A :=
  if Z.leb 0 start
  then drop (Z.to_nat start) l
  else drop (Z.to_nat (Z.of_nat (length l) + start)) l.

(** [l.remove(x)]: the first occurrence of [x] goes (the callers test
    membership first, so the [ValueError] of an absent [x] cannot occur). *)
Fixpoint list_remove `{EqDecision A} (x : A) (l : list A) : list A :=
  match l with
  | [] => []
  | y :: t => if decide (y = x) then t else y :: list_remove x t
  end.

(** [sub in s]. *)
Fixpoint contains (sub s : string) : bool :=
  String.prefix sub s
  || match s with
     | EmptyString => false
     | String _ t => contains sub t
     end.

(** [str.isspace] on an ASCII character. *)
Definition isspace (a : Ascii.ascii) : bool :=
  let n := Ascii.nat_of_ascii a in
  (Nat.leb 9 n && Nat.leb n 13) || (Nat.leb 28 n && Nat.leb n 32).

Fixpoint lstrip (s : string) : string :=
  match s with
  | EmptyString => EmptyString
  | String a t => if isspace a then lstrip t else s
  end.

(** [s.strip()]. *)
Definition strip (s : string) : string :=
  String.rev (lstrip (String.rev (lstrip s))).

(** The line feed. *)
Definition nl : string := String (Ascii.ascii_of_nat 10) EmptyString.

(** The character ['{']. *)
Definition left_brace : Ascii.ascii := Ascii.ascii_of_nat 123.

(** [s[s.find(c):]] when [c] occurs in [s]: the rest of [s] from the
    first [c] on. *)
Fixpoint from_first (c : Ascii.ascii) (s : string) : option string :=
  match s with
  | EmptyString => None
  | String a t => if Ascii.eqb a c then Some s else from_first c t
  end.

(** An optional string inside an f-string: [None] prints as its name. *)
Definition str_opt (o : option string) : string := default "None" o.

(** [repr] of a list of integers. *)
Definition repr_ints (l : list Z) : string :=
  "[" +:+ Py.join ", " (pretty <$> l) +:+ "]".

End Builtins.

(** ** The metrics file and the routes that read it *)

Module MetricsFile.

(** *** The text of a file, line by line *)

Definition is_lf (a : Ascii.ascii) : bool :=
  Ascii.eqb a (Ascii.ascii_of_nat 10).

Definition is_cr (a : Ascii.ascii) : bool :=
  Ascii.eqb a (Ascii.ascii_of_nat 13).

Definition starts_with_lf (s : string) : bool :=
  match s with
  | String a _ => is_lf a
  | EmptyString => false
  end.

(** What [for line in f] yields on a file opened in text mode: the
    complete lines, each ending in a line feed whatever the line end in
    the file was (a line feed, a carriage return or the two in a row),
    and the text after the last line end. *)
Fixpoint split_lines (s : string) : list string * string :=
  match s with
  | EmptyString => ([], EmptyString)
  | String a t =>
      let '(complete, rest) := split_lines t in
      if is_cr a && starts_with_lf t then (complete, rest)
      else if is_cr a || is_lf a then (Builtins.nl :: complete, rest)
      else match complete with
           | [] => ([], String a rest)
           | l :: ls => (String a l :: ls, rest)
           end
  end.

(** The lines of the file: a text after the last line end is a line of
    its own unless it is empty. *)
Definition file_lines (s : string) : list string :=
  let '(complete, rest) := split_lines s in
  complete ++ (if String.eqb rest "" then [] else [rest]).


(** The file [aggregate.jsonl] of an execution: the [metrics] directory
    of the execution is missing ([create_execution] makes it), the file is
    missing, or the file holds a text. *)
Inductive file_state : Type :=
| NoDirectory
| NoFile
| Text (content : string).

Definition text_of (f : file_state) : string :=
  match f with
  | Text content => content
  | _ => ""
  end.

Section file.
Context {A : Type}.
(** [json.loads(line)]: the decoded value or the exception raised, a
    [JSONDecodeError] for a text that is no JSON, another one for a text
    the decoder gives up on (a [RecursionError] for too deep a nesting, a
    [ValueError] for an integer of more digits than [int] converts).
    [json.dumps(metrics)] raises on a value it cannot serialise. *)
Variable json_loads : string → Py.result A.
Variable json_dumps : A → Py.result string.

(** What [read_metrics] makes of a line: [if line.strip()], then
    [json.loads(line)] under [except json.JSONDecodeError], which lets
    every other exception pass. *)
Definition decode_line (l : string) : Py.result (Store.line A) :=
  if String.eqb (Builtins.strip l) "" then Py.Ok Store.Blank
  else match json_loads l with
       | Py.Ok m => Py.Ok (Store.Json m)
       | Py.Raise exn msg =>
           if String.eqb exn "JSONDecodeError" then Py.Ok Store.Malformed
           else Py.Raise exn msg
       end.

(** [DataStore.append_metrics]: mode ['a'] creates a missing file in an
    existing directory, then [json.dumps(metrics) + "\n"] is written
    behind whatever the file holds. The result comes with the state of
    the file afterwards; [metrics_file] is the path of the file. *)
Definition append_metrics (metrics_file : string) (f : file_state)
    (metrics : A) : Py.result unit * file_state :=
  match f with
  | NoDirectory =>
      (Py.Raise "FileNotFoundError"
         ("[Errno 2] No such file or directory: '" +:+ metrics_file +:+ "'"),
       NoDirectory)
  | _ =>
      match json_dumps metrics with
      | Py.Ok text =>
          (Py.Ok tt, Text (text_of f +:+ text +:+ Builtins.nl))
      | Py.Raise exn msg => (Py.Raise exn msg, Text (text_of f))
      end
  end.

(** The records the lines of a file decode to, in file order. *)
Definition records (lines : list (Store.line A)) : list A :=
  lines ≫= λ ln, match ln with Store.Json m => [m] | _ => [] end.

(** The datetime is of the kind of the bound, naive or aware, when there
    is a bound. *)
Definition comparable (t : Store.datetime) (bound : option Store.datetime)
    : bool :=
  from_option (λ b, Bool.eqb (Store.aware t) (Store.aware b)) true bound.

(** [start <= ts <= end], an absent bound being no bound. *)
Definition within (start_time end_time : option Store.datetime)
    (t : Store.datetime) : bool :=
  negb (from_option (λ s, Z.ltb (Store.instant t) (Store.instant s))
          false start_time)
  && negb (from_option (λ e, Z.ltb (Store.instant e) (Store.instant t))
             false end_time).

Context (ts : A → Py.result Store.datetime).

(** The loop of [DataStore.read_metrics] over the lines of the text: a
    line is decoded when the loop reaches it, so an exception of the time
    filter on a record comes before any of a later line. *)
Fixpoint read_text_lines (start_time end_time : option Store.datetime)
    (lines : list string) : Py.result (list A) :=
  match lines with
  | [] => Py.Ok []
  | l :: rest =>
      ln <- decode_line l ;;
      match ln with
      | Store.Json m =>
          keep <- Store.in_window ts start_time end_time m ;;
          tail <- read_text_lines start_time end_time rest ;;
          Py.Ok (if keep : bool then m :: tail else tail)
      | _ => read_text_lines start_time end_time rest
      end
  end.

(** [DataStore.read_metrics] on the file itself: the empty list when
    [metrics_file.exists()] is false. *)
Definition read_file (f : file_state)
    (start_time end_time : option Store.datetime) : Py.result (list A) :=
  match f with
  | Text content => read_text_lines start_time end_time (file_lines content)
  | _ => Py.Ok []
  end.

(** [get_latest_metrics(execution_id, count)]: the ["metrics"] field of
    the response. [count] is declared [Query(default=60, le=300)]. *)
Definition get_latest_metrics (execution_exists : bool)
    (file : option (list (Store.line A))) (count : Z) : Py.result (list A) :=
  if Z.ltb 300 count
  then Py.Raise "RequestValidationError" "count"
  else if negb execution_exists
  then Py.Raise "HTTPException" "404"
  else
    metrics <- Store.read_metrics ts file None None ;;
    Py.Ok (if Z.ltb count (Z.of_nat (length metrics))
           then Builtins.slice_from metrics (- count)
           else metrics).

End file.

(** A decoder for the witnesses: the only JSON text is [{}], which is
    its own record. *)
Definition only_braces (l : string) : Py.result string :=
  if String.eqb (Builtins.strip l) "{}" then Py.Ok "{}"
  else Py.Raise "JSONDecodeError" "Expecting value".

Definition dumps_text (m : string) : Py.result string := Py.Ok m.

Definition no_ts (m : string) : Py.result Store.datetime :=
  Py.Raise "ValueError" "Invalid isoformat string: ''".

End MetricsFile.

(** ** Controlling a running execution

    The stop, pause and resume routes with the engine methods they call,
    and the two scaling methods. *)

Module Control.
Import Engine.

Section control.
Context {F : Py.Float}.
Variable e : env.
Variable execution_id : string.

(** [ExecutionEngine.pause_execution]. *)
Definition pause_execution : M unit :=
  bind (modify (with_pause_flag (Some true)))
       (λ _, db_update e execution_id "paused" ∅).

(** [ExecutionEngine.resume_execution]. *)
Definition resume_execution : M unit :=
  bind (modify (with_pause_flag (Some false)))
       (λ _, db_update e execution_id "running" ∅).

(** [execution.get("status") in allowed]. *)
Definition status_in (execution : gmap string Store.value)
    (allowed : list string) : bool :=
  match execution !! "status" with
  | Some (Store.VText st) => bool_decide (st ∈ allowed)
  | _ => false
  end.

(** The three routes: 404 without a record, 400 in the wrong status,
    else the engine method. *)
Definition stop_route : M unit :=
  λ s, match Store.get_execution (db s) execution_id with
       | None => raise "HTTPException" "404" s
       | Some execution =>
           if negb (status_in execution
                      ["running"; "paused"; "prechecks"; "preparing"])
           then raise "HTTPException" "400" s
           else stop_execution s
       end.

Definition pause_route : M unit :=
  λ s, match Store.get_execution (db s) execution_id with
       | None => raise "HTTPException" "404" s
       | Some execution =>
           if negb (status_in execution ["running"])
           then raise "HTTPException" "400" s
           else pause_execution s
       end.

Definition resume_route : M unit :=
  λ s, match Store.get_execution (db s) execution_id with
       | None => raise "HTTPException" "404" s
       | Some execution =>
           if negb (status_in execution ["paused"])
           then raise "HTTPException" "400" s
           else resume_execution s
       end.

End control.

(** *** Scaling

    An element of [state["clients"]]: the prepare phase stores the client
    dictionaries of the inventory, [scale_up] stores ids. A string and a
    dictionary are never equal, and a dictionary cannot be hashed. *)
Inductive entry : Type :=
| Dict (c : client)
| Id (i : string).

Global Instance entry_eq_dec : EqDecision entry.
Proof. solve_decision. Defined.

Definition hashable (x : entry) : bool :=
  match x with Id _ => true | Dict _ => false end.

(** The id of a hashable entry. *)
Definition ids_of (l : list entry) : list string :=
  l ≫= λ x, match x with Id i => [i] | Dict _ => [] end.

(** A client of the inventory with the status merged in from the
    database. *)
Record listed_client : Type := mkListed {
  l_id : string;
  l_status : option string
}.

(** The dictionary a scaling method returns. *)
Inductive scale_reply : Type :=
| Error (error : string)
| Scaled (message : string) (changed : list entry) (total_clients : nat).

(** What a scaling call leaves behind: its outcome, the [clients] list of
    the execution state, and the targets of the events it published, in
    order. *)
Record scale_outcome : Type := mkOutcome {
  reply : Py.result scale_reply;
  clients_after : option (list entry);
  published : list entry
}.

Section scaling.
(** [create_execution_..._event] followed by [publish_to_agent]. *)
Variable publish : entry → Py.result unit.

(** The removal loop of [scale_down]: the working list, the removed
    entries and the published targets so far. *)
Fixpoint remove_loop (to_remove current removed sent : list entry)
    : Py.result (list entry * list entry) * list entry :=
  match to_remove with
  | [] => (Py.Ok (current, removed), sent)
  | client_id :: rest =>
      if bool_decide (client_id ∈ current)
      then
        match publish client_id with
        | Py.Ok _ =>
            remove_loop rest (Builtins.list_remove client_id current)
              (removed ++ [client_id]) (sent ++ [client_id])
        | Py.Raise exn msg => (Py.Raise exn msg, sent)
        end
      else remove_loop rest current removed sent
  end.

(** [ExecutionEngine.scale_down]; [clients] is [None] when the engine
    holds no state for the execution. *)
Definition scale_down (clients : option (list entry)) (count : option Z)
    (client_ids : option (list string)) : scale_outcome :=
  match clients with
  | None => mkOutcome (Py.Ok (Error "Execution not found")) clients []
  | Some current_clients =>
      let to_remove :=
        match client_ids, count with
        | Some (i :: ids), _ =>
            Some (filter (λ c, c ∈ current_clients) (Id <$> (i :: ids)))
        | _, Some n =>
            if Z.eqb n 0 then None
            else Some (Builtins.slice_from current_clients (- n))
        | _, None => None
        end in
      match to_remove with
      | None => mkOutcome (Py.Ok (Error "Specify count or client_ids")) clients []
      | Some to_remove =>
          match remove_loop to_remove current_clients [] [] with
          | (Py.Ok (current, removed), sent) =>
              mkOutcome
                (Py.Ok (Scaled ("Removed " +:+ pretty (length removed)
                                +:+ " clients")
                          removed (length current)))
                (Some current) sent
          | (Py.Raise exn msg, sent) =>
              mkOutcome (Py.Raise exn msg) clients sent
          end
      end
  end.

(** The addition loop of [scale_up]: the set of participants, the added
    ids and the published targets so far. *)
Fixpoint add_loop (to_add : list listed_client) (current : gset string)
    (added sent : list entry)
    : Py.result (gset string * list entry) * list entry :=
  match to_add with
  | [] => (Py.Ok (current, added), sent)
  | client :: rest =>
      let client_id := Id (l_id client) in
      match publish client_id with
      | Py.Ok _ =>
          add_loop rest ({[ l_id client ]} ∪ current)
            (added ++ [client_id]) (sent ++ [client_id])
      | Py.Raise exn msg => (Py.Raise exn msg, sent)
      end
  end.

(** [ExecutionEngine.scale_up]; [all_clients] is what
    [data_store.get_clients()] returns. [set(...)] of a list that holds a
    dictionary is a [TypeError]; the order of [list(current_clients)] is
    that of [elements]. *)
Definition scale_up (all_clients : list listed_client)
    (clients : option (list entry)) (count : option Z)
    (client_ids : option (list string)) : scale_outcome :=
  match clients with
  | None => mkOutcome (Py.Ok (Error "Execution not found")) clients []
  | Some stored =>
      if negb (forallb hashable stored)
      then mkOutcome (Py.Raise "TypeError" "unhashable type: 'dict'") clients []
      else
        let current_clients : gset string := list_to_set (ids_of stored) in
        let available :=
          filter (λ c, (l_id c ∉ current_clients) ∧ l_status c = Some "online")
            all_clients in
        let to_add :=
          match client_ids, count with
          | Some (i :: ids), _ =>
              Some (filter (λ c, l_id c ∈ (i :: ids)) available)
          | _, Some n =>
              if Z.eqb n 0 then None else Some (Py.slice_to available n)
          | _, None => None
          end in
        match to_add with
        | None =>
            mkOutcome (Py.Ok (Error "Specify count or client_ids")) clients []
        | Some to_add =>
            match add_loop to_add current_clients [] [] with
            | (Py.Ok (current, added), sent) =>
                mkOutcome
                  (Py.Ok (Scaled ("Added " +:+ pretty (length added)
                                  +:+ " clients")
                            added (size current)))
                  (Some (Id <$> elements current)) sent
            | (Py.Raise exn msg, sent) =>
                mkOutcome (Py.Raise exn msg) clients sent
            end
        end
  end.

End scaling.

End Control.
(** ** The Ceph health checks

    [CephHealthChecker.run_all_checks] and the six checks it runs on a
    [CephClusterState]. The results are the [CheckResult]s the precheck
    runner reads. *)

Module CephChecks.

Inductive HealthStatus : Type := OK | WARN | ERR | UNKNOWN.

Definition health_value (h : HealthStatus) : string :=
  match h with
  | OK => "HEALTH_OK" | WARN => "HEALTH_WARN" | ERR => "HEALTH_ERR"
  | UNKNOWN => "UNKNOWN"
  end.

Section checks.
Context {F : Py.Float}.
(** [x < n] on a float and the [:.1f] format, left abstract like the
    floats themselves. *)
Variable f_lt : Py.float → Z → bool.
Variable format_1f : Py.float → string.

(** The fields of [CephClusterState] the checks read; [health_checks]
    holds the keys of the dictionary. *)
Record CephClusterState : Type := mkClusterState {
  health_status : HealthStatus;
  health_checks : list string;
  mon_count : Z;
  mon_in_quorum : Z;
  osd_count : Z;
  osd_down : list Z;
  pg_count : Z;
  pg_degraded : Z;
  pg_recovering : Z;
  pg_stuck : Z;
  used_percent : Py.float;
  mgr_active : string;
  mgr_standbys : list string
}.

Definition _check_overall_health (state : CephClusterState)
    : Prechecks.CheckResult :=
  match health_status state with
  | OK =>
      Prechecks.mkCheck "cluster_health" true Prechecks.INFO
        "Cluster health is OK"
  | WARN =>
      Prechecks.mkCheck "cluster_health" true Prechecks.WARNING
        ("Cluster health is WARN: "
         +:+ pretty (length (health_checks state)) +:+ " issues")
  | h =>
      Prechecks.mkCheck "cluster_health" false Prechecks.CRITICAL
        ("Cluster health is " +:+ health_value h)
  end.

Definition _check_osd_status (state : CephClusterState)
    : Prechecks.CheckResult :=
  let down := Z.of_nat (length (osd_down state)) in
  if Z.eqb down 0 then
    Prechecks.mkCheck "osd_status" true Prechecks.INFO
      ("All " +:+ pretty (osd_count state) +:+ " OSDs are up and in")
  else if Z.leb down 2 then
    Prechecks.mkCheck "osd_status" true Prechecks.WARNING
      (pretty down +:+ " OSD(s) down: "
       +:+ Builtins.repr_ints (osd_down state))
  else
    Prechecks.mkCheck "osd_status" false Prechecks.CRITICAL
      ("Too many OSDs down: " +:+ pretty down).

Definition _check_mon_quorum (state : CephClusterState)
    : Prechecks.CheckResult :=
  let ratio :=
    "(" +:+ pretty (mon_in_quorum state) +:+ "/"
    +:+ pretty (mon_count state) +:+ ")" in
  if Z.eqb (mon_in_quorum state) (mon_count state) then
    Prechecks.mkCheck "mon_quorum" true Prechecks.INFO
      ("All " +:+ pretty (mon_count state) +:+ " monitors in quorum")
  else if Z.leb (mon_count state / 2 + 1) (mon_in_quorum state) then
    Prechecks.mkCheck "mon_quorum" true Prechecks.WARNING
      ("Monitor quorum maintained " +:+ ratio)
  else
    Prechecks.mkCheck "mon_quorum" false Prechecks.CRITICAL
      ("Monitor quorum lost " +:+ ratio).

Definition _check_pg_status (state : CephClusterState)
    : Prechecks.CheckResult :=
  if Z.eqb (pg_degraded state) 0 && Z.eqb (pg_recovering state) 0
     && Z.eqb (pg_stuck state) 0 then
    Prechecks.mkCheck "pg_status" true Prechecks.INFO
      ("All " +:+ pretty (pg_count state) +:+ " PGs are active+clean")
  else if Z.ltb 0 (pg_stuck state) then
    Prechecks.mkCheck "pg_status" false Prechecks.CRITICAL
      (pretty (pg_stuck state) +:+ " PGs are stuck")
  else
    Prechecks.mkCheck "pg_status" true Prechecks.WARNING
      ("PGs not fully clean: " +:+ pretty (pg_degraded state)
       +:+ " degraded").

Definition _check_capacity (state : CephClusterState)
    : Prechecks.CheckResult :=
  let used := format_1f (used_percent state) +:+ "% used" in
  if f_lt (used_percent state) 70 then
    Prechecks.mkCheck "capacity" true Prechecks.INFO
      ("Cluster capacity: " +:+ used)
  else if f_lt (used_percent state) 85 then
    Prechecks.mkCheck "capacity" true Prechecks.WARNING
      ("Cluster capacity high: " +:+ used)
  else
    Prechecks.mkCheck "capacity" false Prechecks.CRITICAL
      ("Cluster capacity critical: " +:+ used).

Definition _check_mgr_status (state : CephClusterState)
    : Prechecks.CheckResult :=
  let active := negb (String.eqb (mgr_active state) "") in
  if active && Nat.ltb 0 (length (mgr_standbys state)) then
    Prechecks.mkCheck "mgr_status" true Prechecks.INFO
      ("MGR active: " +:+ mgr_active state)
  else if active then
    Prechecks.mkCheck "mgr_status" true Prechecks.WARNING
      "MGR active but no standbys"
  else
    Prechecks.mkCheck "mgr_status" true Prechecks.WARNING
      "No active MGR daemon detected (cluster may still be functional)".

(** [run_all_checks]; the argument is what [get_cluster_state] gives. *)
Definition run_all_checks (cluster_state : Py.result CephClusterState)
    : list Prechecks.CheckResult :=
  match cluster_state with
  | Py.Raise _ e =>
      [Prechecks.mkCheck "cluster_connectivity" false Prechecks.CRITICAL
         ("Cannot connect to Ceph cluster: " +:+ e)]
  | Py.Ok state =>
      [ _check_overall_health state;
        _check_osd_status state;
        _check_mon_quorum state;
        _check_pg_status state;
        _check_capacity state;
        _check_mgr_status state ]
  end.

End checks.

End CephChecks.
(** ** The client health check

    [ClientHealthChecker.check_single_client] and [generate_summary]. The
    fields that only report measurements (latency, uptime, load, memory,
    disk, agent version) are left out; the commands that read them are
    run all the same. *)

Module ClientHealth.

(** Why the connection or a command on it failed, by the [except] clause
    that handles it: [PermissionDenied], [ConnectionLost], [OSError] or
    [TimeoutError], anything else. *)
Inductive failure : Type :=
| PermissionDenied
| ConnectionLost
| Unreachable (e : string)
| Other (e : string).

(** The client as the controller reaches it: [asyncssh.connect] fails or
    not, and [conn.run(cmd, check=False)] fails or gives a return code
    and the standard output. *)
Record node : Type := mkNode {
  connect : option failure;
  run : string → failure + (Z * string)
}.

Record health : Type := mkHealthState {
  client_id : string;
  hostname : string;
  status : Prechecks.ClientStatus;
  ssh_reachable : bool;
  agent_running : bool;
  tools_installed : list (string * bool);
  storage_accessible : bool;
  mount_points : list (string * bool);
  errors : list string;
  warnings : list string
}.

(** The part of the result the precheck runner reads. *)
Definition as_result (r : health) : Prechecks.ClientHealthResult :=
  Prechecks.mkHealth (client_id r) (hostname r) (status r) (errors r).

Definition REQUIRED_TOOLS : list string :=
  ["fio"; "iperf3"; "dd"; "iostat"; "ping"].

Definition with_status (st : Prechecks.ClientStatus) (r : health) : health :=
  mkHealthState (client_id r) (hostname r) st (ssh_reachable r)
    (agent_running r) (tools_installed r) (storage_accessible r)
    (mount_points r) (errors r) (warnings r).
Definition with_ssh_reachable (b : bool) (r : health) : health :=
  mkHealthState (client_id r) (hostname r) (status r) b
    (agent_running r) (tools_installed r) (storage_accessible r)
    (mount_points r) (errors r) (warnings r).
Definition with_agent_running (b : bool) (r : health) : health :=
  mkHealthState (client_id r) (hostname r) (status r) (ssh_reachable r)
    b (tools_installed r) (storage_accessible r)
    (mount_points r) (errors r) (warnings r).
Definition with_tool (tool : string) (installed : bool) (r : health)
    : health :=
  mkHealthState (client_id r) (hostname r) (status r) (ssh_reachable r)
    (agent_running r) (tools_installed r ++ [(tool, installed)])
    (storage_accessible r) (mount_points r) (errors r) (warnings r).
Definition with_mount_point (mp : string) (accessible : bool) (r : health)
    : health :=
  mkHealthState (client_id r) (hostname r) (status r) (ssh_reachable r)
    (agent_running r) (tools_installed r)
    (accessible || storage_accessible r)
    (mount_points r ++ [(mp, accessible)]) (errors r) (warnings r).
Definition add_error (e : string) (r : health) : health :=
  mkHealthState (client_id r) (hostname r) (status r) (ssh_reachable r)
    (agent_running r) (tools_installed r) (storage_accessible r)
    (mount_points r) (errors r ++ [e]) (warnings r).
Definition add_warning (w : string) (r : health) : health :=
  mkHealthState (client_id r) (hostname r) (status r) (ssh_reachable r)
    (agent_running r) (tools_installed r) (storage_accessible r)
    (mount_points r) (errors r) (warnings r ++ [w]).

(** The body of the [try]: the result so far is kept when a command
    fails. *)
Definition H (A : Type) : Type := health → (failure + A) * health.

Definition hret {A} (a : A) : H A := λ r, (inr a, r).

Definition hbind {A B} (m : H A) (k : A → H B) : H B :=
  λ r, match m r with
       | (inr a, r') => k a r'
       | (inl f, r') => (inl f, r')
       end.

Definition hmodify (f : health → health) : H unit := λ r, (inr tt, f r).

Fixpoint hfor {A} (f : A → H unit) (l : list A) : H unit :=
  match l with
  | [] => hret tt
  | x :: rest => hbind (f x) (λ _, hfor f rest)
  end.

Section check.
Variable n : node.
Variable agent_port : Z.

Definition hrun (cmd : string) : H (Z * string) := λ r, (run n cmd, r).

Definition agent_command : string :=
  "curl -s --connect-timeout 5 http://localhost:" +:+ pretty agent_port
  +:+ "/health || echo 'AGENT_DOWN'".

Definition sys_info_command : string :=
  "cat /proc/uptime 2>/dev/null && cat /proc/loadavg 2>/dev/null && "
  +:+ "free -b 2>/dev/null | grep Mem && df -B1 / 2>/dev/null | tail -1".

Definition tool_command (tool : string) : string := "which " +:+ tool.

Definition mount_command (mp : string) : string :=
  "mountpoint -q " +:+ mp +:+ " 2>/dev/null && ls " +:+ mp
  +:+ " > /dev/null 2>&1".

Definition ping_command (storage_endpoint : string) : string :=
  "ping -c 3 -q " +:+ storage_endpoint +:+ " 2>/dev/null | tail -1".

(** Does the agent answer? *)
Definition agent_answers (out : Z * string) : bool :=
  Z.eqb out.1 0 && negb (Builtins.contains "AGENT_DOWN" out.2).

Definition check_agent : H unit :=
  hbind (hrun agent_command) (λ agent_check,
    if agent_answers agent_check
    then hmodify (with_agent_running true)
    else hmodify (λ r, add_error "Agent not running or not responding"
                         (with_agent_running false r))).

Definition check_tool (tool : string) : H unit :=
  hbind (hrun (tool_command tool)) (λ tool_check,
    let installed := Z.eqb tool_check.1 0 in
    hmodify (λ r,
      let r' := with_tool tool installed r in
      if installed then r'
      else if String.eqb tool "fio"
      then add_warning
             "FIO not installed (will be auto-installed during execution)" r'
      else add_warning ("Tool '" +:+ tool +:+ "' not installed") r')).

Definition check_mount_point (mp : string) : H unit :=
  hbind (hrun (mount_command mp)) (λ mp_check,
    let accessible := Z.eqb mp_check.1 0 in
    hmodify (λ r,
      let r' := with_mount_point mp accessible r in
      if accessible then r'
      else add_error ("Mount point '" +:+ mp +:+ "' not accessible") r')).

(** "Determine final status". *)
Definition final_status (r : health) : health :=
  if negb (agent_running r) then with_status Prechecks.ERROR r
  else if negb (bool_decide (errors r = []))
  then with_status Prechecks.ERROR r
  else with_status Prechecks.ONLINE r.

(** The [except] clauses. *)
Definition handle (f : failure) (r : health) : health :=
  match f with
  | PermissionDenied =>
      add_error "SSH authentication failed"
        (with_status Prechecks.UNREACHABLE r)
  | ConnectionLost =>
      add_error "SSH connection lost" (with_status Prechecks.UNREACHABLE r)
  | Unreachable e =>
      add_error ("Cannot reach client: " +:+ e)
        (with_status Prechecks.UNREACHABLE r)
  | Other e => add_error e (with_status Prechecks.OFFLINE r)
  end.

(** What runs on the open connection. *)
Definition session (storage_endpoint : string) (mount_points : list string)
    : H unit :=
  hbind (hmodify (with_ssh_reachable true)) (λ _,
  hbind check_agent (λ _,
  hbind (hrun sys_info_command) (λ _,
  hbind (hfor check_tool REQUIRED_TOOLS) (λ _,
  hbind (hfor check_mount_point mount_points) (λ _,
  hbind (if negb (String.eqb storage_endpoint "")
         then hbind (hrun (ping_command storage_endpoint)) (λ _, hret tt)
         else hret tt) (λ _,
  hmodify final_status)))))).

(** [check_single_client]. *)
Definition check_single_client (client_id hostname storage_endpoint : string)
    (mount_points : list string) : health :=
  let result :=
    mkHealthState client_id hostname Prechecks.UNKNOWN false false [] false
      [] [] [] in
  match connect n with
  | Some f => handle f result
  | None =>
      match session storage_endpoint mount_points result with
      | (inr _, r) => r
      | (inl f, r) => handle f r
      end
  end.

(** Does the command return on this client, and does it exit with 0? *)
Definition answers (cmd : string) : bool :=
  match run n cmd with inr _ => true | inl _ => false end.

Definition exits_zero (cmd : string) : bool :=
  match run n cmd with inr out => Z.eqb out.1 0 | inl _ => false end.

(** The commands of one check, in the order they are run. *)
Definition commands (storage_endpoint : string) (mount_points : list string)
    : list string :=
  [agent_command; sys_info_command]
  ++ (tool_command <$> REQUIRED_TOOLS)
  ++ (mount_command <$> mount_points)
  ++ (if negb (String.eqb storage_endpoint "")
      then [ping_command storage_endpoint] else []).

End check.

(** The dictionary [generate_summary] returns. *)
Record summary : Type := mkSummary {
  total_clients : Z;
  online : Z;
  offline : Z;
  all_healthy : bool;
  failed_clients : list (string * string * string * list string)
}.

Definition is_online (r : health) : bool :=
  match status r with Prechecks.ONLINE => true | _ => false end.

Definition generate_summary (results : list health) : summary :=
  let total := Z.of_nat (length results) in
  let online :=
    Z.of_nat (length (filter (λ r, is_online r = true) results)) in
  let failed_clients :=
    (λ r, (client_id r, hostname r, Prechecks.status_value (status r),
           errors r))
      <$> filter (λ r, is_online r = false) results in
  mkSummary total online (total - online) (Z.eqb online total)
    failed_clients.

End ClientHealth.
(** ** The workload executor

    The methods of [WorkloadExecutor] that run commands on a client. Each
    goes through [run_ssh_command]; what a command does is decided by the
    world outside, which may take into account everything that was run
    before. The executor's state is the list of the calls made, each with
    its result, and the command log (without its timestamps). *)

Module Executor.

(** The keys of a client dictionary the executor reads, each through
    [dict.get]; [None] is an absent key. *)
Record client : Type := mkClient {
  id : option string;
  hostname : option string;
  ssh_user : option string;
  ssh_password : option string;
  ssh_key_path : option string;
  ssh_port : option Z
}.

Record call : Type := mkCall {
  argv : list string;
  outcome : Ssh.SSHCommandResult
}.

Record log_entry : Type := mkEntry {
  e_client_id : option string;
  e_command : string;
  e_description : string
}.

Record xstate : Type := mkX {
  calls : list call;
  command_log : list log_entry
}.

Definition X (A : Type) : Type := xstate → A * xstate.

Definition ret {A} (a : A) : X A := λ s, (a, s).

Definition bind {A B} (m : X A) (k : A → X B) : X B :=
  λ s, let '(a, s') := m s in k a s'.

Notation "x <~ m ;; k" := (bind m (λ x, k))
  (at level 100, m at next level, right associativity, only parsing).
Notation "m ;;; k" := (bind m (λ _, k))
  (at level 100, right associativity, only parsing).

(** The remote command of a call: the last argument of [ssh]. *)
Definition remote_command (c : call) : string := default "" (last (argv c)).

Definition exit_code (c : call) : Z := Ssh.exit_code (outcome c).

(** [client.get("id", host)]. *)
Definition log_id (c : client) : option string :=
  match id c with Some i => Some i | None => hostname c end.

(** The keys of the [mount] dictionary of a workload, of the [ceph] and
    the [installer_node] dictionary of a cluster configuration; [None] is
    an absent key. *)
Record mount_config : Type := mkMountConfig {
  filesystem_type : option string;
  mount_point : option string;
  mount_options : option string;
  cephfs_user : option string;
  cephfs_path : option string;
  cephfs_secret_file : option string;
  mount_method : option string;
  nfs_server : option string;
  nfs_export : option string;
  nfs_version : option string;
  gluster_servers : option (list string);
  gluster_volume : option string
}.

Record ceph_config : Type := mkCeph {
  monitors : option (list string);
  user : option string;
  conf_path : option string;
  keyring_path : option string
}.

Record installer_config : Type := mkInstaller {
  host : option string;
  username : option string;
  port : option Z
}.

(** What a key that names a sub-dictionary holds: the key is missing (and
    [dict.get(key, {})] gives the empty dictionary), it holds [None] (what
    [ClusterConfig.model_dump()] writes for a connection that is not
    set), or it holds a dictionary. *)
Inductive subdict (A : Type) : Type :=
| Missing
| IsNone
| Holds (d : A).
Arguments Missing {A}.
Arguments IsNone {A}.
Arguments Holds {A} d.

Record s3_config : Type := mkS3 {
  endpoint : option string
}.

Record cluster_config : Type := mkCluster {
  ceph : subdict ceph_config;
  installer_node : option installer_config;
  s3 : subdict s3_config
}.

Definition no_ceph : ceph_config := mkCeph None None None None.
Definition no_s3 : s3_config := mkS3 None.

(** [d = cluster_config.get(key, {})] and the first [d.get(...)] after
    it, which [None] does not have; [empty] is the empty dictionary. *)
Definition section_of {A} (empty : A) (d : subdict A) : Py.result A :=
  match d with
  | Missing => Py.Ok empty
  | IsNone =>
      Py.Raise "AttributeError" "'NoneType' object has no attribute 'get'"
  | Holds d => Py.Ok d
  end.

Definition ceph_section (cc : cluster_config) : Py.result ceph_config :=
  section_of no_ceph (ceph cc).

Definition s3_section (cc : cluster_config) : Py.result s3_config :=
  section_of no_s3 (s3 cc).

Record fill_config : Type := mkFill {
  storage_type : option string;
  target_fill_percent : option Z;
  file_size : option string;
  num_parallel_writes : option Z;
  replication_factor : option Z;
  fill_mount_point : option string;
  pool_name : option string;
  image_prefix : option string;
  bucket_name : option string
}.

(** The keys of a workload dictionary [run_fio] reads; [None] is an
    absent key, and for [mount] also an empty dictionary, which
    [if mount_config] treats like an absent one. *)
Record workload : Type := mkWorkload {
  io : option Fio.io_config;
  test : option Fio.test_config;
  mount : option mount_config
}.

Definition no_io : Fio.io_config := Fio.mkIo None None None None None None.
Definition no_test : Fio.test_config := Fio.mkTest None None None.

(** *** Building the mount commands *)

(** "Ensure monitors have port". *)
Definition format_monitor (mon : string) : string :=
  if negb (Builtins.contains ":" mon) then mon +:+ ":6789" else mon.

(** The [formatted_monitors] of [_build_cephfs_mount]. *)
Definition formatted_monitors (ceph_config : ceph_config) : list string :=
  let monitors := default [] (monitors ceph_config) in
  let monitors :=
    if bool_decide (monitors = []) then ["localhost:6789"] else monitors in
  format_monitor <$> monitors.

Definition _build_cephfs_mount (mc : mount_config) (cc : cluster_config)
    (mount_point extra_options : string) : Py.result string :=
  ceph_config <- ceph_section cc ;;
  Py.Ok (
  let user :=
    default (default "admin" (user ceph_config)) (cephfs_user mc) in
  let cephfs_path := default "/" (cephfs_path mc) in
  let secret_file :=
    if Py.truthy_str (cephfs_secret_file mc)
    then default "" (cephfs_secret_file mc)
    else "/etc/ceph/ceph.client." +:+ user +:+ ".keyring" in
  let mon_str := Py.join "," (formatted_monitors ceph_config) in
  if String.eqb (default "kernel" (mount_method mc)) "fuse" then
    "ceph-fuse --id " +:+ user +:+ " -k " +:+ secret_file
    +:+ " -m " +:+ mon_str
    +:+ (if negb (String.eqb cephfs_path "")
            && negb (String.eqb cephfs_path "/")
         then " -r " +:+ cephfs_path else "")
    +:+ " " +:+ mount_point
  else
    let device_str := mon_str +:+ ":" +:+ cephfs_path in
    let extra_opts :=
      if negb (String.eqb extra_options "")
      then "," +:+ extra_options else "" in
    "SECRET=$(ceph-authtool " +:+ secret_file +:+ " -n client." +:+ user
    +:+ " -p 2>/dev/null || grep -A1 'client." +:+ user +:+ "' "
    +:+ secret_file +:+ " | grep key | awk '{{print $3}}') && "
    +:+ "mount -t ceph " +:+ device_str +:+ " " +:+ mount_point
    +:+ " -o name=" +:+ user +:+ ",secret=$SECRET" +:+ extra_opts).

Definition _build_nfs_mount (mc : mount_config)
    (mount_point extra_options : string) : string :=
  let version := default "4.1" (nfs_version mc) in
  let options :=
    ["vers=" +:+ version]
    ++ (if negb (String.eqb extra_options "") then [extra_options] else []) in
  "mount -t nfs -o " +:+ Py.join "," options +:+ " "
  +:+ Builtins.str_opt (nfs_server mc) +:+ ":"
  +:+ Builtins.str_opt (nfs_export mc) +:+ " " +:+ mount_point.

Definition _build_gluster_mount (mc : mount_config)
    (mount_point extra_options : string) : string :=
  match default [] (gluster_servers mc) with
  | [] => "echo 'No GlusterFS servers specified' && exit 1"
  | server :: others =>
      let options :=
        (if bool_decide (others = []) then []
         else ["backup-volfile-servers=" +:+ Py.join "," others])
        ++ (if negb (String.eqb extra_options "")
            then [extra_options] else []) in
      let opts_str :=
        if bool_decide (options = []) then ""
        else " -o " +:+ Py.join "," options in
      "mount -t glusterfs" +:+ opts_str +:+ " " +:+ server +:+ ":/"
      +:+ Builtins.str_opt (gluster_volume mc) +:+ " " +:+ mount_point
  end.

(** "Build mount command based on filesystem type": the command, [None]
    for a type that is not supported, or what building the command
    raises. *)
Definition mount_command (mc : mount_config) (cc : cluster_config)
    (fs_type mount_point mount_options : string)
    : Py.result (option string) :=
  if String.eqb fs_type "cephfs"
  then
    mount_cmd <- _build_cephfs_mount mc cc mount_point mount_options ;;
    Py.Ok (Some mount_cmd)
  else if String.eqb fs_type "nfs"
  then Py.Ok (Some (_build_nfs_mount mc mount_point mount_options))
  else if String.eqb fs_type "glusterfs"
  then Py.Ok (Some (_build_gluster_mount mc mount_point mount_options))
  else Py.Ok None.

(** The cleanup command of [cleanup_client]. *)
Definition cleanup_command (mount_point : option string) : string :=
  "rm -rf /tmp/fio_test* 2>/dev/null"
  +:+ (if Py.truthy_str mount_point
       then "; rm -rf " +:+ default "" mount_point
            +:+ "/scale_test_* 2>/dev/null"
            +:+ "; umount " +:+ default "" mount_point
            +:+ " 2>/dev/null || true"
       else "").

(** The directory [run_fio] has FIO work in. *)
Definition fio_directory (wl : workload) : string :=
  match mount wl with
  | Some mc => default "/mnt/scale_test" (mount_point mc)
  | None => "/tmp/fio_test"
  end.

Definition fio_install_command : string :=
  "yum install -y fio 2>/dev/null || "
  +:+ "dnf install -y fio 2>/dev/null || "
  +:+ "(apt-get update && apt-get install -y fio) 2>/dev/null || "
  +:+ "zypper install -y fio 2>/dev/null || "
  +:+ "echo 'No package manager found'".

Definition ceph_common_install_command (repo_url : option string) : string :=
  let commands :=
    (if Py.truthy_str repo_url
     then ["cat > /etc/yum.repos.d/ceph.repo << 'EOF'" +:+ Builtins.nl
           +:+ "[ceph]" +:+ Builtins.nl
           +:+ "name=Ceph packages" +:+ Builtins.nl
           +:+ "baseurl=" +:+ default "" repo_url +:+ Builtins.nl
           +:+ "enabled=1" +:+ Builtins.nl
           +:+ "gpgcheck=0" +:+ Builtins.nl
           +:+ Builtins.nl +:+ "EOF"]
     else [])
    ++ ["yum install -y ceph-common 2>/dev/null || "
        +:+ "dnf install -y ceph-common 2>/dev/null || "
        +:+ "(apt-get update && apt-get install -y ceph-common) 2>/dev/null || "
        +:+ "zypper install -y ceph-common 2>/dev/null"] in
  Py.join " && " commands.

(** *** Running commands *)

Section executor.
(** What spawning an argument vector gives, after the argument vectors
    spawned before it. *)
Variable world : list (list string) → list string → Ssh.spawn_outcome.

(** [WorkloadExecutor.run_ssh_command], recorded. *)
Definition run_ssh_command (host : option string) (username command : string)
    (password key_path : option string) (port timeout : Z)
    : X Ssh.SSHCommandResult :=
  λ s,
    let h := Ssh.mkHost (world (argv <$> calls s)) (λ _, false) in
    let '(r, spawned) :=
      Ssh.run_ssh_command h (Builtins.str_opt host) username command
        password key_path port timeout in
    (r, mkX (calls s ++ ((λ a, mkCall a r) <$> spawned)) (command_log s)).

(** The call every method makes: the connection details of the client
    with their defaults. *)
Definition ssh (c : client) (command : string) (timeout : Z)
    : X Ssh.SSHCommandResult :=
  run_ssh_command (hostname c) (default "root" (ssh_user c)) command
    (ssh_password c) (ssh_key_path c) (default 22 (ssh_port c)) timeout.

Definition log_command (client_id : option string)
    (command description : string) : X unit :=
  λ s, (tt, mkX (calls s)
              (command_log s ++ [mkEntry client_id command description])).

Definition rc (r : Ssh.SSHCommandResult) : Z := Ssh.exit_code r.

(** [ensure_fio_installed]. *)
Definition ensure_fio_installed (c : client) : X (bool * string) :=
  let client_id := log_id c in
  log_command client_id "which fio" "Check if FIO is installed" ;;;
  r <~ ssh c "which fio" 30 ;;
  if Z.eqb (rc r) 0 then
    v <~ ssh c "fio --version" 30 ;;
    let version :=
      if Z.eqb (rc v) 0 then Builtins.strip (Ssh.stdout v) else "unknown" in
    ret (true, "FIO already installed: " +:+ version)
  else
    log_command client_id fio_install_command "Install FIO" ;;;
    r <~ ssh c fio_install_command 300 ;;
    if negb (Z.eqb (rc r) 0) then
      let error_msg :=
        "Failed to install FIO: "
        +:+ Py.str_or (Ssh.stderr r) (Ssh.stdout r) in
      log_command client_id ("# FAILED: " +:+ error_msg)
        "Install FIO result" ;;;
      ret (false, error_msg)
    else
      v <~ ssh c "fio --version" 30 ;;
      if negb (Z.eqb (rc v) 0) then
        let error_msg := "FIO installation verification failed" in
        log_command client_id ("# FAILED: " +:+ error_msg) "Verify FIO" ;;;
        ret (false, error_msg)
      else
        let version := Builtins.strip (Ssh.stdout v) in
        log_command client_id ("# SUCCESS: " +:+ version) "FIO installed" ;;;
        ret (true, "FIO installed: " +:+ version).

(** [install_ceph_common]. *)
Definition install_ceph_common (c : client) (repo_url : option string)
    : X (bool * string) :=
  let full_command := ceph_common_install_command repo_url in
  let client_id := log_id c in
  log_command client_id full_command "Install ceph-common" ;;;
  r <~ ssh c full_command 300 ;;
  if negb (Z.eqb (rc r) 0) then
    let error_msg :=
      "Failed to install ceph-common: "
      +:+ Py.str_or (Ssh.stderr r) (Ssh.stdout r) in
    log_command client_id ("# FAILED: " +:+ error_msg) "Install result" ;;;
    ret (false, error_msg)
  else
    log_command client_id "# SUCCESS" "Install result" ;;;
    ret (true, "ceph-common installed successfully").

(** [mount_filesystem]; an exception raised while the command is built
    leaves the method after the first two commands. *)
Definition mount_filesystem (c : client) (mc : mount_config)
    (cc : cluster_config) : X (Py.result (bool * string)) :=
  let fs_type := default "cephfs" (filesystem_type mc) in
  let mount_point := default "/mnt/scale_test" (mount_point mc) in
  let mount_options := default "" (mount_options mc) in
  ssh c ("mkdir -p " +:+ mount_point) 300 ;;;
  ssh c ("umount " +:+ mount_point +:+ " 2>/dev/null || true") 300 ;;;
  match mount_command mc cc fs_type mount_point mount_options with
  | Py.Raise exn msg => ret (Py.Raise exn msg)
  | Py.Ok None =>
      ret (Py.Ok (false, "Unsupported filesystem type: " +:+ fs_type))
  | Py.Ok (Some mount_cmd) =>
      let client_id := log_id c in
      log_command client_id mount_cmd
        ("Mount " +:+ fs_type +:+ " filesystem") ;;;
      r <~ ssh c mount_cmd 60 ;;
      if negb (Z.eqb (rc r) 0) then
        let error_msg :=
          "Mount failed: " +:+ Py.str_or (Ssh.stderr r) (Ssh.stdout r) in
        log_command client_id ("# FAILED: " +:+ error_msg) "Mount result" ;;;
        ret (Py.Ok (false, error_msg))
      else
        let verify_cmd := "mountpoint -q " +:+ mount_point in
        log_command client_id verify_cmd "Verify mount point" ;;;
        v <~ ssh c verify_cmd 300 ;;
        if negb (Z.eqb (rc v) 0)
        then ret (Py.Ok (false, "Mount point verification failed"))
        else ret (Py.Ok (true, "Successfully mounted " +:+ fs_type +:+ " at "
                               +:+ mount_point))
  end.

(** [unmount_filesystem]. *)
Definition unmount_filesystem (c : client) (mount_point : string)
    : X (bool * string) :=
  ssh c ("umount -f " +:+ mount_point +:+ " 2>/dev/null; rm -rf "
         +:+ mount_point +:+ "/fio_test_*") 300 ;;;
  ret (true, "Unmounted").

(** [cleanup_client]. *)
Definition cleanup_client (c : client) (mount_point : option string)
    : X unit :=
  ssh c (cleanup_command mount_point) 300 ;;;
  ret tt.

(** Steps 3 to 5 of [push_ceph_config_to_client]: the directory, then
    the two files with the contents fetched before. *)
Definition write_ceph_config (c : client) (user : string)
    (conf_content keyring_content : string) : X (bool * string) :=
  let keyring_filename := "/etc/ceph/ceph.client." +:+ user +:+ ".keyring" in
  d <~ ssh c "mkdir -p /etc/ceph && chmod 755 /etc/ceph" 300 ;;
  if negb (Z.eqb (rc d) 0)
  then ret (false, "Failed to create /etc/ceph on client: " +:+ Ssh.stderr d)
  else
    w <~ ssh c ("cat > /etc/ceph/ceph.conf << 'CEPHCONF'" +:+ Builtins.nl
                +:+ conf_content +:+ Builtins.nl +:+ "CEPHCONF") 300 ;;
    if negb (Z.eqb (rc w) 0)
    then ret (false, "Failed to write ceph.conf to client: " +:+ Ssh.stderr w)
    else
      k <~ ssh c ("cat > " +:+ keyring_filename +:+ " << 'KEYRING'"
                  +:+ Builtins.nl +:+ keyring_content +:+ Builtins.nl
                  +:+ "KEYRING" +:+ Builtins.nl
                  +:+ "chmod 600 " +:+ keyring_filename) 300 ;;
      if negb (Z.eqb (rc k) 0)
      then ret (false, "Failed to write keyring to client: " +:+ Ssh.stderr k)
      else ret (true, "Ceph config pushed to "
                      +:+ Builtins.str_opt (hostname c)).

(** Steps 1 to 5 of [push_ceph_config_to_client]: the two files are
    fetched from the installer node, which is reached with the
    credentials of the client, and written on the client. *)
Definition fetch_and_write (c : client) (installer : installer_config)
    (ceph_config : ceph_config) : X (bool * string) :=
  let on_installer command :=
    run_ssh_command (host installer)
      (default "root" (username installer)) command
      (ssh_password c) (ssh_key_path c) (default 22 (port installer))
      300 in
  let conf_path :=
    default "/etc/ceph/ceph.conf" (conf_path ceph_config) in
  let keyring_path :=
    default "/etc/ceph/ceph.client.admin.keyring"
      (keyring_path ceph_config) in
  let user := default "admin" (user ceph_config) in
  conf <~ on_installer ("cat " +:+ conf_path) ;;
  if negb (Z.eqb (rc conf) 0)
  then ret (false, "Failed to fetch ceph.conf from installer: "
                   +:+ Ssh.stderr conf)
  else
    keyring <~ on_installer ("cat " +:+ keyring_path) ;;
    if negb (Z.eqb (rc keyring) 0) then
      alt <~ on_installer
               ("cat /etc/ceph/ceph.client." +:+ user +:+ ".keyring") ;;
      if negb (Z.eqb (rc alt) 0)
      then ret (false, "Failed to fetch keyring from installer: "
                       +:+ Ssh.stderr alt)
      else write_ceph_config c user (Ssh.stdout conf) (Ssh.stdout alt)
    else write_ceph_config c user (Ssh.stdout conf) (Ssh.stdout keyring).

(** [push_ceph_config_to_client]. The installer node is looked at before
    the first key of the [ceph] section is read. *)
Definition push_ceph_config_to_client (c : client) (cc : cluster_config)
    : X (Py.result (bool * string)) :=
  match installer_node cc with
  | None => ret (Py.Ok (false, "No installer node configured for cluster"))
  | Some installer =>
      if negb (Py.truthy_str (host installer))
      then ret (Py.Ok (false, "No installer node configured for cluster"))
      else
        match ceph_section cc with
        | Py.Raise exn msg => ret (Py.Raise exn msg)
        | Py.Ok ceph_config =>
            res <~ fetch_and_write c installer ceph_config ;;
            ret (Py.Ok res)
        end
  end.

(** *** Running the benchmark *)

Section results.
(** The decoded FIO output and the metrics made of it. [json_loads] is
    [None] for a [JSONDecodeError]; [_parse_fio_results] gives [None] for
    the empty dictionary and raises what the arithmetic on ill-typed
    fields raises. *)
Context {J M : Type}.
Variable json_loads : string → option J.
Variable _parse_fio_results : J → Py.result (option M).

(** [run_fio]. *)
Definition run_fio (c : client) (wl : workload) (execution_id : string)
    : X (Py.result (bool * string * option M)) :=
  let io_config := default no_io (io wl) in
  let test_config := default no_test (test wl) in
  let fio_cmd :=
    Fio._build_fio_command io_config test_config (fio_directory wl)
      execution_id (Builtins.str_opt (id c)) in
  let client_id := log_id c in
  log_command client_id fio_cmd "Run FIO benchmark" ;;;
  r <~ ssh c fio_cmd (default 60 (Fio.duration test_config) + 120) ;;
  if negb (Z.eqb (rc r) 0) then
    let error_msg :=
      "FIO failed: " +:+ Py.str_or (Ssh.stderr r) (Ssh.stdout r) in
    log_command client_id ("# FAILED: " +:+ error_msg) "FIO result" ;;;
    ret (Py.Ok (false, error_msg, None))
  else
    match Builtins.from_first Builtins.left_brace (Ssh.stdout r) with
    | None => ret (Py.Ok (true, "FIO completed (no JSON output)", None))
    | Some text =>
        match json_loads text with
        | None => ret (Py.Ok (true, "FIO completed (invalid JSON)", None))
        | Some fio_result =>
            match _parse_fio_results fio_result with
            | Py.Ok metrics => ret (Py.Ok (true, "FIO completed", metrics))
            | Py.Raise exn msg => ret (Py.Raise exn msg)
            end
        end
    end.

End results.

(** What the RBD branch of [run_fill_cluster] returns in place of
    metrics. *)
Record rbd_info : Type := mkRbd { device : string; image : string }.

(** The RBD branch of [run_fill_cluster] ([storage_type == "rbd"]). *)
Definition run_fill_rbd (c : client) (fc : fill_config)
    (execution_id : string) : X (bool * string * option rbd_info) :=
  let client_id := log_id c in
  let file_size := default "1G" (file_size fc) in
  let pool_name := default "rbd" (pool_name fc) in
  let image_prefix := default "fill_test" (image_prefix fc) in
  let image_name :=
    image_prefix +:+ "_" +:+ Builtins.str_opt client_id +:+ "_"
    +:+ execution_id in
  let create_cmd :=
    "rbd create " +:+ pool_name +:+ "/" +:+ image_name +:+ " --size "
    +:+ file_size in
  log_command client_id create_cmd "Create RBD image" ;;;
  r <~ ssh c create_cmd 300 ;;
  if negb (Z.eqb (rc r) 0)
  then ret (false, "Failed to create RBD image: " +:+ Ssh.stderr r, None)
  else
    let map_cmd := "rbd map " +:+ pool_name +:+ "/" +:+ image_name in
    log_command client_id map_cmd "Map RBD device" ;;;
    m <~ ssh c map_cmd 300 ;;
    if negb (Z.eqb (rc m) 0)
    then ret (false, "Failed to map RBD device: " +:+ Ssh.stderr m, None)
    else
      let rbd_device := Builtins.strip (Ssh.stdout m) in
      let dd_cmd :=
        "dd if=/dev/zero of=" +:+ rbd_device
        +:+ " bs=1M oflag=direct status=progress 2>&1" in
      log_command client_id dd_cmd ("Fill RBD device " +:+ rbd_device) ;;;
      ssh c dd_cmd 3600 ;;;
      let unmap_cmd := "rbd unmap " +:+ rbd_device in
      log_command client_id unmap_cmd "Unmap RBD device" ;;;
      ssh c unmap_cmd 300 ;;;
      ret (true, "RBD fill completed", Some (mkRbd rbd_device image_name)).

Section fill.
(** What the CephFS branch makes of the FIO output, given the replication
    factor: the metrics with the three byte counts added and the text of
    the success line in the command log, or [None] when the output holds
    no ['{'] or anything in decoding it raises ([except Exception]). *)
Context {FM : Type}.
Variable fill_metrics : string → Z → option (FM * string).

(** What [run_fill_cluster] returns as metrics. *)
Inductive fill_result : Type :=
| FillMetrics (m : FM)
| RbdDevice (info : rbd_info).

(** The CephFS branch. *)
Definition run_fill_cephfs (c : client) (fc : fill_config)
    (execution_id : string) : X (bool * string * option fill_result) :=
  let client_id := log_id c in
  let target_percent := default 50 (target_fill_percent fc) in
  let file_size := default "1G" (file_size fc) in
  let num_parallel := default 4 (num_parallel_writes fc) in
  let replication_factor := default 3 (replication_factor fc) in
  let mount_point := default "/mnt/scale_test" (fill_mount_point fc) in
  let fill_dir := mount_point +:+ "/fill_cluster_" +:+ execution_id in
  let mkdir_cmd := "mkdir -p " +:+ fill_dir in
  log_command client_id mkdir_cmd "Create fill directory" ;;;
  r <~ ssh c mkdir_cmd 300 ;;
  if negb (Z.eqb (rc r) 0)
  then ret (false, "Failed to create fill directory: " +:+ Ssh.stderr r, None)
  else
    let fio_cmd :=
      "fio --name=fill_cluster --directory=" +:+ fill_dir
      +:+ " --rw=write --bs=1m --size=" +:+ file_size
      +:+ " --numjobs=" +:+ pretty num_parallel
      +:+ " --direct=1 --ioengine=libaio --group_reporting"
      +:+ " --output-format=json --time_based=0 --end_fsync=1" in
    log_command client_id fio_cmd
      ("Fill cluster (target: " +:+ pretty target_percent +:+ "%)") ;;;
    f <~ ssh c fio_cmd 3600 ;;
    if negb (Z.eqb (rc f) 0) then
      let error_msg :=
        "Fill cluster failed: "
        +:+ Py.str_or (Ssh.stderr f) (Ssh.stdout f) in
      log_command client_id ("# FAILED: " +:+ error_msg) "Fill result" ;;;
      ret (false, error_msg, None)
    else
      match fill_metrics (Ssh.stdout f) replication_factor with
      | Some (metrics, line) =>
          log_command client_id ("# SUCCESS: " +:+ line) "Fill result" ;;;
          ret (true, "Fill completed", Some (FillMetrics metrics))
      | None => ret (true, "Fill completed", None)
      end.

(** The RGW branch. *)
Definition run_fill_rgw (c : client) (fc : fill_config) (cc : cluster_config)
    (execution_id : string)
    : X (Py.result (bool * string * option fill_result)) :=
  let client_id := log_id c in
  let num_parallel := default 4 (num_parallel_writes fc) in
  let bucket_name := default "fill-test" (bucket_name fc) in
  match s3_section cc with
  | Py.Raise exn msg => ret (Py.Raise exn msg)
  | Py.Ok s3_config =>
      let endpoint := default "" (endpoint s3_config) in
      let fill_cmd :=
        "for i in $(seq 1 " +:+ pretty num_parallel +:+ "); do "
        +:+ "dd if=/dev/urandom bs=1M count=1024 2>/dev/null | "
        +:+ "aws s3 cp - s3://" +:+ bucket_name +:+ "/fill_${i}_"
        +:+ execution_id +:+ " --endpoint-url " +:+ endpoint +:+ " & "
        +:+ "done; wait" in
      log_command client_id fill_cmd ("Fill RGW bucket " +:+ bucket_name) ;;;
      r <~ ssh c fill_cmd 3600 ;;
      if negb (Z.eqb (rc r) 0)
      then ret (Py.Ok (false, "RGW fill failed: " +:+ Ssh.stderr r, None))
      else ret (Py.Ok (true, "RGW fill completed", None))
  end.

(** [run_fill_cluster]. *)
Definition run_fill_cluster (c : client) (fc : fill_config)
    (cc : cluster_config) (execution_id : string)
    : X (Py.result (bool * string * option fill_result)) :=
  let storage_type := default "cephfs" (storage_type fc) in
  if String.eqb storage_type "cephfs" then
    res <~ run_fill_cephfs c fc execution_id ;;
    ret (Py.Ok res)
  else if String.eqb storage_type "rbd" then
    res <~ run_fill_rbd c fc execution_id ;;
    ret (Py.Ok (res.1, RbdDevice <$> res.2))
  else if String.eqb storage_type "rgw"
  then run_fill_rgw c fc cc execution_id
  else ret (Py.Ok (false, "Unsupported storage type: " +:+ storage_type,
                   None)).

End fill.

End executor.

(** The mount point the cleanup phase of the engine hands to
    [cleanup_client]:
    [mount_config.get("mount_point") if workload_config.get("mount")
     else None]. *)
Definition cleanup_mount_point (wl : Engine.workload_config)
    : option string :=
  Engine.mount wl ≫= Engine.mount_point.

(** The calls a method made: those it added to the state. *)
Definition calls_of {A} (m : X A) (s : xstate) : list call :=
  drop (length (calls s)) (calls (m s).2).

(** The remote commands of those calls with their exit codes, in order. *)
Definition commands_of {A} (m : X A) (s : xstate) : list (string * Z) :=
  (λ c, (remote_command c, exit_code c)) <$> calls_of m s.

(** The [user@host] an argument vector of [run_ssh_command] is addressed
    to: its last argument but one. *)
Definition target (argv : list string) : option string :=
  last (take (length argv - 1) argv).

End Executor.
(** ** What a run leaves behind *)

Module Outcome.
Import Engine.

Section outcome.
Context {F : Py.Float}.

(** The metrics appended to the per-client files, in order. *)
Definition appended_metrics (tr : list event) : list fio_metrics :=
  tr ≫= λ ev, match ev with
              | AppendClientMetrics _ m => [cm_metrics m]
              | _ => []
              end.

(** The sum of their total IOPS. *)
Definition sum_iops (ms : list fio_metrics) : Z :=
  foldr (λ m acc, iops_t m + acc) 0 ms.

(** A column of the execution record. *)
Definition column (s : state) (execution_id k : string)
    : option Store.value :=
  Store.get_execution (db s) execution_id ≫= λ r, r !! k.

(** The computation keeps the execution record, however it ends. *)
Definition keeps_record {A} (execution_id : string) (m : M A) : Prop :=
  ∀ s, has_record (db s) execution_id →
       has_record (db (m s).2) execution_id.

(** The computation keeps the execution record, and leaves it in one of
    the given statuses when it returns normally. *)
Definition ends_in {A} (execution_id : string) (allowed : list string)
    (m : M A) : Prop :=
  ∀ s, has_record (db s) execution_id →
       match m s with
       | (Py.Ok _, s') =>
           ∃ st, Store.status_of (db s') execution_id
                 = Some (Store.VText st)
                 ∧ st ∈ allowed
       | (Py.Raise _ _, s') => has_record (db s') execution_id
       end.

End outcome.

End Outcome.

(** * Theorems *)

Local Open Scope Z_scope.

(** Membership in a list given element by element. *)
Ltac in_list :=
  first [apply list_elem_of_here | apply list_elem_of_further; in_list].
Ltac in_app :=
  first [in_list | apply elem_of_app; first [left; in_list | right; in_app]].

(** Case analysis on a membership hypothesis, closing the cases in which
    the two strings differ in their literal prefixes. *)
Ltac cases_in H :=
  repeat (apply elem_of_cons in H as [H|H];
          [try (cbn [String.append] in H; discriminate H)|]);
  try (apply elem_of_nil in H; destruct H).

(** ** Workload configuration *)

Module WorkloadFacts.
Import Workload.

Lemma percent_in_range_spec (v : Z) :
  percent_in_range v = true ↔ 0 ≤ v ≤ 100.
Proof. unfold percent_in_range. rewrite andb_true_iff, !Z.leb_le. done. Qed.

(** The validator returns the complement of the read percentage. *)
Lemma validate_rw_percent_sum (v r : Z) :
  r + validate_rw_percent v (Some r) = 100.
Proof.
  unfold validate_rw_percent. simpl.
  destruct (Z.eqb_spec (r + v) 100); simpl; lia.
Qed.

(** A construction with a write percentage supplied that succeeds has
    percentages that sum to 100, whatever the inputs were. *)
Lemma make_IOConfig_sum (r : option Z) (w : Z) (cfg : IOConfig) :
  make_IOConfig r (Some w) = Some cfg →
  read_percent cfg = default 100 r
  ∧ read_percent cfg + write_percent cfg = 100.
Proof.
  unfold make_IOConfig.
  destruct r as [r|]; [destruct (percent_in_range r)|];
    destruct (percent_in_range w); intros [= <-]; simpl;
    (split; [done | apply validate_rw_percent_sum]).
Qed.

(** A supplied percentage outside [0..100] is rejected. *)
Lemma make_IOConfig_rejects (r w : Z) :
  ¬ (0 ≤ r ≤ 100 ∧ 0 ≤ w ≤ 100) → make_IOConfig (Some r) (Some w) = None.
Proof.
  intros Hout. unfold make_IOConfig.
  destruct (percent_in_range r) eqn:Hr, (percent_in_range w) eqn:Hw; try done.
  apply percent_in_range_spec in Hr, Hw. tauto.
Qed.

(** For a supplied pair of percentages in [0..100] the [IOConfig] is
    constructed, keeps the read percentage, and satisfies
    [read_percent + write_percent = 100]: the validator does what its
    docstring says whenever it is run. *)
Lemma supplied_pair_sums_to_100 (r w : Z) :
  0 ≤ r ≤ 100 → 0 ≤ w ≤ 100 →
  ∃ cfg, make_IOConfig (Some r) (Some w) = Some cfg
         ∧ read_percent cfg = r
         ∧ read_percent cfg + write_percent cfg = 100.
Proof.
  intros Hr Hw.
  destruct (make_IOConfig (Some r) (Some w)) as [cfg|] eqn:Hmk.
  - exists cfg. split; [done | by apply make_IOConfig_sum in Hmk].
  - unfold make_IOConfig in Hmk.
    apply percent_in_range_spec in Hr, Hw. by rewrite Hr, Hw in Hmk.
Qed.

(** The auto-adjusting case of the test-suite: 80/10 becomes 80/20. *)
Example io_config_auto_adjust_write :
  make_IOConfig (Some 80) (Some 10) = Some (mkIOConfig 80 20).
Proof. reflexivity. Qed.

(** A construction that omits [write_percent] succeeds for every read
    percentage in [0..100] and keeps the default 0: the validator is not
    run, and the percentages sum to 100 only for a read percentage
    of 100. *)
Lemma omitted_write_percent (r : Z) :
  0 ≤ r ≤ 100 →
  make_IOConfig (Some r) None = Some (mkIOConfig r 0)
  ∧ (r + 0 = 100 ↔ r = 100).
Proof.
  intros Hr. unfold make_IOConfig.
  apply percent_in_range_spec in Hr. rewrite Hr. split; [done | lia].
Qed.

(** C9, at the failing input: [IOConfig(read_percent=80)] validates, and
    its percentages are 80 and 0; [validate_rw_percent] ("Ensure read +
    write = 100") is not run on the default of [write_percent]. *)
Theorem C9_omitted_write_percent_breaks_invariant :
  make_IOConfig (Some 80) None = Some (mkIOConfig 80 0)
  ∧ read_percent (mkIOConfig 80 0) + write_percent (mkIOConfig 80 0) ≠ 100.
Proof. split; [reflexivity | simpl; lia]. Qed.

End WorkloadFacts.

(** ** The FIO command line *)

Module FioFacts.
Import Fio.

Example build_fio_mixed :
  _build_fio_command (mkIo None None (Some 70) None None None)
    (mkTest None (Some 5) None) "/tmp/fio_test" "e1" "c1"
  = "fio --name=scale_test_c1 --directory=/tmp/fio_test --rw=randrw --bs=4k --size=1G --numjobs=1 --iodepth=32 --runtime=60 --time_based --group_reporting --output-format=json --rwmixread=70 --direct=1 --ramp_time=5 --ioengine=libaio --end_fsync=1".
Proof. vm_compute. reflexivity. Qed.

(** The mode is one of the two mixed ones exactly when the read percentage
    is neither 0 nor 100. *)
Lemma is_mixed_rw_spec (pat : string) (p : Z) :
  is_mixed_rw (rw_mode pat p) = true ↔ p ≠ 0 ∧ p ≠ 100.
Proof.
  unfold rw_mode.
  destruct (Z.eqb_spec p 100), (Z.eqb_spec p 0), (String.eqb pat "random");
    simpl; split; intros; try done; try lia.
Qed.

(** An argument of the form [--rwmixread=v] occurs only in mixed mode, and
    then it carries the read percentage. *)
Lemma rwmixread_arg (io : io_config) (test : test_config)
    (directory execution_id client_id v : string) :
  let p := default 100 (read_percent io) in
  ("--rwmixread=" +:+ v) ∈ fio_args io test directory execution_id client_id →
  is_mixed_rw (rw_mode (default "random" (pattern io)) p) = true
  ∧ v = pretty p.
Proof.
  intros p. unfold fio_args. fold p. intros Hin.
  apply elem_of_app in Hin as [Hin|Hin]; [cases_in Hin|].
  apply elem_of_app in Hin as [Hin|Hin].
  { destruct (is_mixed_rw _); cases_in Hin.
    cbn [String.append] in Hin. by simplify_eq. }
  apply elem_of_app in Hin as [Hin|Hin].
  { destruct (default true (direct_io io)); cases_in Hin. }
  apply elem_of_app in Hin as [Hin|Hin].
  { destruct (0 <? default 0 (ramp_time test)); cases_in Hin. }
  cases_in Hin.
Qed.

(** C8: the [--rw] selection, the [--rwmixread] flag exactly in mixed mode,
    and the fixed flags of the emitted FIO command. *)
Theorem C8_fio_command (io : io_config) (test : test_config)
    (directory execution_id client_id : string) :
  let p := default 100 (read_percent io) in
  let random := String.eqb (default "random" (pattern io)) "random" in
  let args := fio_args io test directory execution_id client_id in
  0 ≤ p ≤ 100 →
  _build_fio_command io test directory execution_id client_id
    = Py.join " " args
  ∧ args !! 3%nat
    = Some ("--rw=" +:+
              (if decide (p = 100) then if random then "randread" else "read"
               else if decide (p = 0) then if random then "randwrite" else "write"
               else if random then "randrw" else "rw"))
  ∧ (("--rwmixread=" +:+ pretty p) ∈ args ↔ 0 < p < 100)
  ∧ (∀ v, ("--rwmixread=" +:+ v) ∈ args → 0 < p < 100 ∧ v = pretty p)
  ∧ "--time_based" ∈ args
  ∧ "--group_reporting" ∈ args
  ∧ "--output-format=json" ∈ args
  ∧ "--ioengine=libaio" ∈ args
  ∧ "--end_fsync=1" ∈ args.
Proof.
  intros p random args Hp.
  assert (Hmix : is_mixed_rw (rw_mode (default "random" (pattern io)) p) = true
                 ↔ 0 < p < 100).
  { rewrite is_mixed_rw_spec. lia. }
  assert (Hv : ∀ v, ("--rwmixread=" +:+ v) ∈ args → 0 < p < 100 ∧ v = pretty p).
  { intros v Hin. apply rwmixread_arg in Hin as [Hm ->].
    split; [by apply Hmix | done]. }
  split; [done|]. split.
  { subst args. unfold fio_args, rw_mode. fold p. fold random.
    cbn [app lookup list_lookup].
    destruct (decide (p = 100)) as [->|Hn1]; [done|].
    destruct (Z.eqb_spec p 100); [done|].
    destruct (decide (p = 0)) as [->|Hn0]; [done|].
    by destruct (Z.eqb_spec p 0). }
  split.
  { split; [intros Hin; apply Hv in Hin as [Hin _]; exact Hin|].
    intros Hr. apply Hmix in Hr. subst args. unfold fio_args. fold p.
    rewrite Hr. in_app. }
  split; [exact Hv|].
  subst args. unfold fio_args.
  repeat split; in_app.
Qed.

(** A 70/30 random workload. *)
Lemma C8_witness :
  let io := mkIo (Some "random") None (Some 70) None None None in
  let args := fio_args io (mkTest None None None) "/tmp/fio_test" "e1" "c1" in
  args !! 3%nat = Some "--rw=randrw" ∧ "--rwmixread=70" ∈ args.
Proof.
  destruct (C8_fio_command (mkIo (Some "random") None (Some 70) None None None)
              (mkTest None None None) "/tmp/fio_test" "e1" "c1")
    as (_ & H3 & Hmix & _); [simpl; lia|].
  split; [exact H3 | apply Hmix; simpl; lia].
Defined.

End FioFacts.

(** ** The precheck verdict *)

Module PrechecksFacts.
Import Prechecks.

(** The two collected lists of the report. *)
Lemma report_lists (rn : PrecheckRunner) (p : probes) :
  let r := run_all_prechecks rn p in
  blocking_issues r
    = (cluster_phase rn p).1.2
      ++ (run_multiple p (custom_commands rn) ≫= command_issue)
  ∧ warnings r
    = (cluster_phase rn p).2 ++ (client_phase rn p ≫= client_warning)
  ∧ (overall_status r, can_proceed r, proceed_message r)
    = verdict (blocking_issues r) (warnings r).
Proof.
  unfold run_all_prechecks.
  destruct (cluster_phase rn p) as [[[health checks] blocking1] warnings1].
  cbv zeta. destruct (verdict _ _) as [[overall proceed] msg] eqn:Hv.
  simpl. by rewrite Hv.
Qed.

(** The verdict as a function of the two collected lists. *)
Lemma verdict_cases (rn : PrecheckRunner) (p : probes) :
  let r := run_all_prechecks rn p in
  match blocking_issues r, warnings r with
  | _ :: _, _ => overall_status r = "failed" ∧ can_proceed r = false
  | [], _ :: _ =>
      overall_status r = "passed_with_warnings" ∧ can_proceed r = true
  | [], [] => overall_status r = "passed" ∧ can_proceed r = true
  end.
Proof.
  intros r. destruct (report_lists rn p) as (_ & _ & Hv). fold r in Hv.
  unfold verdict in Hv.
  destruct (blocking_issues r), (warnings r); by simplify_eq.
Qed.

(** C5: the verdict is [failed] iff a blocking issue was collected, else
    [passed_with_warnings] iff a warning was collected, else [passed];
    [can_proceed] holds exactly when the verdict is not [failed]. *)
Theorem C5_verdict (rn : PrecheckRunner) (p : probes) :
  let r := run_all_prechecks rn p in
  (overall_status r = "failed" ↔ blocking_issues r ≠ [])
  ∧ (overall_status r = "passed_with_warnings"
     ↔ blocking_issues r = [] ∧ warnings r ≠ [])
  ∧ (overall_status r = "passed"
     ↔ blocking_issues r = [] ∧ warnings r = [])
  ∧ (can_proceed r = true ↔ overall_status r ≠ "failed").
Proof.
  intros r. pose proof (verdict_cases rn p) as H. cbv zeta in H. fold r in H.
  destruct (blocking_issues r) as [|b bs], (warnings r) as [|w ws];
    cbv beta iota in H; destruct H as [Hs Hc]; rewrite Hs, Hc;
    repeat split; intros; try done; try (destruct_and?; done).
Qed.

(** A failed cluster check is a blocking issue of the report. *)
Lemma failed_cluster_check_blocks (rn : PrecheckRunner) (p : probes)
    (h : string) (cs : list CheckResult) (c : CheckResult) :
  check_cluster rn = true → backend_is_ceph rn = true →
  cluster_state_probe p = Py.Ok h → cluster_checks_probe p = Py.Ok cs →
  c ∈ cs → passed c = false →
  ("[Cluster] " +:+ name c +:+ ": " +:+ message c)
    ∈ blocking_issues (run_all_prechecks rn p).
Proof.
  intros Hc Hb Hs Hcs Hin Hp.
  destruct (report_lists rn p) as (-> & _ & _).
  unfold cluster_phase. rewrite Hc, Hb, Hs, Hcs.
  apply elem_of_app. left. apply list_elem_of_bind. exists c.
  split; [|done]. unfold cluster_issue. rewrite Hp. apply list_elem_of_here.
Qed.

End PrechecksFacts.

(** ** Remote commands: a missing [sshpass] *)

Module SshFacts.
Import Ssh.

(** With a password set, the command line starts with [sshpass -p <pw>],
    followed by the plain [ssh] command line. *)
Lemma build_with_password (h : host) (c : SSHClient) (command : string) :
  Py.truthy_str (password c) = true →
  ∃ pw rest, _build_ssh_command h c command
             = "sshpass" :: "-p" :: pw :: "ssh" :: rest.
Proof.
  intros Hpw. unfold _build_ssh_command.
  destruct (password c) as [pw|]; [|done].
  rewrite Hpw. by eexists _, _.
Qed.

(** C2, as the code has it: without [sshpass], [SSHClient.run_command]
    with a password spawns the [sshpass] command line, logs one warning,
    then spawns the same [ssh] command line without [sshpass], and
    returns what that second attempt gives;
    [WorkloadExecutor.run_ssh_command] with a password and no key spawns
    once and returns exit code -1 with the error text. *)
Theorem C2_sshpass_absent (h : host) :
  sshpass_absent h →
  (∀ c command timeout raise_on_error,
     Py.truthy_str (password c) = true →
     let cmd := _build_ssh_command h c command in
     let '(r, spawned, warnings) :=
       run_command h c command timeout raise_on_error in
     head cmd = Some "sshpass"
     ∧ head (drop 3 cmd) = Some "ssh"
     ∧ spawned = [cmd; drop 3 cmd]
     ∧ warnings = ["sshpass not installed, trying without password auth"]
     ∧ r = match spawn h (drop 3 cmd) with
           | Exited rc out err => mkResult rc out err
           | TimedOut => mkResult (-1) "" ""
           | NotFound msg | Failed msg => mkResult (-1) "" msg
           end)
  ∧ (∀ hostn usern command pw portn timeout,
       Py.truthy_str (Some pw) = true →
       let '(r, spawned) :=
         run_ssh_command h hostn usern command (Some pw) None portn timeout in
       ∃ cmd msg, spawned = [cmd]
                  ∧ head cmd = Some "sshpass"
                  ∧ spawn h cmd = NotFound msg
                  ∧ r = mkResult (-1) "" msg).
Proof.
  intros Habs. split.
  - intros c command timeout raise_on_error Hpw cmd.
    destruct (build_with_password h c command Hpw) as (pw & rest & Hcmd).
    unfold run_command. fold cmd. subst cmd. rewrite Hcmd.
    destruct (Habs ("sshpass" :: "-p" :: pw :: "ssh" :: rest) eq_refl)
      as [msg ->].
    rewrite Hpw. rewrite bool_decide_eq_true_2 by apply list_elem_of_here.
    cbn [andb drop].
    destruct (spawn h ("ssh" :: rest)); done.
  - intros hostn usern command pw portn timeout Hpw.
    unfold run_ssh_command. rewrite Hpw. cbn [Py.truthy_str negb andb].
    match goal with
    | |- context [spawn h ?cmd] =>
        destruct (Habs cmd eq_refl) as [msg Hsp]; rewrite Hsp;
        exists cmd, msg
    end.
    done.
Qed.

Lemma host_without_sshpass_absent : sshpass_absent host_without_sshpass.
Proof.
  intros [|prog argv] [= ->]; simpl. by eexists.
Qed.

Lemma C2_witness :
  let cmd := _build_ssh_command host_without_sshpass password_client
               "echo connected" in
  let '(r, spawned, warnings) :=
    run_command host_without_sshpass password_client "echo connected" 10 false in
  head cmd = Some "sshpass"
  ∧ head (drop 3 cmd) = Some "ssh"
  ∧ spawned = [cmd; drop 3 cmd]
  ∧ warnings = ["sshpass not installed, trying without password auth"]
  ∧ r = match spawn host_without_sshpass (drop 3 cmd) with
        | Exited rc out err => mkResult rc out err
        | TimedOut => mkResult (-1) "" ""
        | NotFound msg | Failed msg => mkResult (-1) "" msg
        end.
Proof.
  apply (proj1 (C2_sshpass_absent host_without_sshpass
                  host_without_sshpass_absent)
           password_client "echo connected" 10 false).
  reflexivity.
Defined.

(** C2 fails as stated: with a password configured and [sshpass] missing,
    the command is retried over plain [ssh] and its success is reported;
    no error is returned, only a warning is logged. *)
Lemma C2_silent_retry_without_password :
  run_command host_without_sshpass password_client "echo connected" 10 false
  = (mkResult 0 "connected" "",
     [ ["sshpass"; "-p"; "secret"; "ssh";
        "-o"; "StrictHostKeyChecking=no";
        "-o"; "UserKnownHostsFile=/dev/null";
        "-o"; "LogLevel=ERROR"; "-o"; "ConnectTimeout=10"; "-p"; "22";
        "root@10.0.0.5"; "echo connected"];
       ["ssh";
        "-o"; "StrictHostKeyChecking=no";
        "-o"; "UserKnownHostsFile=/dev/null";
        "-o"; "LogLevel=ERROR"; "-o"; "ConnectTimeout=10"; "-p"; "22";
        "root@10.0.0.5"; "echo connected"] ],
     ["sshpass not installed, trying without password auth"])
  ∧ success (run_command host_without_sshpass password_client
               "echo connected" 10 false).1.1 = true.
Proof. split; vm_compute; reflexivity. Qed.

End SshFacts.

(** ** The execution record *)

Module StoreFacts.
Import Store.
Section facts.
Context {F : Py.Float}.

Lemma is_terminal_spec (status : string) :
  is_terminal status = true
  ↔ status ∈ ["completed"; "failed"; "cancelled"].
Proof. unfold is_terminal. apply bool_decide_eq_true. Qed.

(** What the keyword arguments hold after the two stamping steps. *)
Lemma stamp_kwargs_lookup (now : Z) (status k : string)
    (kwargs : gmap string value) :
  stamp_kwargs now status kwargs !! k =
    if decide (k = "completed_at" ∧ is_terminal status = true)
    then Some (VTime now)
    else if decide (k = "started_at" ∧ status = "running"
                    ∧ kwargs !! "started_at" = None)
    then Some (VTime now)
    else kwargs !! k.
Proof.
  unfold stamp_kwargs.
  destruct (is_terminal status) eqn:Hterm.
  - destruct (decide (k = "completed_at")) as [->|Hk].
    + rewrite lookup_insert_eq. by rewrite decide_True.
    + rewrite lookup_insert_ne by done.
      rewrite decide_False by tauto.
      assert (status ≠ "running") as Hnr.
      { intros ->. by vm_compute in Hterm. }
      rewrite (proj2 (String.eqb_neq _ _)) by done. simpl.
      by rewrite decide_False by tauto.
  - rewrite decide_False by (intros [_ ?]; done).
    destruct (String.eqb_spec status "running") as [->|Hnr]; simpl.
    + destruct (kwargs !! "started_at") as [v|] eqn:Hsa.
      * rewrite bool_decide_eq_true_2 by eauto. simpl.
        by rewrite decide_False by (intros (_ & _ & ?); done).
      * rewrite bool_decide_eq_false_2 by (intros [? ?]; done). simpl.
        destruct (decide (k = "started_at")) as [->|Hk].
        -- rewrite lookup_insert_eq. by rewrite decide_True.
        -- rewrite lookup_insert_ne by done.
           by rewrite decide_False by tauto.
    + by rewrite decide_False by tauto.
Qed.

(** The update touches the rows with the given id, column by column. *)
Lemma sql_update_lookup (a : gmap string value) (id : string) (t : table)
    (i : nat) :
  sql_update a id t !! i
  = (λ r : gmap string value, if has_id id r then a ∪ r else r) <$> t !! i.
Proof. unfold sql_update. apply list_lookup_fmap. Qed.

(** C10: a status update to [completed], [failed] or [cancelled] sets
    [completed_at]; an update to [running] without a [started_at] argument
    sets [started_at]; the supplied columns take the supplied values; every
    other column, and every other record, is left as it was. *)
Theorem C10_update_execution_status (now : Z) (t t' : table)
    (execution_id status : string) (kwargs : gmap string value) :
  update_execution_status now t execution_id status kwargs = Py.Ok t' →
  length t' = length t
  ∧ ∀ (i : nat) (r : gmap string value), t !! i = Some r →
      ∃ r', t' !! i = Some r'
        ∧ (has_id execution_id r = false → r' = r)
        ∧ (has_id execution_id r = true →
             r' !! "status" = Some (VText status)
             ∧ (status ∈ ["completed"; "failed"; "cancelled"] →
                r' !! "completed_at" = Some (VTime now))
             ∧ (status = "running" → kwargs !! "started_at" = None →
                r' !! "started_at" = Some (VTime now))
             ∧ (∀ k v, kwargs !! k = Some v →
                  ¬ (k = "completed_at"
                     ∧ status ∈ ["completed"; "failed"; "cancelled"]) →
                  r' !! k = Some v)
             ∧ (∀ k, k ≠ "status" → kwargs !! k = None →
                  ¬ (k = "completed_at"
                     ∧ status ∈ ["completed"; "failed"; "cancelled"]) →
                  ¬ (k = "started_at" ∧ status = "running") →
                  r' !! k = r !! k)).
Proof.
  unfold update_execution_status.
  destruct (bool_decide (is_Some (kwargs !! "status") ∨ _)) eqn:Hdup; [done|].
  apply bool_decide_eq_false in Hdup.
  assert (kwargs !! "status" = None) as Hst.
  { destruct (kwargs !! "status") eqn:?; [|done]. destruct Hdup. left. eauto. }
  destruct (bool_decide (map_Forall _ _)); [|done].
  intros [= <-]. split.
  { unfold sql_update. apply length_fmap. }
  intros i r Hr. rewrite sql_update_lookup, Hr. simpl.
  eexists. split; [done|].
  split; [by intros ->|]. intros ->.
  assert (Hlk : ∀ k, k ≠ "status" →
            (<["status":=VText status]> (stamp_kwargs now status kwargs) ∪ r) !! k
            = match stamp_kwargs now status kwargs !! k with
              | Some v => Some v
              | None => r !! k
              end).
  { intros k Hk. rewrite lookup_union, lookup_insert_ne by done.
    by destruct (stamp_kwargs now status kwargs !! k), (r !! k). }
  split.
  { rewrite lookup_union, lookup_insert_eq. by destruct (r !! "status"). }
  split.
  { intros Hterm. apply is_terminal_spec in Hterm.
    rewrite Hlk, stamp_kwargs_lookup by done. by rewrite decide_True. }
  split.
  { intros -> Hsa. rewrite Hlk, stamp_kwargs_lookup by done.
    rewrite decide_False by (intros [? _]; done). by rewrite decide_True. }
  split.
  { intros k v Hk Hnc.
    assert (k ≠ "status") by (intros ->; congruence).
    rewrite Hlk, stamp_kwargs_lookup by done.
    rewrite decide_False by (rewrite is_terminal_spec; done).
    rewrite decide_False by (intros (-> & _ & ?); congruence).
    by rewrite Hk. }
  intros k Hk Hnone Hnc Hns.
  rewrite Hlk, stamp_kwargs_lookup by done.
  rewrite decide_False by (rewrite is_terminal_spec; done).
  rewrite decide_False by tauto.
  by rewrite Hnone.
Qed.

(** The update never fails when the keyword arguments name columns other
    than [status]. *)
Lemma update_execution_status_ok (now : Z) (t : table)
    (execution_id status : string) (kwargs : gmap string value) :
  kwargs !! "status" = None → kwargs !! "execution_id" = None →
  map_Forall (λ k _, k ∈ executions_columns) kwargs →
  update_execution_status now t execution_id status kwargs
  = Py.Ok (sql_update (<["status" := VText status]>
                         (stamp_kwargs now status kwargs)) execution_id t).
Proof.
  intros Hs He Hcols. unfold update_execution_status.
  rewrite bool_decide_eq_false_2; last first.
  { rewrite Hs, He. intros [[? ?]|[? ?]]; done. }
  rewrite bool_decide_eq_true_2; [done|].
  intros k v. rewrite stamp_kwargs_lookup.
  repeat case_decide; destruct_and?; subst.
  - intros _. unfold executions_columns. repeat constructor.
  - intros _. unfold executions_columns. repeat constructor.
  - apply Hcols.
Qed.

(** Looking up the record after an update that leaves the [id] column
    alone. *)
Lemma get_execution_sql_update (a : gmap string value) (id : string)
    (t : table) :
  a !! "id" = None →
  get_execution (sql_update a id t) id = (a ∪.) <$> get_execution t id.
Proof.
  intros Hid. unfold get_execution, sql_update.
  induction t as [|r t IH]; [done|].
  cbn [fmap list_fmap filter list_filter].
  destruct (has_id id r) eqn:Hr.
  - assert (has_id id (a ∪ r) = true) as Hr'.
    { unfold has_id in *. by rewrite lookup_union_r. }
    rewrite !decide_True by done. done.
  - rewrite !decide_False by (rewrite Hr; done). apply IH.
Qed.

(** An update that leaves the [id] column alone keeps the record and
    gives it the new status. *)
Lemma update_status_of (now : Z) (t t' : table)
    (execution_id status : string) (kwargs : gmap string value) :
  kwargs !! "id" = None →
  update_execution_status now t execution_id status kwargs = Py.Ok t' →
  is_Some (get_execution t execution_id) →
  is_Some (get_execution t' execution_id)
  ∧ status_of t' execution_id = Some (VText status).
Proof.
  intros Hid Hup [r Hr]. unfold update_execution_status in Hup.
  destruct (bool_decide (_ ∨ _)); [done|].
  destruct (bool_decide (map_Forall _ _)); [|done].
  injection Hup as <-. unfold status_of.
  rewrite get_execution_sql_update, Hr.
  - split; [by eexists|]. simpl.
    rewrite lookup_union, lookup_insert_eq. by destruct (r !! "status").
  - rewrite lookup_insert_ne by done.
    rewrite stamp_kwargs_lookup.
    rewrite !decide_False by (intros [? _]; done). done.
Qed.

End facts.

(** The [failed] update of the precheck block, on a one-row table. *)
Lemma C10_witness :
  let F := Py.Z_float in
  let row : gmap string value :=
    {[ "id" := VText "exec-1"; "status" := VText "pending" ]} in
  let kwargs : gmap string value :=
    {[ "error_message" := VText "Prechecks failed" ]} in
  let t' :=
    sql_update (<["status" := VText "failed"]>
                  (stamp_kwargs 42 "failed" kwargs)) "exec-1" [row] in
  update_execution_status 42 [row] "exec-1" "failed" kwargs = Py.Ok t'
  ∧ length t' = 1%nat
  ∧ ∃ r', t' !! 0%nat = Some r'
          ∧ r' !! "status" = Some (VText "failed")
          ∧ r' !! "completed_at" = Some (VTime 42).
Proof.
  intros F row kwargs t'.
  assert (update_execution_status 42 [row] "exec-1" "failed" kwargs = Py.Ok t')
    as Hup.
  { apply update_execution_status_ok; [done..|].
    apply map_Forall_singleton. in_list. }
  split; [exact Hup|].
  destruct (C10_update_execution_status 42 [row] t' "exec-1" "failed" kwargs Hup)
    as [Hlen Hrows].
  split; [exact Hlen|].
  destruct (Hrows 0%nat row eq_refl) as (r' & Hr' & _ & Hid).
  destruct (Hid eq_refl) as (Hs & Hc & _).
  exists r'. split; [exact Hr'|]. split; [exact Hs|]. apply Hc. in_list.
Defined.

End StoreFacts.

(** ** Reading metrics *)

Module MetricsFacts.
Import Store MetricsRoute.

Section strides.
Context {A : Type}.
Implicit Types l : list A.

(** Element [i] of the strided list is element [k + i * step] of the
    list. *)
Lemma every_from_lookup (step k : nat) l (i : nat) :
  (1 ≤ step)%nat →
  Py.every_from step k l !! i = l !! (k + i * step)%nat.
Proof.
  intros Hstep. revert k i.
  induction l as [|x t IH]; intros k i; [by rewrite !lookup_nil|].
  destruct k as [|k]; simpl.
  - destruct i as [|i]; [done|]. simpl. rewrite IH.
    replace (step + i * step)%nat with (S (Nat.pred step + i * step)) by lia.
    done.
  - by rewrite IH.
Qed.

(** The strided list is long enough to hold every index whose source
    position exists. *)
Lemma every_from_length_ge (step k : nat) l (n : nat) :
  (1 ≤ step)%nat → (n ≠ 0)%nat →
  (k + (n - 1) * step < length l)%nat →
  (n ≤ length (Py.every_from step k l))%nat.
Proof.
  intros Hstep Hn Hlt.
  destruct (lookup_lt_is_Some_2 l (k + (n - 1) * step)%nat Hlt) as [x Hx].
  rewrite <- every_from_lookup in Hx by done.
  apply lookup_lt_Some in Hx. lia.
Qed.

(** The records kept by the time filter are those of the file, in file
    order. *)
Lemma read_lines_sublist (ts : A → Py.result datetime)
    (start_time end_time : option datetime)
    (lines : list (line A)) (window : list A) :
  read_lines ts start_time end_time lines = Py.Ok window →
  window `sublist_of`
    (lines ≫= λ ln, match ln with Json m => [m] | _ => [] end).
Proof.
  revert window. induction lines as [|ln rest IH]; intros window.
  - by intros [= <-].
  - destruct ln as [| |m]; simpl; [apply IH..|].
    destruct (in_window ts start_time end_time m) as [keep|]; [|done]. simpl.
    destruct (read_lines ts start_time end_time rest) as [tail|]; [|done].
    simpl. intros [= <-].
    destruct keep; [apply sublist_skip | apply sublist_cons]; by apply IH.
Qed.

(** Without a time filter the read never raises. *)
Lemma read_lines_unfiltered (ts : A → Py.result datetime)
    (lines : list (line A)) :
  ∃ ms, read_lines ts None None lines = Py.Ok ms.
Proof.
  induction lines as [|[| |m] rest [ms IH]]; simpl; rewrite ?IH; by eexists.
Qed.

(** The limit step on a window longer than a positive limit. *)
Lemma apply_limit_strided (metrics : list A) (limit : Z) :
  1 ≤ limit → limit < Z.of_nat (length metrics) →
  let step := Z.to_nat (Z.of_nat (length metrics) / limit) in
  ∃ out, apply_limit metrics limit = Py.Ok out
         ∧ (1 ≤ step)%nat
         ∧ length out = Z.to_nat limit
         ∧ ∀ i, (i < Z.to_nat limit)%nat →
                out !! i = metrics !! (i * step)%nat.
Proof.
  intros Hlim Hlen step.
  set (n := Z.of_nat (length metrics)) in *.
  assert (1 ≤ n / limit) as Hq.
  { apply Z.div_le_lower_bound; lia. }
  assert (limit * (n / limit) ≤ n) as Hmul.
  { apply Z.mul_div_le. lia. }
  assert (1 ≤ step)%nat as Hstep by (subst step; lia).
  unfold apply_limit. fold n.
  rewrite (proj2 (Z.ltb_lt _ _)) by done.
  unfold Py.floordiv. rewrite (proj2 (Z.eqb_neq _ _)) by lia. simpl.
  unfold Py.slice_step.
  destruct (n / limit) as [|q|q] eqn:Hdiv; [lia| |lia]. simpl.
  replace (Pos.to_nat q) with step by (subst step; lia).
  eexists. split; [done|]. split; [done|].
  unfold Py.slice_to. rewrite (proj2 (Z.leb_le _ _)) by lia.
  assert (Z.to_nat limit ≤ length (Py.every_from step 0 metrics))%nat as Hge.
  { apply every_from_length_ge; [done | lia |]. simpl.
    assert (Z.of_nat ((Z.to_nat limit - 1) * step) < n); [|lia].
    subst step. rewrite Nat2Z.inj_mul, Nat2Z.inj_sub, !Z2Nat.id by lia.
    simpl. nia. }
  split; [rewrite length_take; lia|].
  intros i Hi. rewrite lookup_take_lt by done.
  by rewrite every_from_lookup.
Qed.

End strides.

(** C7 fails as stated: five samples read with limit 2 come back as the
    first and the third; the last sample of the window is not returned. *)
Lemma C7_last_sample_dropped :
  Store.read_metrics naive_ts (Some five_samples) None None
    = Py.Ok [1; 2; 3; 4; 5]
  ∧ get_metrics naive_ts true (Some five_samples) None None 2
    = Py.Ok [1; 3]
  ∧ last [1; 3] ≠ last [1; 2; 3; 4; 5].
Proof. repeat split; done. Qed.

(** C7, as the code has it: for a limit of at least 1 that the window
    exceeds, the returned slice holds exactly [limit] samples, sample [i]
    being sample [i * (count // limit)] of the chronologically ordered
    window; it starts with the first sample of the window. *)
Theorem C7_strided_subsample {A : Type} (ts : A → Py.result datetime)
    (file : option (list (line A))) (start_time end_time : option datetime)
    (limit : Z) (window : list A) :
  Store.read_metrics ts file start_time end_time = Py.Ok window →
  1 ≤ limit ≤ 10000 →
  limit < Z.of_nat (length window) →
  let step := Z.to_nat (Z.of_nat (length window) / limit) in
  ∃ out, get_metrics ts true file start_time end_time limit = Py.Ok out
         ∧ (1 ≤ step)%nat
         ∧ length out = Z.to_nat limit
         ∧ (∀ i, (i < Z.to_nat limit)%nat →
                 out !! i = window !! (i * step)%nat)
         ∧ head out = head window.
Proof.
  intros Hread [Hlo Hhi] Hlen step.
  destruct (apply_limit_strided window limit Hlo Hlen)
    as (out & Hout & Hstep & Hlength & Hnth).
  exists out. unfold get_metrics.
  rewrite (proj2 (Z.ltb_ge _ _)) by done. simpl. rewrite Hread. simpl.
  repeat split; try done.
  rewrite !head_lookup. rewrite Hnth by lia. done.
Qed.

Lemma C7_witness :
  ∃ out, get_metrics naive_ts true (Some five_samples) None None 2
         = Py.Ok out
         ∧ (1 ≤ 2)%nat
         ∧ length out = 2%nat
         ∧ (∀ i, (i < 2)%nat → out !! i = [1; 2; 3; 4; 5] !! (i * 2)%nat)
         ∧ head out = head [1; 2; 3; 4; 5].
Proof.
  apply (C7_strided_subsample naive_ts (Some five_samples) None None 2
           [1; 2; 3; 4; 5]); [reflexivity | lia | simpl; lia].
Defined.

End MetricsFacts.

(** ** The execution engine *)

Module EngineFacts.
Import Engine.

Section facts.
Context {F : Py.Float}.
Variable e : env.
Variable execution_id : string.
Variable wl : workload_config.

Lemma engine_kwargs_empty : engine_kwargs ∅.
Proof. repeat split. apply map_Forall_empty. Qed.

Lemma engine_kwargs_insert (k : string) (v : Store.value)
    (kwargs : gmap string Store.value) :
  k ∈ Store.executions_columns →
  k ≠ "status" → k ≠ "id" →
  engine_kwargs kwargs → engine_kwargs (<[k := v]> kwargs).
Proof.
  intros Hk Hs Hi (H1 & H2 & H3 & H4).
  repeat split; try by rewrite lookup_insert_ne.
  - rewrite lookup_insert_ne; [done|]. intros ->.
    unfold Store.executions_columns in Hk. cases_in Hk.
  - by apply map_Forall_insert_2.
Qed.

Lemma engine_kwargs_singleton (k : string) (v : Store.value) :
  k ∈ Store.executions_columns →
  k ≠ "status" → k ≠ "id" →
  engine_kwargs {[ k := v ]}.
Proof.
  intros Hk Hs Hi. rewrite <- insert_empty.
  by apply engine_kwargs_insert; [..|apply engine_kwargs_empty].
Qed.

(** A status update of the engine succeeds, changes only the table, and
    leaves the record with the new status. *)
Lemma db_update_spec (status : string) (kwargs : gmap string Store.value)
    (s : state) :
  engine_kwargs kwargs →
  ∃ t', db_update e execution_id status kwargs s = (Py.Ok tt, with_db t' s)
        ∧ (has_record (db s) execution_id →
           has_record t' execution_id
           ∧ Store.status_of t' execution_id = Some (Store.VText status)).
Proof.
  intros (Hs & He & Hi & Hcols). unfold db_update.
  rewrite StoreFacts.update_execution_status_ok by done.
  eexists. split; [done|]. intros Hrec.
  eapply StoreFacts.update_status_of; [exact Hi | | exact Hrec].
  by apply StoreFacts.update_execution_status_ok.
Qed.

(** Sequencing, when the first computation is known. *)
Lemma bind_ok {A B} (m : M A) (k : A → M B) (s s' : state) (a : A) :
  m s = (Py.Ok a, s') → bind m k s = k a s'.
Proof. unfold bind. by intros ->. Qed.

Lemma bind_raise {A B} (m : M A) (k : A → M B) (s s' : state)
    (exn msg : string) :
  m s = (Py.Raise exn msg, s') → bind m k s = (Py.Raise exn msg, s').
Proof. unfold bind. by intros ->. Qed.

(** The precheck phase of a blocked execution raises, having changed the
    status to [prechecks] and started no remote operation. *)
Lemma prechecks_phase_blocked (s : state) :
  Prechecks.can_proceed (precheck_report e wl) = false →
  ∃ exn msg s',
    _run_prechecks_phase e execution_id wl s = (Py.Raise exn msg, s')
    ∧ (has_record (db s) execution_id → has_record (db s') execution_id)
    ∧ ∃ evs, trace s' = trace s ++ evs
             ∧ Forall (λ ev, is_remote ev = false) evs.
Proof.
  intros Hblocked. unfold _run_prechecks_phase.
  destruct (db_update_spec "prechecks" ∅ s engine_kwargs_empty)
    as (t1 & Hup & Hrec).
  rewrite (bind_ok _ _ _ _ _ Hup).
  unfold _update_state, suspended, stop_execution, bind, modify, ret, raise, emit.
  destruct (stop_requested e DuringPrechecks), (cluster_config_valid e);
    cbn -[precheck_report]; rewrite ?Hblocked; cbn -[precheck_report];
    do 3 eexists; (split; [done|]); (split; [intros Hr; by apply Hrec|]);
    first [ exists []; split; [by rewrite app_nil_r | constructor]
          | eexists [_]; split; [done | by repeat constructor] ].
Qed.

(** C1: when the precheck report of an execution started with prechecks
    says it cannot proceed, the run ends with the record in status
    [failed], and no remote operation (tool installation, mount, benchmark
    run or any other) was started on any worker. *)
Theorem C1_precheck_gating (t : Store.table) :
  Prechecks.can_proceed (precheck_report e wl) = false →
  has_record t execution_id →
  let out := run_execution e execution_id wl true (initial_state t) in
  out.1 = Py.Ok tt
  ∧ final_status execution_id out.2 = Some (Store.VText "failed")
  ∧ ∀ op c, Remote op c ∉ trace out.2.
Proof.
  intros Hblocked Hrec out.
  assert (∃ sf evs, out = (Py.Ok tt, sf)
                    ∧ final_status execution_id sf = Some (Store.VText "failed")
                    ∧ trace sf = evs
                    ∧ Forall (λ ev, is_remote ev = false) evs)
    as (sf & evs & -> & Hstatus & Htr & Hevs).
  { subst out. unfold run_execution.
    unfold bind at 1. unfold modify at 1. cbv beta iota.
    set (s1 := with_active _ _).
    destruct (prechecks_phase_blocked s1 Hblocked)
      as (exn & msg & s2 & Hphase & Hrec2 & evs & Htrace & Hevs).
    specialize (Hrec2 Hrec).
    unfold try_finally, try_except.
    rewrite (bind_raise _ _ s1 s2 exn msg); last first.
    { apply bind_raise. exact Hphase. }
    destruct (db_update_spec "failed"
                {[ "error_message" := Store.VText msg ]} s2)
      as (t3 & Hup & Hrec3).
    { apply engine_kwargs_singleton; [in_list | done | done]. }
    rewrite (bind_ok _ _ _ _ _ Hup).
    destruct (Hrec3 Hrec2) as [_ Hstatus].
    unfold emit, _cleanup_execution, modify. cbn.
    do 2 eexists. split; [done|]. split; [exact Hstatus|].
    split; [done|]. rewrite Htrace. cbn.
    apply Forall_app. split; [exact Hevs | by repeat constructor]. }
  split; [done|]. split; [exact Hstatus|].
  intros op c Hin. cbn in Hin. rewrite Htr in Hin.
  rewrite Forall_forall in Hevs. by apply Hevs in Hin.
Qed.

(** The result loop never raises; it appends the events of each result in
    turn and touches nothing else. *)
Lemma process_results_spec (rs : list (client * Py.result run_result))
    (acc : totals) (s : state) :
  ∃ acc', process_results e acc rs s
          = (Py.Ok acc', with_trace (trace s ++ (rs ≫= result_events e)) s).
Proof.
  revert acc s. induction rs as [|[c r] rs IH]; intros acc s.
  - exists acc. cbn. rewrite app_nil_r. by destruct s.
  - cbn [process_results].
    assert (∃ acc1, process_result e acc c r s
                    = (Py.Ok acc1,
                       with_trace (trace s ++ result_events e (c, r)) s))
      as [acc1 Hstep].
    { unfold process_result, result_events. cbn [fst snd].
      destruct r as [[[[] message] [m|]]|exn msg]; by eexists. }
    rewrite (bind_ok _ _ _ _ _ Hstep).
    destruct (IH acc1 (with_trace (trace s ++ result_events e (c, r)) s))
      as [acc' ->].
    exists acc'. f_equal. cbn [trace with_trace]. unfold with_trace.
    cbn [active stop_flag pause_flag db aggregate_file command_log].
    by rewrite <- app_assoc.
Qed.

(** A suspension point changes at most the stop flag. *)
Lemma suspended_spec (m : moment) (s : state) :
  ∃ s', suspended e m s = (Py.Ok tt, s')
        ∧ active s' = active s ∧ db s' = db s ∧ trace s' = trace s
        ∧ stop_flag s'
          = if stop_requested e m then Some true else stop_flag s.
Proof.
  unfold suspended. destruct (stop_requested e m).
  - exists (with_stop_flag (Some true) s). repeat split.
  - exists s. repeat split.
Qed.

Lemma stop_is_set_spec (s : state) :
  stop_is_set s = (Py.Ok (default false (stop_flag s)), s).
Proof. reflexivity. Qed.

(** The precheck phase of an execution that may proceed: it completes and
    stores the excluded clients. *)
Lemma prechecks_phase_passes (s : state) (x : exec_state) :
  active s = Some x →
  cluster_config_valid e = true →
  Prechecks.can_proceed (precheck_report e wl) = true →
  ∃ sf,
    _run_prechecks_phase e execution_id wl s = (Py.Ok tt, sf)
    ∧ active sf
      = Some (with_excluded
                (Prechecks.excluded_clients (precheck_report e wl))
                (with_phase "precheck" x))
    ∧ stop_flag sf
      = (if stop_requested e DuringPrechecks then Some true else stop_flag s)
    ∧ trace sf = trace s ++ [SavePrecheckReport (precheck_report e wl)]
    ∧ (has_record (db s) execution_id → has_record (db sf) execution_id).
Proof.
  intros Hact Hvalid Hok. unfold _run_prechecks_phase.
  destruct (db_update_spec "prechecks" ∅ s engine_kwargs_empty)
    as (t1 & Hup & Hrec).
  rewrite (bind_ok _ _ _ _ _ Hup).
  unfold _update_state at 1. unfold bind at 1, modify at 1. cbv beta iota.
  set (s2 := with_active _ _).
  destruct (suspended_spec DuringPrechecks s2)
    as (s3 & Hsusp & Hact3 & Hdb3 & Htr3 & Hstop3).
  rewrite (bind_ok _ _ _ _ _ Hsusp). rewrite Hvalid, Hok. cbn [negb].
  unfold emit at 1. unfold bind at 1, modify at 1. cbv beta iota.
  unfold bind at 1, the_active at 1.
  cbn [active with_trace]. rewrite Hact3. subst s2.
  cbn [active with_active with_db]. rewrite Hact. cbn [fmap option_fmap option_map].
  unfold modify. eexists. split; [done|].
  cbn [active stop_flag db trace with_active with_trace]. split; [done|].
  split; [by rewrite Hstop3|]. split; [by rewrite Htr3|].
  intros Hr. rewrite Hdb3. by apply Hrec.
Qed.

(** The run phase on a non-empty client list: it completes, having
    started the run operation on every client and then processed every
    result. *)
Lemma run_phase_spec (s : state) (x : exec_state) :
  active s = Some x →
  ex_clients x ≠ [] →
  ∃ sf aggregate,
    _run_execution_phase e execution_id wl s = (Py.Ok tt, sf)
    ∧ trace sf = trace s ++ (Remote (run_op wl) <$> ex_clients x)
                 ++ (((λ c, (c, run_task e wl c)) <$> ex_clients x)
                       ≫= result_events e)
                 ++ [AppendMetrics aggregate]
    ∧ active sf = Some (with_phase "steady_state" x)
    ∧ (has_record (db s) execution_id → has_record (db sf) execution_id).
Proof.
  intros Hact Hcs. unfold _run_execution_phase.
  destruct (db_update_spec "running" ∅ s engine_kwargs_empty)
    as (t1 & Hup & Hrec1).
  rewrite (bind_ok _ _ _ _ _ Hup).
  unfold _update_state at 1. unfold bind at 1, modify at 1. cbv beta iota.
  set (s2 := with_active _ _).
  assert (active s2 = Some (with_phase "steady_state" x)) as Hact2.
  { subst s2. cbn. by rewrite Hact. }
  destruct (suspended_spec DuringRun s2)
    as (s3 & Hsusp & Hact3 & Hdb3 & Htr3 & _).
  rewrite (bind_ok _ _ _ _ _ Hsusp).
  unfold bind at 1, the_active at 1. rewrite Hact3, Hact2.
  cbn [ex_clients with_phase].
  rewrite bool_decide_eq_false_2 by done.
  unfold fan_out at 1. unfold bind at 1, modify at 1. cbv beta iota.
  set (s4 := with_trace _ _).
  destruct (process_results_spec ((λ c, (c, run_task e wl c)) <$> ex_clients x)
              (mkTotals 0 (Py.f_of_int 0) (Py.f_of_int 0) 0) s4)
    as [acc Hloop].
  rewrite (bind_ok _ _ _ _ _ Hloop).
  unfold emit at 1. unfold bind at 1, modify at 1. cbv beta iota.
  unfold bind at 1, modify at 1. cbv beta iota.
  match goal with
  | |- context [db_update e execution_id "running" ?kw ?st] =>
      destruct (db_update_spec "running" kw st) as (t5 & Hup5 & Hrec5)
  end.
  { apply engine_kwargs_insert; [in_list | done | done |].
    apply engine_kwargs_insert; [in_list | done | done |].
    apply engine_kwargs_singleton; [in_list | done | done]. }
  rewrite Hup5. do 2 eexists. split; [done|].
  cbn [trace active db with_db with_aggregate_file with_trace] in *.
  subst s4. cbn [trace active db with_trace with_command_log] in *.
  rewrite Htr3, Hact3, Hdb3 in *.
  subst s2. cbn [trace active db with_active with_db] in *.
  split; [by rewrite <- !app_assoc|]. split; [by rewrite Hact|].
  intros Hr. apply Hrec5, Hrec1, Hr.
Qed.

(** The FIO step returns the local client list, and leaves the stored
    execution state, the stop flag and the table alone. *)
Lemma ensure_fio_step_spec (selected : list client) (s : state) :
  ∃ s', ensure_fio_step e wl selected s
        = (Py.Ok (after_ensure_fio e wl selected), s')
        ∧ active s' = active s ∧ db s' = db s
        ∧ stop_flag s' = stop_flag s.
Proof.
  unfold ensure_fio_step, after_ensure_fio.
  destruct (String.eqb _ "fio"); [|by exists s].
  unfold bind, fan_out, modify, emit, ret.
  destruct (bool_decide (fio_failed_of e selected = [])); cbn;
    eexists; repeat split.
Qed.

(** The mount step replaces the stored client list only when a mount
    failed. *)
Lemma mount_step_spec (selected : list client) (s : state) (y : exec_state) :
  active s = Some y →
  ∃ s', mount_step e execution_id wl selected s = (Py.Ok tt, s')
        ∧ db s' = db s
        ∧ stop_flag s' = stop_flag s
        ∧ active s'
          = Some (match is_file_workload_with_mount wl with
                  | Some _ =>
                      if bool_decide (failed_mounts_of e selected = [])
                      then y
                      else with_clients
                             (filter (λ c, client_id c
                                             ∉ failed_mounts_of e selected)
                                selected) y
                  | None => y
                  end).
Proof.
  intros Hact. unfold mount_step.
  destruct (is_file_workload_with_mount wl) as [mc|]; [|by exists s].
  unfold bind, fan_out, modify, emit, ret, the_active.
  destruct (String.eqb _ "cephfs"),
    (bool_decide (failed_mounts_of e selected = []));
    cbn; rewrite ?Hact; eexists; repeat split; exact Hact.
Qed.

(** The prepare phase, on a non-empty selection: it completes and leaves
    [participants_at_run_start] as the client list of the execution. *)
Lemma prepare_phase_spec (s : state) (x : exec_state) :
  active s = Some x →
  select_clients wl (default [] (excluded_clients x)) (get_clients e) ≠ [] →
  ∃ sf y,
    _run_prepare_phase e execution_id wl s = (Py.Ok tt, sf)
    ∧ active sf = Some y
    ∧ ex_clients y
      = participants_at_run_start e wl (default [] (excluded_clients x))
    ∧ stop_flag sf
      = (if stop_requested e DuringPrepare then Some true else stop_flag s)
    ∧ (has_record (db s) execution_id → has_record (db sf) execution_id).
Proof.
  intros Hact Hsel. unfold _run_prepare_phase.
  destruct (db_update_spec "preparing" ∅ s engine_kwargs_empty)
    as (t1 & Hup & Hrec1).
  rewrite (bind_ok _ _ _ _ _ Hup).
  unfold _update_state at 1. unfold bind at 1, modify at 1. cbv beta iota.
  set (s2 := with_active _ _).
  assert (active s2 = Some (with_phase "prepare" x)) as Hact2.
  { subst s2. cbn. by rewrite Hact. }
  destruct (suspended_spec DuringPrepare s2)
    as (s3 & Hsusp & Hact3 & Hdb3 & _ & Hstop3).
  rewrite (bind_ok _ _ _ _ _ Hsusp).
  unfold bind at 1, the_active at 1. rewrite Hact3, Hact2.
  cbn [excluded_clients with_phase].
  set (selected := select_clients wl _ _) in *.
  rewrite bool_decide_eq_false_2 by done.
  unfold bind at 1, modify at 1. cbv beta iota.
  set (s4 := with_active _ s3).
  destruct (ensure_fio_step_spec selected s4)
    as (s5 & Hfio & Hact5 & Hdb5 & Hstop5).
  rewrite (bind_ok _ _ _ _ _ Hfio).
  set (y0 := with_client_ids _ _) in *.
  assert (active s5 = Some y0) as Hact5' by (by rewrite Hact5).
  destruct (mount_step_spec (after_ensure_fio e wl selected) s5 y0 Hact5')
    as (s6 & Hmount & Hdb6 & Hstop6 & Hact6).
  rewrite (bind_ok _ _ _ _ _ Hmount).
  unfold bind at 1, the_active at 1. rewrite Hact6.
  match goal with
  | |- context [db_update e execution_id "preparing" ?kw ?st] =>
      destruct (db_update_spec "preparing" kw st) as (t7 & Hup7 & Hrec7)
  end.
  { apply engine_kwargs_singleton; [in_list | done | done]. }
  rewrite Hup7. do 2 eexists. split; [done|].
  split; [exact Hact6|]. split.
  { unfold participants_at_run_start. fold selected.
    destruct (is_file_workload_with_mount wl); [|done].
    by destruct (bool_decide _). }
  split.
  { cbn [stop_flag with_db]. rewrite Hstop6, Hstop5. subst s4.
    cbn [stop_flag with_active]. by rewrite Hstop3. }
  intros Hr. apply Hrec7. rewrite Hdb6, Hdb5. subst s4.
  cbn [db with_active]. rewrite Hdb3. by apply Hrec1.
Qed.

Lemma started_on_fan_out (op : remote_op) (cs : list client) :
  started_on op (Remote op <$> cs) = cs.
Proof.
  unfold started_on. induction cs as [|c cs IH]; [done|].
  rewrite fmap_cons, bind_cons, IH. by destruct op.
Qed.

Lemma started_on_results (op : remote_op)
    (rs : list (client * Py.result run_result)) :
  started_on op (rs ≫= result_events e) = [].
Proof.
  unfold started_on. induction rs as [|[c r] rs IH]; [done|].
  rewrite bind_cons, bind_app, IH, app_nil_r.
  unfold result_events. cbn [fst snd].
  by destruct r as [[[[] message] [m|]]|exn msg].
Qed.

(** The cleanup phase completes and leaves the table alone. *)
Lemma cleanup_phase_spec (s : state) (x : exec_state) :
  active s = Some x →
  ∃ sf, _run_cleanup_phase e execution_id wl s = (Py.Ok tt, sf)
        ∧ db sf = db s
        ∧ started_on CleanupClient (drop (length (trace s)) (trace sf))
          = ex_clients x.
Proof.
  intros Hact. unfold _run_cleanup_phase.
  unfold bind at 1, gets at 1. cbv beta iota.
  assert (∃ s1, (if bool_decide (command_log s = []) then ret tt
                 else bind (emit (SaveCommandLog (command_log s)))
                        (λ _, modify (with_command_log []))) s
                = (Py.Ok tt, s1)
                ∧ active s1 = active s ∧ db s1 = db s
                ∧ ∃ evs, trace s1 = trace s ++ evs
                         ∧ evs ≫= remote_client CleanupClient = [])
    as (s1 & Hlog & Hact1 & Hdb1 & evs1 & Htr1 & Hevs1).
  { destruct (bool_decide (command_log s = [])).
    - exists s. repeat split. exists []. by rewrite app_nil_r.
    - eexists. repeat split. by eexists [_]. }
  rewrite (bind_ok _ _ _ _ _ Hlog).
  unfold _update_state at 1. unfold bind at 1, modify at 1. cbv beta iota.
  set (s2 := with_active _ _).
  destruct (suspended_spec DuringCleanup s2)
    as (s3 & Hsusp & Hact3 & Hdb3 & Htr3 & _).
  rewrite (bind_ok _ _ _ _ _ Hsusp).
  unfold bind at 1, the_active at 1. rewrite Hact3. subst s2.
  cbn [active with_active]. rewrite Hact1, Hact.
  cbn [fmap option_fmap option_map ex_clients with_phase].
  assert (∃ s4 evs, (match is_file_workload_with_mount wl with
                     | Some mc =>
                         if default true (auto_unmount mc)
                         then fan_out UnmountFilesystem (ex_clients x)
                         else ret tt
                     | None => ret tt
                     end) s3 = (Py.Ok tt, s4)
                    ∧ active s4 = active s3 ∧ db s4 = db s3
                    ∧ aggregate_file s4 = aggregate_file s3
                    ∧ trace s4 = trace s3 ++ evs
                    ∧ evs ≫= remote_client CleanupClient = [])
    as (s4 & evs4 & Hun & Hact4 & Hdb4 & Hagg4 & Htr4 & Hevs4).
  { destruct (is_file_workload_with_mount wl) as [mc|];
      [destruct (default true (auto_unmount mc))|].
    - eexists _, (Remote UnmountFilesystem <$> ex_clients x).
      repeat split. by induction (ex_clients x).
    - exists s3, []. repeat split. by rewrite app_nil_r.
    - exists s3, []. repeat split. by rewrite app_nil_r. }
  rewrite (bind_ok _ _ _ _ _ Hun).
  unfold fan_out at 1. unfold bind at 1, modify at 1. cbv beta iota.
  unfold bind at 1, gets at 1. cbv beta iota.
  cbn [aggregate_file with_trace with_command_log].
  unfold Store.read_metrics.
  destruct (MetricsFacts.read_lines_unfiltered
              (λ m : aggregate_metrics, Py.Ok (Store.mkDatetime false (a_ts m))) (aggregate_file s4))
    as [ms ->].
  unfold emit, _update_state, bind, modify. cbv beta iota.
  eexists. split; [done|].
  cbn [db trace with_active with_trace with_command_log].
  split; [rewrite Hdb4, Hdb3; cbn [db with_active]; exact Hdb1|].
  rewrite Htr4, Htr3. cbn [trace with_active]. rewrite Htr1.
  rewrite <- !app_assoc, drop_app_length.
  unfold started_on. rewrite !bind_app, Hevs1, Hevs4.
  fold (started_on CleanupClient (Remote CleanupClient <$> ex_clients x)).
  rewrite started_on_fan_out. cbn. by rewrite app_nil_r.
Qed.

(** Filtering out the members of an empty list keeps everything. *)
Lemma filter_not_in_nil (cs : list client) :
  filter (λ c, client_id c ∉ @nil string) cs = cs.
Proof.
  induction cs as [|c cs IH]; [done|].
  rewrite filter_cons, decide_True by apply not_elem_of_nil. by rewrite IH.
Qed.

(** Where the stored list agrees with the survivor arithmetic of the
    specification: whenever no installation failed, or the workload
    mounts a filesystem and some mount failed. *)
Lemma participants_agree (excluded : list string) :
  let selected := select_clients wl excluded (get_clients e) in
  fio_failed_of e selected = []
  ∨ (is_Some (is_file_workload_with_mount wl)
     ∧ failed_mounts_of e (after_ensure_fio e wl selected) ≠ []) →
  participants_at_run_start e wl excluded = survivor_arithmetic e wl excluded.
Proof.
  intros selected Hcase.
  unfold participants_at_run_start, survivor_arithmetic, after_ensure_fio.
  fold selected.
  destruct Hcase as [Hnone|[[mc Hmc] Hfailed]].
  - rewrite Hnone, filter_not_in_nil.
    rewrite (bool_decide_eq_true_2 (@nil string = [])) by done.
    cbn [negb]. rewrite andb_false_r.
    assert ((if String.eqb (default "fio" (tool wl)) "fio"
             then selected else selected) = selected) as ->
      by (by destruct (String.eqb _ _)).
    destruct (is_file_workload_with_mount wl); [|done].
    destruct (bool_decide _) eqn:Hb; [|done].
    apply bool_decide_eq_true in Hb. by rewrite Hb, filter_not_in_nil.
  - unfold after_ensure_fio in Hfailed. fold selected in Hfailed.
    rewrite Hmc.
    destruct (String.eqb _ "fio"); cbn [andb] in *.
    + destruct (bool_decide (fio_failed_of e selected = [])) eqn:Hb;
        cbn [negb] in *.
      * apply bool_decide_eq_true in Hb.
        rewrite Hb, filter_not_in_nil in *.
        by rewrite bool_decide_eq_false_2.
      * by rewrite bool_decide_eq_false_2.
    + by rewrite bool_decide_eq_false_2.
Qed.

(** The run phase that follows a prepare phase fans out to exactly the
    stored list. *)
Lemma run_phase_fans_out_to_participants (s : state) (x : exec_state) :
  let participants :=
    participants_at_run_start e wl (default [] (excluded_clients x)) in
  active s = Some x →
  select_clients wl (default [] (excluded_clients x)) (get_clients e) ≠ [] →
  participants ≠ [] →
  ∃ s1 s2,
    _run_prepare_phase e execution_id wl s = (Py.Ok tt, s1)
    ∧ _run_execution_phase e execution_id wl s1 = (Py.Ok tt, s2)
    ∧ started_on (run_op wl) (drop (length (trace s1)) (trace s2))
      = participants.
Proof.
  intros participants Hact Hsel Hne.
  destruct (prepare_phase_spec s x Hact Hsel)
    as (s1 & y & Hprep & Hact1 & Hy & _).
  fold participants in Hy. rewrite <- Hy in Hne.
  destruct (run_phase_spec s1 y Hact1 Hne) as (s2 & agg & Hrun & Htr & _).
  exists s1, s2. split; [done|]. split; [done|].
  rewrite Htr, drop_app_length, Hy.
  unfold started_on. rewrite !bind_app.
  fold (started_on (run_op wl) (Remote (run_op wl) <$> participants)).
  rewrite started_on_fan_out.
  fold (started_on (run_op wl)
          (((λ c, (c, run_task e wl c)) <$> participants) ≫= result_events e)).
  rewrite started_on_results. cbn. by rewrite app_nil_r.
Qed.

(** A stop request that arrives after the prepare phase changes nothing:
    when the prechecks pass, no stop arrives during the prechecks or the
    prepare phase, and some client is selected and left by the prepare
    phase, the run completes and the record ends [completed], whatever
    [stop_requested] says about the run and cleanup phases. *)
Lemma completes_once_running (t : Store.table) :
  let excluded := Prechecks.excluded_clients (precheck_report e wl) in
  cluster_config_valid e = true →
  Prechecks.can_proceed (precheck_report e wl) = true →
  stop_requested e DuringPrechecks = false →
  stop_requested e DuringPrepare = false →
  select_clients wl excluded (get_clients e) ≠ [] →
  participants_at_run_start e wl excluded ≠ [] →
  has_record t execution_id →
  let out := run_execution e execution_id wl true (initial_state t) in
  out.1 = Py.Ok tt
  ∧ final_status execution_id out.2 = Some (Store.VText "completed").
Proof.
  intros excluded Hvalid Hok Hstop1 Hstop2 Hsel Hpart Hrec out.
  assert (∃ sf, out = (Py.Ok tt, sf)
                ∧ final_status execution_id sf
                  = Some (Store.VText "completed"))
    as (sf & -> & Hstatus); [|done].
  subst out. unfold run_execution.
  unfold bind at 1. unfold modify at 1. cbv beta iota.
  set (s1 := with_active _ _).
  destruct (prechecks_phase_passes s1 _ eq_refl Hvalid Hok)
    as (s2 & Hpre & Hact2 & Hflag2 & _ & Hrec2).
  rewrite Hstop1 in Hflag2. cbn in Hflag2. specialize (Hrec2 Hrec).
  destruct (prepare_phase_spec s2 _ Hact2 Hsel)
    as (s3 & y & Hprep & Hact3 & Hy & Hflag3 & Hrec3).
  rewrite Hstop2, Hflag2 in Hflag3. specialize (Hrec3 Hrec2).
  assert (ex_clients y = participants_at_run_start e wl excluded) as Hy'
    by exact Hy.
  rewrite <- Hy' in Hpart.
  destruct (run_phase_spec s3 y Hact3 Hpart)
    as (s4 & agg & Hrun & _ & Hact4 & Hrec4).
  specialize (Hrec4 Hrec3).
  destruct (cleanup_phase_spec s4 _ Hact4) as (s5 & Hclean & Hdb5 & _).
  destruct (db_update_spec "completed" ∅ s5 engine_kwargs_empty)
    as (t6 & Hup6 & Hrec6).
  rewrite Hdb5 in Hrec6. destruct (Hrec6 Hrec4) as [_ Hstatus].
  unfold try_finally, try_except.
  rewrite (bind_ok _ _ s1 s2 false); last first.
  { rewrite (bind_ok _ _ _ _ _ Hpre), stop_is_set_spec. by rewrite Hflag2. }
  rewrite (bind_ok _ _ _ _ _ Hprep).
  rewrite (bind_ok _ _ s3 s3 false) by (by rewrite stop_is_set_spec, Hflag3).
  rewrite (bind_ok _ _ _ _ _ Hrun), (bind_ok _ _ _ _ _ Hclean), Hup6.
  unfold _cleanup_execution, modify. eexists. split; [done|].
  exact Hstatus.
Qed.

(** Publishing the stop event to every client, when the bus accepts
    them all. *)
Lemma publish_all_spec (cs : list client) (s : state) :
  (∀ c, c ∈ cs → publish_to_agent e c = Py.Ok tt) →
  for_each (λ c, match publish_to_agent e c with
                 | Py.Ok _ => emit (PublishStop c)
                 | Py.Raise exn msg => raise exn msg
                 end) cs s
  = (Py.Ok tt, with_trace (trace s ++ (PublishStop <$> cs)) s).
Proof.
  revert s. induction cs as [|c cs IH]; intros s Hall.
  - cbn. rewrite app_nil_r. by destruct s.
  - cbn [for_each]. unfold bind at 1.
    rewrite (Hall c) by apply list_elem_of_here.
    unfold emit at 1, modify at 1. cbv beta iota.
    rewrite IH by (intros c' Hc'; by apply Hall, list_elem_of_further).
    f_equal. unfold with_trace. cbn. by rewrite <- app_assoc.
Qed.

(** [_handle_stopped], when the bus accepts the stop events: the record
    ends [cancelled]. *)
Lemma handle_stopped_spec (s : state) :
  (∀ c, c ∈ from_option ex_clients [] (active s) →
        publish_to_agent e c = Py.Ok tt) →
  has_record (db s) execution_id →
  ∃ sf, _handle_stopped e execution_id s = (Py.Ok tt, sf)
        ∧ final_status execution_id sf = Some (Store.VText "cancelled")
        ∧ trace sf
          = trace s ++ (PublishStop <$> from_option ex_clients [] (active s)).
Proof.
  intros Hall Hrec. unfold _handle_stopped.
  destruct (db_update_spec "cancelled" ∅ s engine_kwargs_empty)
    as (t1 & Hup & Hrec1).
  destruct (Hrec1 Hrec) as [_ Hstatus].
  rewrite (bind_ok _ _ _ _ _ Hup).
  unfold bind at 1, gets at 1. cbv beta iota. cbn [active with_db].
  rewrite (bind_ok _ _ _ _ _ (publish_all_spec _ _ Hall)).
  unfold _cleanup_execution, modify. eexists. split; [done|].
  split; [exact Hstatus|]. done.
Qed.

(** The checkpoint after the prechecks: a stop request that arrives while
    the prechecks run ends the execution [cancelled], before any remote
    operation. *)
Lemma cancelled_when_stopped_during_prechecks (t : Store.table) :
  cluster_config_valid e = true →
  Prechecks.can_proceed (precheck_report e wl) = true →
  stop_requested e DuringPrechecks = true →
  has_record t execution_id →
  let out := run_execution e execution_id wl true (initial_state t) in
  out.1 = Py.Ok tt
  ∧ final_status execution_id out.2 = Some (Store.VText "cancelled")
  ∧ Forall (λ ev, is_remote ev = false) (trace out.2).
Proof.
  intros Hvalid Hok Hstop Hrec out.
  assert (∃ sf, out = (Py.Ok tt, sf)
                ∧ final_status execution_id sf
                  = Some (Store.VText "cancelled")
                ∧ trace sf = [SavePrecheckReport (precheck_report e wl)])
    as (sf & -> & Hstatus & Htr).
  { subst out. unfold run_execution.
    unfold bind at 1. unfold modify at 1. cbv beta iota.
    set (s1 := with_active _ _).
    destruct (prechecks_phase_passes s1 _ eq_refl Hvalid Hok)
      as (s2 & Hpre & Hact2 & Hflag2 & Htr2 & Hrec2).
    rewrite Hstop in Hflag2. specialize (Hrec2 Hrec).
    destruct (handle_stopped_spec s2) as (s3 & Hstopd & Hstatus & Htr3).
    { rewrite Hact2. intros c Hc. by apply elem_of_nil in Hc. }
    { exact Hrec2. }
    unfold try_finally, try_except.
    rewrite (bind_ok _ _ s1 s2 true); last first.
    { rewrite (bind_ok _ _ _ _ _ Hpre), stop_is_set_spec. by rewrite Hflag2. }
    rewrite Hstopd. unfold _cleanup_execution, modify.
    eexists. split; [done|]. split; [exact Hstatus|].
    cbn [trace with_active with_stop_flag with_pause_flag].
    rewrite Htr3, Hact2, Htr2. cbn. done. }
  split; [done|]. split; [exact Hstatus|].
  cbn [snd]. rewrite Htr. by repeat constructor.
Qed.

(** The checkpoint after the prepare phase: a stop request that arrives
    while the clients are prepared ends the execution [cancelled], when
    the bus accepts the stop events; the run operation is never started. *)
Lemma cancelled_when_stopped_during_prepare (t : Store.table) :
  let excluded := Prechecks.excluded_clients (precheck_report e wl) in
  cluster_config_valid e = true →
  Prechecks.can_proceed (precheck_report e wl) = true →
  stop_requested e DuringPrechecks = false →
  stop_requested e DuringPrepare = true →
  select_clients wl excluded (get_clients e) ≠ [] →
  (∀ c, publish_to_agent e c = Py.Ok tt) →
  has_record t execution_id →
  let out := run_execution e execution_id wl true (initial_state t) in
  out.1 = Py.Ok tt
  ∧ final_status execution_id out.2 = Some (Store.VText "cancelled").
Proof.
  intros excluded Hvalid Hok Hstop1 Hstop2 Hsel Hpub Hrec out.
  assert (∃ sf, out = (Py.Ok tt, sf)
                ∧ final_status execution_id sf
                  = Some (Store.VText "cancelled"))
    as (sf & -> & Hstatus); [|done].
  subst out. unfold run_execution.
  unfold bind at 1. unfold modify at 1. cbv beta iota.
  set (s1 := with_active _ _).
  destruct (prechecks_phase_passes s1 _ eq_refl Hvalid Hok)
    as (s2 & Hpre & Hact2 & Hflag2 & _ & Hrec2).
  rewrite Hstop1 in Hflag2. cbn in Hflag2. specialize (Hrec2 Hrec).
  destruct (prepare_phase_spec s2 _ Hact2 Hsel)
    as (s3 & y & Hprep & Hact3 & Hy & Hflag3 & Hrec3).
  rewrite Hstop2 in Hflag3. specialize (Hrec3 Hrec2).
  destruct (handle_stopped_spec s3) as (s4 & Hstopd & Hstatus & _).
  { intros c _. apply Hpub. }
  { exact Hrec3. }
  unfold try_finally, try_except.
  rewrite (bind_ok _ _ s1 s2 false); last first.
  { rewrite (bind_ok _ _ _ _ _ Hpre), stop_is_set_spec. by rewrite Hflag2. }
  rewrite (bind_ok _ _ _ _ _ Hprep).
  rewrite (bind_ok _ _ s3 s3 true) by (by rewrite stop_is_set_spec, Hflag3).
  rewrite Hstopd. unfold _cleanup_execution, modify.
  eexists. split; [done|]. exact Hstatus.
Qed.

End facts.

Section isolation.
Context {F : Py.Float}.
Variable e : env.
Variable execution_id : string.
Variable wl : workload_config.
Variable w : client.
Variables exn msg : string.

Lemma metrics_appended_for_app (cid : string) (tr1 tr2 : list event) :
  metrics_appended_for cid (tr1 ++ tr2)
  = metrics_appended_for cid tr1 ++ metrics_appended_for cid tr2.
Proof. unfold metrics_appended_for. apply bind_app. Qed.

Lemma metrics_appended_for_remote (cid : string) (op : remote_op)
    (cs : list client) :
  metrics_appended_for cid (Remote op <$> cs) = [].
Proof. induction cs as [|c cs IH]; [done|]. exact IH. Qed.

(** The task of any other client is what it was. *)
Lemma run_task_inject (c : client) :
  c ≠ w → run_task (inject_failure w exn msg e) wl c = run_task e wl c.
Proof.
  intros Hc. unfold run_task, run_op.
  destruct (String.eqb _ _); cbn; by rewrite decide_False.
Qed.

Lemma run_task_inject_self :
  run_task (inject_failure w exn msg e) wl w = Py.Raise exn msg.
Proof.
  unfold run_task, run_op.
  destruct (String.eqb _ _); cbn; by rewrite decide_True.
Qed.

(** The records appended for a client with another id do not depend on
    the injected failure. *)
Lemma appended_for_other (cid : string) (cs : list client) :
  cid ≠ client_id w →
  metrics_appended_for cid
    (((λ c, (c, run_task (inject_failure w exn msg e) wl c)) <$> cs)
       ≫= result_events (inject_failure w exn msg e))
  = metrics_appended_for cid
      (((λ c, (c, run_task e wl c)) <$> cs) ≫= result_events e).
Proof.
  intros Hcid. induction cs as [|c cs IH]; [done|].
  rewrite !fmap_cons, !bind_cons, !metrics_appended_for_app, IH.
  f_equal. destruct (decide (c = w)) as [->|Hc].
  - rewrite run_task_inject_self. unfold result_events. cbn [fst snd].
    destruct (run_task e wl w) as [[[[] message] [m|]]|exn' msg']; cbn;
      rewrite ?(proj2 (String.eqb_neq _ _)) by done; done.
  - by rewrite run_task_inject.
Qed.

(** C6: when the run task of one worker raises, the run phase still
    completes, the run operation was started on every client, the
    exception is written to the execution log under the worker's id, and
    for every worker with another id the task result and the records
    appended to its metrics file are those of the run without the
    failure. *)
Theorem C6_fan_out_isolation (s : state) :
  let cs := from_option ex_clients [] (active s) in
  let e' := inject_failure w exn msg e in
  let out := _run_execution_phase e execution_id wl s in
  let out' := _run_execution_phase e' execution_id wl s in
  w ∈ cs →
  out'.1 = Py.Ok tt
  ∧ (∀ c, c ∈ cs → Remote (run_op wl) c ∈ trace out'.2)
  ∧ WriteLog ("FIO failed on " +:+ client_id w +:+ ": " +:+ msg)
      ∈ trace out'.2
  ∧ ∀ c, c ∈ cs → client_id c ≠ client_id w →
      run_task e' wl c = run_task e wl c
      ∧ metrics_appended_for (client_id c) (trace out'.2)
        = metrics_appended_for (client_id c) (trace out.2).
Proof.
  intros cs e' out out' Hw.
  destruct (active s) as [x|] eqn:Hact;
    [|subst cs; by apply elem_of_nil in Hw].
  assert (cs = ex_clients x) as Hcsx by done.
  assert (ex_clients x ≠ []) as Hne.
  { rewrite <- Hcsx. intros Heq. rewrite Heq in Hw. by apply elem_of_nil in Hw. }
  destruct (run_phase_spec e execution_id wl s x Hact Hne)
    as (sf & agg & Hrun & Htr & _).
  destruct (run_phase_spec e' execution_id wl s x Hact Hne)
    as (sf' & agg' & Hrun' & Htr' & _).
  rewrite <- Hcsx in Htr, Htr'.
  subst out out'. rewrite Hrun, Hrun'. cbn [fst snd].
  rewrite Htr, Htr'. split; [done|]. split; [|split].
  - intros c Hc. apply elem_of_app. right. apply elem_of_app. left.
    by apply list_elem_of_fmap_2.
  - apply elem_of_app. right. apply elem_of_app. right.
    apply elem_of_app. left. apply list_elem_of_bind.
    exists (w, run_task e' wl w). split.
    + unfold e'. rewrite run_task_inject_self. apply list_elem_of_here.
    + by apply (list_elem_of_fmap_2 (λ c, (c, run_task e' wl c))).
  - intros c Hc Hid. split.
    + apply run_task_inject. intros Heq. apply Hid. f_equal. exact Heq.
    + rewrite !metrics_appended_for_app, !metrics_appended_for_remote.
      unfold e'. by rewrite appended_for_other.
Qed.

End isolation.
End EngineFacts.

(** ** The engine on concrete runs *)

Module ScenarioFacts.
Import Engine Scenario.

#[local] Existing Instance Py.Z_float.

Lemma pending_row_record : has_record [pending_row] "exec-1".
Proof.
  unfold has_record, Store.get_execution. cbn [filter list_filter].
  rewrite decide_True; [by eexists|].
  unfold Store.has_id, pending_row. by rewrite lookup_insert_eq.
Qed.

(** S2: cluster health is [HEALTH_ERR]; the execution fails and no worker
    is contacted. *)
Lemma C1_witness :
  blocked_run.1 = Py.Ok tt
  ∧ final_status "exec-1" blocked_run.2 = Some (Store.VText "failed")
  ∧ ∀ op c, Remote op c ∉ trace blocked_run.2.
Proof.
  apply (EngineFacts.C1_precheck_gating
           (env_with [c1; c2; c3] health_err "" never) "exec-1" fio_workload
           [pending_row]).
  - vm_compute. reflexivity.
  - apply pending_row_record.
Defined.

Example blocked_run_issue :
  Prechecks.blocking_issues
    (precheck_report (env_with [c1; c2; c3] health_err "" never) fio_workload)
  = ["[Cluster] cluster_health: Cluster health is HEALTH_ERR"].
Proof. vm_compute. reflexivity. Qed.

(** C3, at the failing input: a stop requested while the benchmark runs
    sets the flag, yet nothing reads it after the run phase; the cleanup
    phase runs and the record ends [completed]. *)
Theorem C3_stop_during_run_completes :
  stop_requested (env_with [c1; c2; c3] all_green "" during_run) DuringRun
    = true
  ∧ stopped_run.1 = Py.Ok tt
  ∧ final_status "exec-1" stopped_run.2 = Some (Store.VText "completed")
  ∧ started_on CleanupClient (trace stopped_run.2) = [c1; c2; c3].
Proof. vm_compute. repeat split; reflexivity. Qed.

(** The checkpoint after the prechecks does observe a stop. *)
Example stop_during_prechecks_cancels :
  stopped_early_run.1 = Py.Ok tt
  ∧ final_status "exec-1" stopped_early_run.2 = Some (Store.VText "cancelled")
  ∧ Forall (λ ev, is_remote ev = false) (trace stopped_early_run.2).
Proof. vm_compute. repeat split; repeat constructor. Qed.

(** C4, at the failing input: the FIO installation fails on [client-2];
    the failure is logged, yet the run phase starts FIO on all three
    clients, [client-2] included, and the record counts three clients. *)
Theorem C4_fio_failure_still_runs :
  ensure_fio_on_clients (env_with [c1; c2; c3] all_green "client-2" never)
    [c1; c2; c3]
  = [ ("client-1", true, "FIO already installed: fio-3.35");
      ("client-2", false, "Failed to install FIO: No package manager found");
      ("client-3", true, "FIO already installed: fio-3.35") ]
  ∧ log_lines (trace partial_prepare_run.2)
    = ["FIO install failed on: ['client-2']"]
  ∧ started_on RunFio (trace partial_prepare_run.2) = [c1; c2; c3]
  ∧ participants_at_run_start
      (env_with [c1; c2; c3] all_green "client-2" never) fio_workload []
    = [c1; c2; c3]
  ∧ survivor_arithmetic
      (env_with [c1; c2; c3] all_green "client-2" never) fio_workload []
    = [c1; c3]
  ∧ (Store.get_execution (db partial_prepare_run.2) "exec-1"
       ≫= λ r, r !! "client_count") = Some (Store.VInt 3).
Proof.
  repeat split; vm_compute; reflexivity.
Qed.

(** The run task of [client-2] raises; the other two clients still get
    their records. *)
Lemma C6_witness :
  let e := env_with [c1; c2; c3] all_green "" never in
  let e' := inject_failure c2 "RuntimeError" "connection reset" e in
  let out := _run_execution_phase e "exec-1" fio_workload prepared_state in
  let out' := _run_execution_phase e' "exec-1" fio_workload prepared_state in
  out'.1 = Py.Ok tt
  ∧ WriteLog "FIO failed on client-2: connection reset" ∈ trace out'.2
  ∧ metrics_appended_for "client-1" (trace out'.2)
    = metrics_appended_for "client-1" (trace out.2)
  ∧ metrics_appended_for "client-3" (trace out'.2)
    = metrics_appended_for "client-3" (trace out.2).
Proof.
  intros e e' out out'.
  destruct (EngineFacts.C6_fan_out_isolation e "exec-1" fio_workload c2
              "RuntimeError" "connection reset" prepared_state)
    as (Hok & _ & Hlog & Hothers).
  { cbn. in_list. }
  split; [exact Hok|]. split; [exact Hlog|].
  split.
  - apply (Hothers c1); [cbn; in_list | discriminate].
  - apply (Hothers c3); [cbn; in_list | discriminate].
Defined.

End ScenarioFacts.

(** ** The metrics file *)

Module MetricsFileFacts.
Import Store MetricsRoute MetricsFile.

(** *** Lines *)




Section file.
Context {A : Type}.
Variable json_loads : string → Py.result A.
Variable json_dumps : A → Py.result string.
Context (ts : A → Py.result datetime).
Implicit Types lines : list (line A).

Lemma records_cons_json (m : A) lines :
  records (Json m :: lines) = m :: records lines.
Proof. reflexivity. Qed.

Lemma records_app lines1 lines2 :
  records (lines1 ++ lines2) = records lines1 ++ records lines2.
Proof. unfold records. apply bind_app. Qed.

Lemma read_lines_records lines :
  read_lines ts None None lines = Py.Ok (records lines).
Proof.
  induction lines as [|[| |m] rest IH]; simpl; rewrite ?IH; done.
Qed.

(** Lines that all decode are read as the list of what they decode
    to. *)
Lemma read_text_lines_decoded (start_time end_time : option datetime)
    (ls : list string) (lines : list (line A)) :
  Forall2 (λ l ln, decode_line json_loads l = Py.Ok ln) ls lines →
  read_text_lines json_loads ts start_time end_time ls
  = read_lines ts start_time end_time lines.
Proof.
  induction 1 as [|l ln ls lines Hl _ IH]; [done|].
  cbn [read_text_lines read_lines]. rewrite Hl. cbn [Py.bind].
  destruct ln; by rewrite IH.
Qed.



Lemma dt_lt_same_kind (a b : datetime) :
  aware a = aware b →
  dt_lt a b = Py.Ok (Z.ltb (instant a) (instant b)).
Proof. unfold dt_lt. intros ->. by rewrite Bool.eqb_reflx. Qed.

Lemma dt_lt_other_kind (a b : datetime) :
  aware a ≠ aware b →
  dt_lt a b
  = Py.Raise "TypeError"
      "can't compare offset-naive and offset-aware datetimes".
Proof. unfold dt_lt. by destruct (aware a), (aware b). Qed.

(** The time filter on a record whose timestamp is of the kind of the
    bounds. *)
Lemma in_window_comparable (start_time end_time : option datetime)
    (m : A) (t : datetime) :
  ts m = Py.Ok t →
  comparable t start_time = true → comparable t end_time = true →
  in_window ts start_time end_time m = Py.Ok (within start_time end_time t).
Proof.
  intros Ht Hs He. unfold in_window, within. rewrite Ht.
  destruct start_time as [s|], end_time as [e'|];
    cbn [comparable from_option] in Hs, He;
    try apply Bool.eqb_prop in Hs; try apply Bool.eqb_prop in He;
    cbn [Py.bind from_option];
    rewrite ?(dt_lt_same_kind t s Hs), ?(dt_lt_same_kind e' t (eq_sym He));
    cbn [Py.bind]; [| |done..].
  - destruct (Z.ltb (instant t) (instant s)); [done|].
    cbn [Py.bind negb andb]. done.
  - by destruct (Z.ltb (instant t) (instant s)).
Qed.

(** X2: when every record of the file carries a timestamp that can be
    read and is of the kind of the bounds given (naive or aware), a read
    over a time window returns exactly the records with
    [start_time <= ts <= end_time], both bounds included, in file order. *)
Theorem X2_read_window (file : option (list (line A)))
    (start_time end_time : option datetime) :
  (∀ m, m ∈ records (default [] file) →
        ∃ t, ts m = Py.Ok t
             ∧ comparable t start_time = true
             ∧ comparable t end_time = true) →
  read_metrics ts file start_time end_time
  = Py.Ok (filter (λ m, match ts m with
                        | Py.Ok t => within start_time end_time t
                        | Py.Raise _ _ => false
                        end = true)
             (records (default [] file))).
Proof.
  destruct file as [lines|]; [|done]. simpl.
  induction lines as [|[| |m] rest IH]; intros Hts; [done|by apply IH..|].
  rewrite records_cons_json in Hts |- *.
  destruct (Hts m) as (t & Ht & Hs & He); [apply list_elem_of_here|].
  cbn [read_lines].
  rewrite IH by (intros m' Hm'; by apply Hts, list_elem_of_further).
  rewrite filter_cons, Ht.
  rewrite (in_window_comparable _ _ _ _ Ht Hs He).
  cbn [Py.bind]. by destruct (within start_time end_time t).
Qed.

(** The lines are read in file order, and the first exception ends the
    read. *)
Lemma read_lines_app (start_time end_time : option datetime) lines1 lines2 :
  read_lines ts start_time end_time (lines1 ++ lines2)
  = Py.bind (read_lines ts start_time end_time lines1) (λ ms1,
      Py.bind (read_lines ts start_time end_time lines2) (λ ms2,
        Py.Ok (ms1 ++ ms2))).
Proof.
  induction lines1 as [|[| |m] rest IH]; cbn [app read_lines].
  - cbn [Py.bind]. by destruct (read_lines ts start_time end_time lines2).
  - exact IH.
  - exact IH.
  - rewrite IH. destruct (in_window ts start_time end_time m) as [keep|];
      [|done]. cbn [Py.bind].
    destruct (read_lines ts start_time end_time rest) as [ms1|]; [|done].
    cbn [Py.bind].
    destruct (read_lines ts start_time end_time lines2) as [ms2|]; [|done].
    cbn [Py.bind]. by destruct keep.
Qed.

(** X3: with a start or an end time given, a decoded record whose
    timestamp cannot be read, or is naive where the bound it meets is
    aware (or the reverse), makes the whole read fail, wherever the record
    stands in the file. When the lines before it are read without error,
    the read raises what reading the timestamp raised, or the [TypeError]
    of the comparison. *)
Theorem X3_read_window_raises (lines1 lines2 : list (line A)) (m : A)
    (start_time end_time : option datetime) :
  is_Some start_time ∨ is_Some end_time →
  (∃ exn msg, ts m = Py.Raise exn msg)
  ∨ (∃ t s, ts m = Py.Ok t ∧ start_time = Some s ∧ aware t ≠ aware s)
  ∨ (∃ t e, ts m = Py.Ok t ∧ start_time = None ∧ end_time = Some e
            ∧ aware t ≠ aware e) →
  (∃ exn msg,
     read_metrics ts (Some (lines1 ++ Json m :: lines2)) start_time end_time
     = Py.Raise exn msg)
  ∧ (∀ kept,
       read_metrics ts (Some lines1) start_time end_time = Py.Ok kept →
       read_metrics ts (Some (lines1 ++ Json m :: lines2)) start_time end_time
       = match ts m with
         | Py.Raise exn msg => Py.Raise exn msg
         | Py.Ok _ =>
             Py.Raise "TypeError"
               "can't compare offset-naive and offset-aware datetimes"
         end).
Proof.
  intros Hbound Hbad.
  assert (in_window ts start_time end_time m
          = match ts m with
            | Py.Raise exn msg => Py.Raise exn msg
            | Py.Ok _ =>
                Py.Raise "TypeError"
                  "can't compare offset-naive and offset-aware datetimes"
            end) as Hwin.
  { unfold in_window.
    destruct Hbad as [(exn & msg & Hm)|[(t & s & Hm & -> & Hkind)
                                        |(t & e' & Hm & -> & -> & Hkind)]];
      rewrite Hm.
    - destruct Hbound as [[s ->]|[e' ->]]; [done|]. by destruct start_time.
    - cbn [Py.bind]. rewrite (dt_lt_other_kind t s Hkind).
      by destruct end_time.
    - cbn [Py.bind]. by rewrite (dt_lt_other_kind e' t (not_eq_sym Hkind)). }
  assert (∃ exn msg, in_window ts start_time end_time m = Py.Raise exn msg)
    as (exn & msg & Hraise).
  { rewrite Hwin. destruct (ts m); by eexists _, _. }
  cbn [read_metrics]. rewrite read_lines_app. cbn [read_lines].
  rewrite Hraise. cbn [Py.bind]. split.
  - destruct (read_lines ts start_time end_time lines1); by eexists _, _.
  - intros kept ->. cbn [Py.bind]. rewrite Hraise in Hwin.
    destruct (ts m); by simplify_eq.
Qed.

(** The latest samples, when the read gives [ms]. *)
Lemma latest_of_read (file : option (list (line A))) (count : Z) :
  count ≤ 300 →
  get_latest_metrics ts true file count
  = Py.Ok (let ms := records (default [] file) in
           if Z.ltb count (Z.of_nat (length ms))
           then Builtins.slice_from ms (- count) else ms).
Proof.
  intros Hc. unfold get_latest_metrics.
  rewrite (proj2 (Z.ltb_ge _ _)) by done. cbn [negb].
  assert (read_metrics ts file None None = Py.Ok (records (default [] file)))
    as ->; [|done].
  destruct file as [lines|]; [apply read_lines_records | done].
Qed.

(** X4: for a count of at least 1, [get_latest_metrics] returns the last
    [count] samples of the file, or all of them when there are fewer. *)
Theorem X4_latest_suffix (file : option (list (line A))) (count : Z) :
  1 ≤ count ≤ 300 →
  let ms := records (default [] file) in
  let k := Nat.min (Z.to_nat count) (length ms) in
  ∃ out, get_latest_metrics ts true file count = Py.Ok out
         ∧ out = drop (length ms - k) ms
         ∧ length out = k.
Proof.
  intros [Hlo Hhi] ms k. rewrite latest_of_read by done. cbv zeta. fold ms.
  eexists. split; [done|].
  destruct (Z.ltb_spec count (Z.of_nat (length ms))) as [Hlt|Hge].
  - unfold Builtins.slice_from. rewrite (proj2 (Z.leb_gt _ _)) by lia.
    replace (Z.to_nat (Z.of_nat (length ms) + - count))
      with (length ms - k)%nat by lia.
    split; [done|]. rewrite length_drop. lia.
  - replace (length ms - k)%nat with 0%nat by lia. split; [done|].
    lia.
Qed.

(** X5: a count of zero or below is not rejected: [get_latest_metrics]
    then returns every sample but the first [-count], so all of them for
    a count of 0. *)
Theorem X5_latest_nonpositive_count (file : option (list (line A)))
    (count : Z) :
  count ≤ 0 →
  get_latest_metrics ts true file count
  = Py.Ok (drop (Z.to_nat (- count)) (records (default [] file))).
Proof.
  intros Hc. rewrite latest_of_read by lia. cbv zeta.
  set (ms := records _). f_equal.
  destruct (Z.ltb_spec count (Z.of_nat (length ms))) as [Hlt|Hge].
  - unfold Builtins.slice_from. by rewrite (proj2 (Z.leb_le _ _)) by lia.
  - assert (count = 0 ∧ length ms = 0%nat) as [-> Hlen] by lia.
    by destruct ms.
Qed.

(** A strided list is no longer than the number of strides that fit. *)
Lemma every_from_length_le (step k n : nat) (l : list A) :
  (1 ≤ step)%nat → (length l ≤ k + n * step)%nat →
  (length (Py.every_from step k l) ≤ n)%nat.
Proof.
  intros Hstep Hlen.
  destruct (decide (length (Py.every_from step k l) ≤ n)%nat) as [|Hgt];
    [done|].
  destruct (lookup_lt_is_Some_2 (Py.every_from step k l) n) as [x Hx]; [lia|].
  rewrite MetricsFacts.every_from_lookup in Hx by done.
  apply lookup_lt_Some in Hx. lia.
Qed.

(** X6: a limit of zero or below is not rejected, and [get_metrics] then
    never returns a sample: on a non-empty window a limit of 0 raises
    [ZeroDivisionError] and a negative limit gives the empty list; on an
    empty window a negative limit raises [ValueError]. *)
Theorem X6_get_metrics_nonpositive_limit (file : option (list (line A)))
    (start_time end_time : option datetime) (limit : Z) (window : list A) :
  read_metrics ts file start_time end_time = Py.Ok window →
  limit ≤ 0 →
  get_metrics ts true file start_time end_time limit
  = match window with
    | [] =>
        if Z.eqb limit 0 then Py.Ok []
        else Py.Raise "ValueError" "slice step cannot be zero"
    | _ :: _ =>
        if Z.eqb limit 0
        then Py.Raise "ZeroDivisionError" "integer division or modulo by zero"
        else Py.Ok []
    end.
Proof.
  intros Hread Hlim. unfold get_metrics.
  rewrite (proj2 (Z.ltb_ge _ _)) by lia. cbn [negb]. rewrite Hread.
  cbn [Py.bind]. unfold apply_limit, Py.floordiv.
  destruct (Z.eqb_spec limit 0) as [->|Hnz].
  - destruct window as [|m window]; [done|].
    rewrite (proj2 (Z.ltb_lt _ _)) by (cbn [length]; lia). done.
  - rewrite (proj2 (Z.ltb_lt _ _)) by lia. cbn [Py.bind].
    destruct window as [|m window]; [by rewrite Zdiv_0_l|].
    set (n := Z.of_nat (length (m :: window))).
    assert (0 < n) as Hn by (subst n; cbn [length]; lia).
    pose proof (Z.div_mod n limit Hnz) as Hdm.
    pose proof (Z.mod_neg_bound n limit ltac:(lia)) as Hmod.
    assert (n / limit < 0) as Hq by nia.
    destruct (n / limit) as [|q|q] eqn:Hdiv; [lia..|].
    cbn [Py.slice_step Py.bind]. f_equal.
    unfold Py.slice_to. rewrite (proj2 (Z.leb_gt _ _)) by lia.
    assert (length (Py.every_from (Pos.to_nat q) 0 (rev (m :: window)))
            ≤ Z.to_nat (- limit))%nat as Hle.
    { apply every_from_length_le; [lia|]. rewrite length_rev.
      assert (n ≤ Z.of_nat (Z.to_nat (- limit) * Pos.to_nat q)); [|subst n; lia].
      rewrite Nat2Z.inj_mul, Z2Nat.id, positive_nat_Z by lia. nia. }
    replace (Z.to_nat (Z.of_nat _ + limit)) with 0%nat by lia. done.
Qed.

End file.

Lemma X6_witness :
  get_metrics naive_ts true (Some five_samples) None None (-2)
  = Py.Ok [].
Proof.
  apply (X6_get_metrics_nonpositive_limit naive_ts
           (Some five_samples) None None (-2) [1; 2; 3; 4; 5]);
    [reflexivity | lia].
Defined.


(** The same file read before and after the append. *)
Example append_behind_complete_line :
  let f := Text ("{}" +:+ Builtins.nl) in
  let after := append_metrics dumps_text "aggregate.jsonl" f "{}" in
  read_file only_braces no_ts f None None = Py.Ok ["{}"]
  ∧ read_file only_braces no_ts after.2 None None = Py.Ok ["{}"; "{}"].
Proof. split; vm_compute; reflexivity. Qed.

(** A file whose last line lacks its line end: two records are read
    before the append, one after it, since the appended record and the
    last one now share a line that is no JSON text. *)
Example append_behind_unterminated_line :
  let f := Text ("{}" +:+ Builtins.nl +:+ "{}") in
  let after := append_metrics dumps_text "aggregate.jsonl" f "{}" in
  read_file only_braces no_ts f None None = Py.Ok ["{}"; "{}"]
  ∧ read_file only_braces no_ts after.2 None None = Py.Ok ["{}"].
Proof. split; vm_compute; reflexivity. Qed.

(** Without the directory of the execution nothing is written. *)
Example append_without_directory :
  append_metrics dumps_text "aggregate.jsonl" NoDirectory "{}"
  = (Py.Raise "FileNotFoundError"
       "[Errno 2] No such file or directory: 'aggregate.jsonl'",
     NoDirectory).
Proof. reflexivity. Qed.

Lemma X2_witness :
  let lo := Some (mkDatetime false 2) in
  let hi := Some (mkDatetime false 4) in
  read_metrics naive_ts (Some five_samples) lo hi
  = Py.Ok (filter (λ m, match naive_ts m with
                        | Py.Ok t => within lo hi t
                        | Py.Raise _ _ => false
                        end = true)
             (records (default [] (Some five_samples)))).
Proof.
  intros lo hi.
  apply (X2_read_window naive_ts (Some five_samples) lo hi).
  intros m _. by eexists.
Defined.

Example read_window_two_to_four :
  read_metrics naive_ts (Some five_samples)
    (Some (mkDatetime false 2)) (Some (mkDatetime false 4))
  = Py.Ok [2; 3; 4].
Proof. vm_compute. reflexivity. Qed.

(** Naive timestamps, as the engine writes them, read with an aware
    lower bound. *)
Lemma X3_witness :
  let lo := Some (mkDatetime true 4) in
  (∃ exn msg,
     read_metrics naive_ts (Some ([Blank] ++ Json 1 :: [Json 2])) lo None
     = Py.Raise exn msg)
  ∧ (∀ kept,
       read_metrics naive_ts (Some [Blank]) lo None = Py.Ok kept →
       read_metrics naive_ts (Some ([Blank] ++ Json 1 :: [Json 2])) lo None
       = match naive_ts 1 with
         | Py.Raise exn msg => Py.Raise exn msg
         | Py.Ok _ =>
             Py.Raise "TypeError"
               "can't compare offset-naive and offset-aware datetimes"
         end).
Proof.
  intros lo.
  apply (X3_read_window_raises naive_ts [Blank] [Json 2] 1 lo None).
  - left. by eexists.
  - right. left. exists (mkDatetime false 1), (mkDatetime true 4).
    repeat split. discriminate.
Defined.

Lemma X4_witness :
  ∃ out, get_latest_metrics naive_ts true (Some five_samples) 2
         = Py.Ok out
         ∧ out = drop 3 [1; 2; 3; 4; 5]
         ∧ length out = 2%nat.
Proof.
  apply (X4_latest_suffix naive_ts (Some five_samples) 2). lia.
Defined.

Lemma X5_witness :
  get_latest_metrics naive_ts true (Some five_samples) (-2)
  = Py.Ok [3; 4; 5].
Proof.
  apply (X5_latest_nonpositive_count naive_ts (Some five_samples) (-2)).
  lia.
Defined.

End MetricsFileFacts.
(** ** Controlling a running execution *)

Module ControlFacts.
Import Engine Control.

Section control.
Context {F : Py.Float}.

(** A status update without further columns, on a table that holds the
    record: the record afterwards. *)
Lemma db_update_row (e : env) (execution_id status : string) (s : state)
    (r : gmap string Store.value) :
  Store.get_execution (db s) execution_id = Some r →
  ∃ t', db_update e execution_id status ∅ s = (Py.Ok tt, with_db t' s)
        ∧ Store.get_execution t' execution_id
          = Some (<["status" := Store.VText status]>
                    (Store.stamp_kwargs (utcnow e) status ∅) ∪ r).
Proof.
  intros Hr. unfold db_update.
  rewrite StoreFacts.update_execution_status_ok
    by (done || apply map_Forall_empty).
  eexists. split; [done|].
  rewrite StoreFacts.get_execution_sql_update, Hr; [done|].
  rewrite lookup_insert_ne by done.
  rewrite StoreFacts.stamp_kwargs_lookup.
  by rewrite !decide_False by (intros [? _]; done).
Qed.

(** X7: pausing a running execution and resuming it leaves the record
    [running] again and the pause flag cleared, contacts no client, and
    stamps [started_at] with the time of the resumption, whatever it held
    before. *)
Theorem X7_pause_then_resume (e e' : env) (execution_id : string)
    (s : state) (r : gmap string Store.value) :
  Store.get_execution (db s) execution_id = Some r →
  r !! "status" = Some (Store.VText "running") →
  ∃ s1 s2,
    pause_route e execution_id s = (Py.Ok tt, s1)
    ∧ Store.status_of (db s1) execution_id = Some (Store.VText "paused")
    ∧ pause_flag s1 = Some true
    ∧ resume_route e' execution_id s1 = (Py.Ok tt, s2)
    ∧ Store.status_of (db s2) execution_id = Some (Store.VText "running")
    ∧ pause_flag s2 = Some false
    ∧ (Store.get_execution (db s2) execution_id ≫= λ r2, r2 !! "started_at")
      = Some (Store.VTime (utcnow e'))
    ∧ trace s2 = trace s ∧ stop_flag s2 = stop_flag s
    ∧ active s2 = active s.
Proof.
  intros Hr Hst.
  destruct (db_update_row e execution_id "paused"
              (with_pause_flag (Some true) s) r Hr) as (t1 & Hup1 & Hr1).
  set (r1 := _ ∪ r) in Hr1.
  assert (r1 !! "status" = Some (Store.VText "paused")) as Hst1.
  { subst r1. rewrite lookup_union, lookup_insert_eq.
    by destruct (r !! "status"). }
  set (s1 := with_db t1 (with_pause_flag (Some true) s)) in *.
  destruct (db_update_row e' execution_id "running"
              (with_pause_flag (Some false) s1) r1 Hr1) as (t2 & Hup2 & Hr2).
  set (r2 := _ ∪ r1) in Hr2.
  exists s1, (with_db t2 (with_pause_flag (Some false) s1)).
  split.
  { unfold pause_route. rewrite Hr. unfold status_in. rewrite Hst.
    rewrite bool_decide_eq_true_2 by in_list. cbn [negb].
    unfold pause_execution, bind, modify. exact Hup1. }
  split.
  { unfold Store.status_of. subst s1. cbn [db with_db]. by rewrite Hr1. }
  split; [done|]. split.
  { unfold resume_route. subst s1. cbn [db with_db]. rewrite Hr1.
    unfold status_in. rewrite Hst1.
    rewrite bool_decide_eq_true_2 by in_list. cbn [negb].
    unfold resume_execution, bind, modify. exact Hup2. }
  split.
  { unfold Store.status_of. cbn [db with_db]. rewrite Hr2. subst r2.
    cbn [mbind option_bind]. rewrite lookup_union, lookup_insert_eq.
    by destruct (r1 !! "status"). }
  split; [reflexivity|]. split; [|repeat split].
  cbn [db with_db]. rewrite Hr2. subst r2. cbn [mbind option_bind].
  rewrite lookup_union, lookup_insert_ne by done.
  rewrite StoreFacts.stamp_kwargs_lookup.
  rewrite decide_False by (intros [? _]; done).
  rewrite decide_True by (repeat split).
  by destruct (r1 !! "started_at").
Qed.

End control.

(** *** Scaling *)

Section scaling.
Variable publish : entry → Py.result unit.

Lemma list_remove_middle (pre rest : list entry) (c : entry) :
  c ∉ pre → Builtins.list_remove c (pre ++ c :: rest) = pre ++ rest.
Proof.
  intros Hc. induction pre as [|x pre IH]; simpl.
  - by rewrite decide_True.
  - rewrite decide_False by (intros ->; apply Hc, list_elem_of_here).
    rewrite IH; [done|]. intros Hin. by apply Hc, list_elem_of_further.
Qed.

(** Removing a duplicate-free tail of the working list, when every stop
    event is accepted. *)
Lemma remove_loop_suffix (pre rs removed sent : list entry) :
  NoDup (pre ++ rs) →
  (∀ c, c ∈ rs → publish c = Py.Ok tt) →
  remove_loop publish rs (pre ++ rs) removed sent
  = (Py.Ok (pre, removed ++ rs), sent ++ rs).
Proof.
  revert removed sent. induction rs as [|c rest IH]; intros removed sent Hnd Hok.
  - by rewrite !app_nil_r.
  - cbn [remove_loop].
    rewrite bool_decide_eq_true_2
      by (apply elem_of_app; right; apply list_elem_of_here).
    rewrite (Hok c) by apply list_elem_of_here.
    apply NoDup_app in Hnd as (Hpre & Hdisj & Hrs).
    rewrite list_remove_middle; last first.
    { intros Hin. apply (Hdisj c Hin), list_elem_of_here. }
    rewrite IH.
    + by rewrite <- !app_assoc.
    + apply NoDup_app. split; [done|]. split.
      * intros x Hx Hx'. by apply (Hdisj x Hx), list_elem_of_further.
      * by apply NoDup_cons in Hrs as [_ ?].
    + intros c' Hc'. by apply Hok, list_elem_of_further.
Qed.

(** X8: [scale_down] by a count, on a duplicate-free client list and with
    every stop event accepted: a positive count removes the last [count]
    clients (all of them when there are fewer), a negative count removes
    all but the first [-count]; the stop event goes to exactly the
    removed clients, in list order, and the rest stays in place. *)
Theorem X8_scale_down_by_count (cs : list entry) (n : Z)
    (client_ids : option (list string)) :
  default [] client_ids = [] →
  NoDup cs → n ≠ 0 →
  (∀ c, c ∈ cs → publish c = Py.Ok tt) →
  let keep := if Z.ltb 0 n then (length cs - Z.to_nat n)%nat
              else Z.to_nat (- n) in
  scale_down publish (Some cs) (Some n) client_ids
  = mkOutcome
      (Py.Ok (Scaled ("Removed " +:+ pretty (length (drop keep cs))
                      +:+ " clients")
                (drop keep cs) (length (take keep cs))))
      (Some (take keep cs)) (drop keep cs).
Proof.
  intros Hids Hnd Hn Hok keep. unfold scale_down.
  assert ((match client_ids, Some n with
           | Some (i :: ids), _ =>
               Some (filter (λ c, c ∈ cs) (Id <$> (i :: ids)))
           | _, Some n =>
               if Z.eqb n 0 then None
               else Some (Builtins.slice_from cs (- n))
           | _, None => None
           end) = Some (drop keep cs)) as ->.
  { destruct client_ids as [[|i ids]|]; simplify_eq/=;
      rewrite (proj2 (Z.eqb_neq _ _)) by done; f_equal;
      unfold Builtins.slice_from; subst keep;
      destruct (Z.ltb_spec 0 n);
      [ rewrite (proj2 (Z.leb_gt _ _)) by lia; f_equal; lia
      | rewrite (proj2 (Z.leb_le _ _)) by lia; done
      | rewrite (proj2 (Z.leb_gt _ _)) by lia; f_equal; lia
      | rewrite (proj2 (Z.leb_le _ _)) by lia; done ]. }
  pose proof (remove_loop_suffix (take keep cs) (drop keep cs) [] []) as Hloop.
  rewrite take_drop in Hloop. rewrite Hloop; [done..|].
  intros c Hc. apply Hok. rewrite <- (take_drop keep cs).
  apply elem_of_app. by right.
Qed.

(** X9: the prepare phase stores client dictionaries, and an id is never
    equal to a dictionary: [scale_down] by client ids then removes no
    client and publishes no stop event, yet reports success. *)
Theorem X9_scale_down_by_ids_on_dictionaries (cs : list client) (i : string)
    (ids : list string) (count : option Z) :
  scale_down publish (Some (Dict <$> cs)) count (Some (i :: ids))
  = mkOutcome (Py.Ok (Scaled "Removed 0 clients" [] (length cs)))
      (Some (Dict <$> cs)) [].
Proof.
  unfold scale_down.
  assert (filter (λ c, c ∈ Dict <$> cs) (Id <$> (i :: ids)) = []) as ->.
  { induction (i :: ids) as [|j js IH]; [done|].
    rewrite fmap_cons, filter_cons, decide_False; [done|].
    intros (c & Hc & _)%list_elem_of_fmap. done. }
  cbn [remove_loop]. by rewrite length_fmap.
Qed.

(** X10: [scale_up] builds a set from the stored clients; with a client
    dictionary among them (the prepare phase stores nothing else) it
    raises [TypeError], publishes nothing and leaves the list as it
    was. *)
Theorem X10_scale_up_on_dictionaries (all_clients : list listed_client)
    (stored : list entry) (c : client) (count : option Z)
    (client_ids : option (list string)) :
  Dict c ∈ stored →
  scale_up publish all_clients (Some stored) count client_ids
  = mkOutcome (Py.Raise "TypeError" "unhashable type: 'dict'")
      (Some stored) [].
Proof.
  intros Hin. unfold scale_up.
  destruct (forallb hashable stored) eqn:Hall; [|done].
  rewrite forallb_forall in Hall.
  apply list_elem_of_In, Hall in Hin. done.
Qed.

(** The addition loop, when every start event is accepted. *)
Lemma add_loop_ok (to_add : list listed_client) (current : gset string)
    (added sent : list entry) :
  (∀ x, publish x = Py.Ok tt) →
  ∃ current',
    add_loop publish to_add current added sent
    = (Py.Ok (current', added ++ ((λ c, Id (l_id c)) <$> to_add)),
       sent ++ ((λ c, Id (l_id c)) <$> to_add))
    ∧ ∀ i, i ∈ current' ↔ i ∈ current ∨ i ∈ l_id <$> to_add.
Proof.
  intros Hok. revert current added sent.
  induction to_add as [|c rest IH]; intros current added sent.
  - exists current. rewrite !app_nil_r. split; [done|].
    intros i. rewrite elem_of_nil. tauto.
  - cbn [add_loop]. rewrite Hok.
    destruct (IH ({[ l_id c ]} ∪ current) (added ++ [Id (l_id c)])
                (sent ++ [Id (l_id c)])) as (cur' & -> & Hcur).
    exists cur'. rewrite <- !app_assoc. split; [done|].
    intros i. rewrite Hcur, fmap_cons, elem_of_cons, elem_of_union,
      elem_of_singleton. tauto.
Qed.

(** X11: [scale_up] on a list of ids, with every start event accepted:
    each added client is listed online in the inventory and was not a
    participant, the start event goes to exactly the added clients, and
    the stored list afterwards holds the old participants and the added
    ones, each once; a positive count adds at most [count] clients. *)
Theorem X11_scale_up_adds_online_newcomers
    (all_clients : list listed_client) (stored : list entry)
    (count : option Z) (client_ids : option (list string))
    (msg : string) (added : list entry) (total : nat) :
  let out := scale_up publish all_clients (Some stored) count client_ids in
  forallb hashable stored = true →
  (∀ x, publish x = Py.Ok tt) →
  reply out = Py.Ok (Scaled msg added total) →
  ∃ after,
    clients_after out = Some after
    ∧ published out = added
    ∧ (∀ x, x ∈ added →
         ∃ c, c ∈ all_clients ∧ x = Id (l_id c)
              ∧ l_status c = Some "online" ∧ x ∉ stored)
    ∧ NoDup after
    ∧ (∀ x, x ∈ after ↔ x ∈ stored ∨ x ∈ added)
    ∧ total = length after
    ∧ (default [] client_ids = [] →
       ∀ n, count = Some n → 0 ≤ n → (length added ≤ Z.to_nat n)%nat).
Proof.
  intros out Hhash Hok. subst out. unfold scale_up. rewrite Hhash.
  cbn [negb].
  set (current := list_to_set (ids_of stored) : gset string).
  set (available := filter _ all_clients).
  assert (∀ i, i ∈ current ↔ Id i ∈ stored) as Hcurrent.
  { intros i. subst current. rewrite elem_of_list_to_set. unfold ids_of.
    rewrite list_elem_of_bind. split.
    - intros ([c|j] & Hj & Hin); [by apply elem_of_nil in Hj|].
      apply list_elem_of_singleton in Hj. by subst.
    - intros Hin. exists (Id i). split; [apply list_elem_of_here | done]. }
  assert (∀ c, c ∈ available →
            c ∈ all_clients ∧ l_status c = Some "online"
            ∧ Id (l_id c) ∉ stored) as Havail.
  { intros c [[Hnew Hon] Hin]%list_elem_of_filter.
    split; [done|]. split; [done|]. by rewrite <- Hcurrent. }
  destruct (match client_ids, count with
            | Some (i :: ids), _ =>
                Some (filter (λ c, l_id c ∈ (i :: ids)) available)
            | _, Some n =>
                if Z.eqb n 0 then None else Some (Py.slice_to available n)
            | _, None => None
            end) as [to_add|] eqn:Hto; [|done].
  assert (∀ c, c ∈ to_add → c ∈ available) as Hsub.
  { intros c Hc.
    destruct client_ids as [[|i ids]|], count as [n|]; simplify_eq/=;
      try (by apply list_elem_of_filter in Hc as [_ ?]);
      destruct (Z.eqb n 0); simplify_eq;
      unfold Py.slice_to in Hc; destruct (Z.leb 0 n);
      by apply elem_of_take in Hc as (? & ?%list_elem_of_lookup_2 & _). }
  destruct (add_loop_ok to_add current [] [] Hok) as (cur' & -> & Hcur').
  cbn [reply clients_after published app]. intros [= <- <- <-].
  eexists. split; [done|]. split; [done|]. split.
  { intros x (c & -> & Hc)%list_elem_of_fmap. exists c.
    destruct (Havail c (Hsub c Hc)) as (? & ? & ?). done. }
  split.
  { apply NoDup_fmap_2; [by intros ?? [=]|]. apply NoDup_elements. }
  split.
  { intros x. rewrite list_elem_of_fmap. split.
    - intros (i & -> & Hi%elem_of_elements). apply Hcur' in Hi as [Hi|Hi].
      + left. by apply Hcurrent.
      + right. apply list_elem_of_fmap in Hi as (c & -> & Hc).
        by apply (list_elem_of_fmap_2 (λ c, Id (l_id c))).
    - intros [Hx|Hx].
      + destruct x as [c|i].
        * rewrite forallb_forall in Hhash.
          by apply list_elem_of_In, Hhash in Hx.
        * exists i. split; [done|]. apply elem_of_elements, Hcur'. left.
          by apply Hcurrent.
      + apply list_elem_of_fmap in Hx as (c & -> & Hc). exists (l_id c).
        split; [done|]. apply elem_of_elements, Hcur'. right.
        by apply list_elem_of_fmap_2. }
  split.
  { by rewrite length_fmap. }
  intros Hids n -> Hn. rewrite length_fmap.
  destruct client_ids as [[|i ids]|]; simplify_eq/=;
    destruct (Z.eqb n 0); simplify_eq;
    unfold Py.slice_to; rewrite (proj2 (Z.leb_le _ _)) by done;
    rewrite length_take; lia.
Qed.

End scaling.

Lemma X7_witness :
  let F := Py.Z_float in
  let e := Scenario.env_with [] Scenario.all_green "" Scenario.never in
  let row : gmap string Store.value :=
    {[ "id" := Store.VText "exec-1"; "status" := Store.VText "running" ]} in
  ∃ s1 s2,
    pause_route e "exec-1" (initial_state [row]) = (Py.Ok tt, s1)
    ∧ Store.status_of (db s1) "exec-1" = Some (Store.VText "paused")
    ∧ pause_flag s1 = Some true
    ∧ resume_route e "exec-1" s1 = (Py.Ok tt, s2)
    ∧ Store.status_of (db s2) "exec-1" = Some (Store.VText "running")
    ∧ pause_flag s2 = Some false
    ∧ (Store.get_execution (db s2) "exec-1" ≫= λ r2, r2 !! "started_at")
      = Some (Store.VTime 1000)
    ∧ trace s2 = [] ∧ stop_flag s2 = None ∧ active s2 = None.
Proof.
  intros F e row.
  apply (X7_pause_then_resume e e "exec-1" (initial_state [row]) row).
  - unfold Store.get_execution. cbn [initial_state db filter list_filter].
    rewrite decide_True; [done|].
    unfold Store.has_id, row. by rewrite lookup_insert_eq.
  - unfold row. rewrite lookup_insert_ne by done. by rewrite lookup_singleton_eq.
Defined.

Lemma X8_witness :
  scale_down (λ _, Py.Ok tt) (Some [Id "a"; Id "b"; Id "c"]) (Some 2) None
  = mkOutcome
      (Py.Ok (Scaled ("Removed " +:+ pretty 2%nat +:+ " clients")
                [Id "b"; Id "c"] 1))
      (Some [Id "a"]) [Id "b"; Id "c"].
Proof.
  apply (X8_scale_down_by_count (λ _, Py.Ok tt) [Id "a"; Id "b"; Id "c"] 2 None).
  - reflexivity.
  - compute_done.
  - lia.
  - done.
Defined.

Lemma X10_witness :
  scale_up (λ _, Py.Ok tt) [mkListed "client-2" (Some "online")]
    (Some [Dict Scenario.c1]) (Some 1) None
  = mkOutcome (Py.Raise "TypeError" "unhashable type: 'dict'")
      (Some [Dict Scenario.c1]) [].
Proof.
  apply (X10_scale_up_on_dictionaries (λ _, Py.Ok tt)
           [mkListed "client-2" (Some "online")] [Dict Scenario.c1]
           Scenario.c1 (Some 1) None).
  apply list_elem_of_here.
Defined.

Lemma X11_witness :
  let out := scale_up (λ _, Py.Ok tt)
               [mkListed "client-1" (Some "online");
                mkListed "client-2" (Some "online");
                mkListed "client-3" (Some "offline")]
               (Some [Id "client-1"]) (Some 5) None in
  ∃ after,
    clients_after out = Some after
    ∧ published out = [Id "client-2"]
    ∧ (∀ x, x ∈ [Id "client-2"] →
         ∃ c, c ∈ [mkListed "client-1" (Some "online");
                   mkListed "client-2" (Some "online");
                   mkListed "client-3" (Some "offline")]
              ∧ x = Id (l_id c)
              ∧ l_status c = Some "online" ∧ x ∉ [Id "client-1"])
    ∧ NoDup after
    ∧ (∀ x, x ∈ after ↔ x ∈ [Id "client-1"] ∨ x ∈ [Id "client-2"])
    ∧ 2%nat = length after
    ∧ (default [] (@None (list string)) = [] →
       ∀ n, Some 5 = Some n → 0 ≤ n → (length [Id "client-2"] ≤ Z.to_nat n)%nat).
Proof.
  intros out.
  apply (X11_scale_up_adds_online_newcomers (λ _, Py.Ok tt)
           [mkListed "client-1" (Some "online");
            mkListed "client-2" (Some "online");
            mkListed "client-3" (Some "offline")]
           [Id "client-1"]
           (Some 5) None "Added 1 clients" [Id "client-2"] 2).
  - reflexivity.
  - done.
  - vm_compute. reflexivity.
Defined.

End ControlFacts.
(** ** The Ceph health checks *)

Module CephChecksFacts.
Import CephChecks.

Section checks.
Context {F : Py.Float}.
Variable f_lt : Py.float → Z → bool.
Variable format_1f : Py.float → string.

(** A check is a blocking issue of the runner exactly when it did not
    pass. *)
Lemma cluster_issue_nil (c : Prechecks.CheckResult) :
  Prechecks.cluster_issue c = [] ↔ Prechecks.passed c = true.
Proof. unfold Prechecks.cluster_issue. by destruct (Prechecks.passed c). Qed.

(** X12: in every result of [run_all_checks] the severity decides what
    the precheck runner does with it: a [CRITICAL] check has not passed
    and gives a blocking issue and no warning, a [WARNING] check has
    passed and gives a warning and no blocking issue, an [INFO] check has
    passed and gives neither. *)
Theorem X12_severity_decides (cluster_state : Py.result CephClusterState) :
  Forall (λ c,
    let line := "[Cluster] " +:+ Prechecks.name c +:+ ": "
                +:+ Prechecks.message c in
    match Prechecks.severity c with
    | Prechecks.CRITICAL =>
        Prechecks.passed c = false
        ∧ Prechecks.cluster_issue c = [line]
        ∧ Prechecks.cluster_warning c = []
    | Prechecks.WARNING =>
        Prechecks.passed c = true
        ∧ Prechecks.cluster_issue c = []
        ∧ Prechecks.cluster_warning c = [line]
    | Prechecks.INFO =>
        Prechecks.passed c = true
        ∧ Prechecks.cluster_issue c = []
        ∧ Prechecks.cluster_warning c = []
    end)
    (run_all_checks f_lt format_1f cluster_state).
Proof.
  destruct cluster_state as [state|exn e]; unfold run_all_checks.
  - repeat apply Forall_cons_2; [..|apply Forall_nil_2].
    + unfold _check_overall_health. by destruct (health_status state).
    + unfold _check_osd_status.
      destruct (Z.eqb _ 0); [done|]. by destruct (Z.leb _ 2).
    + unfold _check_mon_quorum.
      destruct (Z.eqb _ _); [done|]. by destruct (Z.leb _ _).
    + unfold _check_pg_status.
      destruct (_ && _); [done|]. by destruct (Z.ltb _ _).
    + unfold _check_capacity.
      destruct (f_lt _ 70); [done|]. by destruct (f_lt _ 85).
    + unfold _check_mgr_status.
      destruct (negb _); [|done]. by destruct (Nat.ltb _ _).
  - by apply Forall_singleton.
Qed.

(** X13: the cluster checks give the runner no blocking issue exactly
    when the health is [HEALTH_OK] or [HEALTH_WARN], at most two OSDs are
    down, all monitors or a strict majority of them are in quorum, no
    placement group is stuck, and the capacity check finds the usage
    below 85 (or below 70); the MGR check never blocks. *)
Theorem X13_cluster_checks_block (state : CephClusterState) :
  run_all_checks f_lt format_1f (Py.Ok state) ≫= Prechecks.cluster_issue = []
  ↔ (health_status state = OK ∨ health_status state = WARN)
    ∧ (length (osd_down state) ≤ 2)%nat
    ∧ (mon_in_quorum state = mon_count state
       ∨ mon_count state < 2 * mon_in_quorum state)
    ∧ pg_stuck state ≤ 0
    ∧ (f_lt (used_percent state) 70 = true
       ∨ f_lt (used_percent state) 85 = true).
Proof.
  unfold run_all_checks. rewrite !bind_cons.
  change (@nil Prechecks.CheckResult ≫= Prechecks.cluster_issue)
    with (@nil string).
  rewrite app_nil_r.
  rewrite !app_nil, !cluster_issue_nil.
  assert (Prechecks.passed (_check_overall_health state) = true
          ↔ health_status state = OK ∨ health_status state = WARN) as ->.
  { unfold _check_overall_health.
    destruct (health_status state); cbn; intuition congruence. }
  assert (Prechecks.passed (_check_osd_status state) = true
          ↔ (length (osd_down state) ≤ 2)%nat) as ->.
  { unfold _check_osd_status.
    destruct (Z.eqb_spec (Z.of_nat (length (osd_down state))) 0),
      (Z.leb_spec (Z.of_nat (length (osd_down state))) 2); cbn;
      split; intros; (done || lia). }
  assert (Prechecks.passed (_check_mon_quorum state) = true
          ↔ mon_in_quorum state = mon_count state
            ∨ mon_count state < 2 * mon_in_quorum state) as ->.
  { unfold _check_mon_quorum.
    pose proof (Z.div_mod (mon_count state) 2 ltac:(lia)).
    pose proof (Z.mod_pos_bound (mon_count state) 2 ltac:(lia)).
    destruct (Z.eqb_spec (mon_in_quorum state) (mon_count state)),
      (Z.leb_spec (mon_count state / 2 + 1) (mon_in_quorum state)); cbn;
      split; intros; (done || lia). }
  assert (Prechecks.passed (_check_pg_status state) = true
          ↔ pg_stuck state ≤ 0) as ->.
  { unfold _check_pg_status.
    destruct (Z.eqb_spec (pg_stuck state) 0) as [->|?];
      [|destruct (Z.ltb_spec 0 (pg_stuck state))];
      destruct (Z.eqb (pg_degraded state) 0),
        (Z.eqb (pg_recovering state) 0); cbn;
      split; intros; (done || lia). }
  assert (Prechecks.passed (_check_capacity f_lt format_1f state) = true
          ↔ f_lt (used_percent state) 70 = true
            ∨ f_lt (used_percent state) 85 = true) as ->.
  { unfold _check_capacity.
    destruct (f_lt (used_percent state) 70),
      (f_lt (used_percent state) 85); cbn; intuition congruence. }
  assert (Prechecks.passed (_check_mgr_status state) = true) as Hmgr.
  { unfold _check_mgr_status.
    destruct (negb _); [|done]. by destruct (Nat.ltb _ _). }
  tauto.
Qed.

End checks.

End CephChecksFacts.
(** ** The precheck runner: custom commands and client health *)

Module RunnerFacts.
Import Prechecks.

(** X14: [run_multiple] runs the commands in order and stops after the
    first blocking command that failed: the results are those of a
    prefix of the commands, no result but the last gives a blocking
    issue, a shorter result list ends in a failed blocking command, and
    so the custom commands add at most one blocking issue to a report. *)
Theorem X14_run_multiple_stops (p : probes)
    (commands : list CustomCommandConfig) :
  let results := run_multiple p commands in
  ∃ k : nat,
    results = run_command p <$> take k commands
    ∧ (∀ i r, (S i < k)%nat → results !! i = Some r → command_issue r = [])
    ∧ ((k < length commands)%nat →
       ∃ r, last results = Some r
            ∧ r_blocking r = true ∧ r_success r = false)
    ∧ (length (results ≫= command_issue) ≤ 1)%nat.
Proof.
  induction commands as [|cmd rest IH]; intros results.
  - exists 0%nat. repeat split; try done; simpl; lia.
  - subst results. cbn [run_multiple].
    assert (r_blocking (run_command p cmd) = blocking cmd) as Hb.
    { unfold run_command. by destruct (command_probe p cmd). }
    destruct (blocking cmd && negb (r_success (run_command p cmd))) eqn:Hstop.
    + apply andb_true_iff in Hstop as [Hblk Hfail].
      apply negb_true_iff in Hfail.
      exists 1%nat. split; [done|]. split; [lia|]. split.
      * intros _. exists (run_command p cmd). by rewrite Hb.
      * rewrite bind_cons. unfold command_issue at 1.
        rewrite Hb, Hblk, Hfail. simpl. lia.
    + destruct IH as (k & Hres & Hquiet & Hlast & Hlen).
      assert (command_issue (run_command p cmd) = []) as Hnone.
      { unfold command_issue. rewrite Hb.
        by destruct (blocking cmd), (r_success (run_command p cmd)). }
      exists (S k). split; [by rewrite Hres|]. split; [|split].
      * intros [|i] r Hi Hr; [by simplify_eq/=|].
        apply (Hquiet i r); [lia | done].
      * intros Hk. destruct Hlast as (r & Hr & Hrb & Hrs); [simpl in Hk; lia|].
        exists r. split; [|done].
        destruct (run_multiple p rest); [done | by rewrite last_cons, Hr].
      * by rewrite bind_cons, Hnone.
Qed.

(** The custom commands only ask the command probe. *)
Lemma run_multiple_ext (p' p : probes) (commands : list CustomCommandConfig) :
  command_probe p' = command_probe p →
  run_multiple p' commands = run_multiple p commands.
Proof.
  intros Hsame. induction commands as [|cmd rest IH]; [done|].
  cbn [run_multiple]. unfold run_command. by rewrite Hsame, IH.
Qed.

(** The client fields of the report. *)
Lemma report_clients (rn : PrecheckRunner) (p : probes) :
  let r := run_all_prechecks rn p in
  client_results r = client_phase rn p
  ∧ excluded_clients r
    = client_id <$> filter (λ h, is_online h = false) (client_phase rn p)
  ∧ clients_total r = Z.of_nat (length (clients rn))
  ∧ clients_online r
    = Z.of_nat (length (filter (λ h, is_online h = true) (client_phase rn p)))
  ∧ clients_offline r = clients_total r - clients_online r.
Proof.
  unfold run_all_prechecks.
  destruct (cluster_phase rn p) as [[[health checks] blocking1] warnings1].
  cbv zeta. by destruct (verdict _ _) as [[overall proceed] msg].
Qed.

(** The health results split into the online clients and the others. *)
Lemma online_split (hs : list ClientHealthResult) :
  (length (filter (λ h, is_online h = true) hs)
   + length (filter (λ h, is_online h = false) hs) = length hs)%nat.
Proof.
  induction hs as [|h hs IH]; [done|].
  rewrite !filter_cons. destruct (is_online h); simpl; lia.
Qed.

(** X15: the health of the clients never decides whether an execution
    may proceed: with any other answers of the client health check the
    blocking issues and [can_proceed] are the same. The clients that are
    not [ONLINE] are excluded instead, and they are the ones counted
    offline; with the client check switched off no client is excluded,
    yet every client is counted offline. *)
Theorem X15_client_health_never_blocks (rn : PrecheckRunner) (p : probes)
    (other : string → string → ClientHealthResult) :
  let r := run_all_prechecks rn p in
  let r' := run_all_prechecks rn
              (mkProbes (cluster_state_probe p) (cluster_checks_probe p)
                 (command_probe p) other) in
  blocking_issues r' = blocking_issues r
  ∧ can_proceed r' = can_proceed r
  ∧ excluded_clients r
    = client_id <$> filter (λ h, is_online h = false) (client_results r)
  ∧ (check_clients rn = true →
     clients_offline r = Z.of_nat (length (excluded_clients r)))
  ∧ (check_clients rn = false →
     excluded_clients r = [] ∧ clients_online r = 0
     ∧ clients_offline r = clients_total r).
Proof.
  intros r r'.
  destruct (PrechecksFacts.report_lists rn p) as (Hb & _ & Hv).
  destruct (PrechecksFacts.report_lists rn
              (mkProbes (cluster_state_probe p) (cluster_checks_probe p)
                 (command_probe p) other)) as (Hb' & _ & Hv').
  fold r in Hb, Hv. fold r' in Hb', Hv'.
  destruct (report_clients rn p) as (Hres & Hex & Htot & Hon & Hoff).
  fold r in Hres, Hex, Htot, Hon, Hoff.
  assert (blocking_issues r' = blocking_issues r) as Hsame.
  { rewrite Hb, Hb'. f_equal. by rewrite (run_multiple_ext _ p). }
  split; [exact Hsame|]. split.
  { rewrite Hsame in Hv'. unfold verdict in Hv, Hv'.
    destruct (blocking_issues r), (warnings r), (warnings r'); congruence. }
  split; [by rewrite Hres|]. split.
  - intros Hcheck. rewrite Hoff, Htot, Hon, Hex, length_fmap.
    pose proof (online_split (client_phase rn p)) as Hsplit.
    assert (length (client_phase rn p) = length (clients rn)) as Hlen.
    { unfold client_phase. rewrite Hcheck. cbn [andb].
      destruct (clients rn); [done|].
      rewrite bool_decide_eq_false_2 by done. cbn [negb].
      by rewrite length_fmap. }
    lia.
  - intros Hcheck.
    assert (client_phase rn p = []) as Hnone.
    { unfold client_phase. by rewrite Hcheck. }
    rewrite Hex, Hoff, Hon, Hnone. split; [done|]. split; [done|]. simpl. lia.
Qed.

Lemma X15_witness :
  let rn := mkRunner true [("client-1", "10.0.0.1")] true true false [] in
  let p := Scenario.all_green in
  let r := run_all_prechecks rn p in
  clients_offline r = Z.of_nat (length (excluded_clients r)).
Proof.
  intros rn p r.
  apply (X15_client_health_never_blocks rn p (client_probe p)). reflexivity.
Defined.

End RunnerFacts.
(** ** The client health check *)

Module ClientHealthFacts.
Import ClientHealth.

Section check.
Variable n : node.
Variable agent_port : Z.

(** The tool loop leaves the errors and the agent flag alone; it ends
    normally exactly when every [which] returns. *)
Lemma tools_loop (tools : list string) (r : health) :
  match hfor (check_tool n) tools r with
  | (inr _, r') =>
      errors r' = errors r ∧ agent_running r' = agent_running r
      ∧ forallb (answers n) (tool_command <$> tools) = true
  | (inl _, r') =>
      errors r' = errors r
      ∧ forallb (answers n) (tool_command <$> tools) = false
  end.
Proof.
  revert r. induction tools as [|t tools IH]; intros r; [done|].
  cbn [hfor fmap list_fmap forallb]. unfold hbind at 1, check_tool at 1.
  unfold hbind at 1, hrun at 1, answers at 1 3.
  destruct (run n (tool_command t)) as [f|out]; [done|].
  cbn [andb]. unfold hmodify at 1.
  match goal with |- context [hfor _ tools ?x] => set (r1 := x) end.
  assert (errors r1 = errors r ∧ agent_running r1 = agent_running r)
    as [He Ha].
  { subst r1. cbv zeta.
    destruct (Z.eqb out.1 0); [done|]. by destruct (String.eqb t "fio"). }
  specialize (IH r1).
  destruct (hfor (check_tool n) tools r1) as [[f|u] r'].
  - destruct IH as [-> ?]. done.
  - destruct IH as (-> & -> & ?). done.
Qed.

(** The mount point loop only adds errors, and adds none exactly when
    every mount point is accessible. *)
Lemma mounts_loop (mps : list string) (r : health) :
  match hfor (check_mount_point n) mps r with
  | (inr _, r') =>
      agent_running r' = agent_running r
      ∧ forallb (answers n) (mount_command <$> mps) = true
      ∧ ∃ extra, errors r' = errors r ++ extra
                 ∧ (extra = []
                    ↔ forallb (exits_zero n) (mount_command <$> mps) = true)
  | (inl _, r') =>
      forallb (answers n) (mount_command <$> mps) = false
      ∧ forallb (exits_zero n) (mount_command <$> mps) = false
  end.
Proof.
  revert r. induction mps as [|mp mps IH]; intros r.
  - cbn. split; [done|]. split; [done|]. exists []. by rewrite app_nil_r.
  - cbn [hfor fmap list_fmap forallb]. unfold hbind at 1, check_mount_point at 1.
    unfold hbind at 1, hrun at 1, answers at 1 3, exits_zero at 1 3.
    destruct (run n (mount_command mp)) as [f|out]; [done|].
    cbn [andb]. unfold hmodify at 1.
    match goal with |- context [hfor _ mps ?x] => set (r1 := x) end.
    assert (agent_running r1 = agent_running r
            ∧ ∃ e1, errors r1 = errors r ++ e1
                    ∧ (e1 = [] ↔ Z.eqb out.1 0 = true)) as (Ha & e1 & He & Hz).
    { subst r1. cbv zeta. destruct (Z.eqb out.1 0).
      - split; [done|]. exists []. by rewrite app_nil_r.
      - split; [done|]. eexists [_]. split; [done|]. done. }
    specialize (IH r1).
    destruct (hfor (check_mount_point n) mps r1) as [[f|u] r'].
    + destruct IH as [-> Hex]. split; [done|]. by rewrite Hex, andb_false_r.
    + destruct IH as (-> & -> & e2 & -> & Hz2).
      split; [done|]. split; [done|]. exists (e1 ++ e2).
      rewrite He, <- app_assoc. split; [done|].
      rewrite app_nil, Hz, Hz2, andb_true_iff. done.
Qed.

(** X16: what [check_single_client] reports. The status is [ONLINE]
    exactly when the connection is made, every command of the check
    returns, the agent answers its health request and every mount point
    is accessible; the tools found missing play no part. The status is
    [ONLINE] exactly when no error was collected, and it is never left
    [UNKNOWN]. *)
Theorem X16_client_status (client_id hostname storage_endpoint : string)
    (mount_points : list string) :
  let r := check_single_client n agent_port client_id hostname
             storage_endpoint mount_points in
  (status r = Prechecks.ONLINE
   ↔ connect n = None
     ∧ forallb (answers n)
         (commands agent_port storage_endpoint mount_points) = true
     ∧ (∃ out, run n (agent_command agent_port) = inr out
               ∧ agent_answers out = true)
     ∧ forallb (exits_zero n) (mount_command <$> mount_points) = true)
  ∧ (status r = Prechecks.ONLINE ↔ errors r = [])
  ∧ status r ∈ [Prechecks.ONLINE; Prechecks.ERROR; Prechecks.UNREACHABLE;
                Prechecks.OFFLINE].
Proof.
  intros r.
  assert (check_single_client n agent_port client_id hostname
            storage_endpoint mount_points = r) as Hr by done.
  clearbody r. unfold check_single_client in Hr.
  set (r0 := mkHealthState _ _ _ _ _ _ _ _ _ _) in Hr.
  assert (∀ f r' (P : Prop),
            ¬ P →
            (status (handle f r') = Prechecks.ONLINE ↔ P)
            ∧ (status (handle f r') = Prechecks.ONLINE
               ↔ errors (handle f r') = [])
            ∧ status (handle f r')
              ∈ [Prechecks.ONLINE; Prechecks.ERROR;
                 Prechecks.UNREACHABLE; Prechecks.OFFLINE]) as Hfailed.
  { intros f r' P HP.
    assert (status (handle f r') ≠ Prechecks.ONLINE
            ∧ errors (handle f r') ≠ []
            ∧ status (handle f r')
              ∈ [Prechecks.ONLINE; Prechecks.ERROR;
                 Prechecks.UNREACHABLE; Prechecks.OFFLINE])
      as (Hs & He & Hin).
    { destruct f; cbn; (split; [done|]);
        (split; [by destruct (errors r')|]); in_list. }
    split; [tauto|]. split; [tauto|]. exact Hin. }
  unfold commands. cbn [app forallb]. rewrite !forallb_app.
  destruct (connect n) as [f|] eqn:Hconn.
  { subst r. apply Hfailed. by intros [? _]. }
  unfold session in Hr. unfold hbind at 1, hmodify at 1 in Hr.
  unfold hbind at 1, check_agent at 1 in Hr.
  unfold hbind at 1, hrun at 1 in Hr. unfold answers at 1.
  destruct (run n (agent_command agent_port)) as [f|agent] eqn:Hagent.
  { subst r. apply Hfailed. by intros (_ & ? & _). }
  cbn [andb].
  assert (∃ r2,
            (if agent_answers agent
             then hmodify (with_agent_running true)
             else hmodify
                    (λ r, add_error "Agent not running or not responding"
                            (with_agent_running false r)))
              (with_ssh_reachable true r0) = (inr tt, r2)
            ∧ agent_running r2 = agent_answers agent
            ∧ (errors r2 = [] ↔ agent_answers agent = true))
    as (r2 & Heq & Ha2 & He2).
  { destruct (agent_answers agent); eexists; (split; [reflexivity|]); done. }
  rewrite Heq in Hr. clear Heq. cbv beta iota in Hr.
  unfold hbind at 1, hrun at 1 in Hr. unfold answers at 1.
  destruct (run n sys_info_command) as [f|sys_info].
  { subst r. apply Hfailed. by intros (_ & ? & _). }
  cbn [andb]. unfold hbind at 1 in Hr.
  pose proof (tools_loop REQUIRED_TOOLS r2) as Htools.
  destruct (hfor (check_tool n) REQUIRED_TOOLS r2) as [[f|u3] r3].
  { destruct Htools as [_ ->]. subst r. apply Hfailed. by intros (_ & ? & _). }
  destruct Htools as (He3 & Ha3 & ->). cbn [andb].
  unfold hbind at 1 in Hr.
  pose proof (mounts_loop mount_points r3) as Hmounts.
  destruct (hfor (check_mount_point n) mount_points r3) as [[f|u4] r4].
  { destruct Hmounts as [-> Hex]. subst r. apply Hfailed.
    by intros (_ & ? & _). }
  destruct Hmounts as (Ha4 & -> & extra & He4 & Hex). cbn [andb].
  assert ((status (final_status r4) = Prechecks.ONLINE
           ↔ agent_answers agent = true
             ∧ forallb (exits_zero n) (mount_command <$> mount_points) = true)
          ∧ (status (final_status r4) = Prechecks.ONLINE
             ↔ errors (final_status r4) = [])
          ∧ status (final_status r4)
            ∈ [Prechecks.ONLINE; Prechecks.ERROR; Prechecks.UNREACHABLE;
               Prechecks.OFFLINE]) as (Hon & Herr & Hin).
  { unfold final_status. rewrite Ha4, Ha3, Ha2.
    rewrite He3 in He4.
    destruct (agent_answers agent); cbn [negb].
    - rewrite (proj2 He2 eq_refl) in He4. cbn [app] in He4.
      destruct (decide (extra = [])) as [Hnil|Hnil].
      + rewrite bool_decide_eq_true_2 by (by rewrite He4).
        cbn [negb status errors with_status]. rewrite <- Hex.
        split; [tauto|]. split; [by rewrite He4|]. in_list.
      + rewrite bool_decide_eq_false_2 by (by rewrite He4).
        cbn [negb status errors with_status]. rewrite <- Hex, He4.
        split; [split; [done | tauto]|]. split; [done|]. in_list.
    - cbn [status errors with_status]. rewrite He4.
      split; [split; [done | by intros [? _]]|]. split; [|in_list].
      split; [done|]. intros [Hnil _]%app_nil. apply He2 in Hnil. done. }
  clear Ha2 He2 He3 Ha3 Ha4 He4 Hex.
  destruct (negb (String.eqb storage_endpoint "")).
  - unfold hbind at 1 2, hrun at 1 in Hr. cbn [forallb]. unfold answers at 1.
    destruct (run n (ping_command storage_endpoint)) as [f|ping].
    { subst r. apply Hfailed. by intros (_ & ? & _). }
    unfold hret, hmodify in Hr. subst r. cbn [andb].
    split; [|done]. rewrite Hon. split.
    + intros [? ?]. split; [done|]. split; [done|]. split; [by eexists|done].
    + intros (_ & _ & (out & [= <-] & ?) & ?). done.
  - unfold hbind at 1, hret, hmodify in Hr. subst r. cbn [forallb andb].
    split; [|done]. rewrite Hon. split.
    + intros [? ?]. split; [done|]. split; [done|]. split; [by eexists|done].
    + intros (_ & _ & (out & [= <-] & ?) & ?). done.
Qed.

End check.

(** X17: the summary of a set of health results: the online and the
    offline counts add up to the total, the offline count is the number
    of clients listed as failed, and [all_healthy] holds exactly when
    none is listed, which is when every client is [ONLINE]. *)
Theorem X17_generate_summary (results : list health) :
  let sm := generate_summary results in
  online sm + offline sm = total_clients sm
  ∧ offline sm = Z.of_nat (length (failed_clients sm))
  ∧ (all_healthy sm = true ↔ failed_clients sm = [])
  ∧ (all_healthy sm = true
     ↔ Forall (λ r, status r = Prechecks.ONLINE) results).
Proof.
  intros sm. subst sm. unfold generate_summary.
  cbn [online offline total_clients all_healthy failed_clients].
  assert (length (filter (λ r, is_online r = true) results)
          + length (filter (λ r, is_online r = false) results)
          = length results)%nat as Hsplit.
  { induction results as [|r rs IH]; [done|].
    rewrite !filter_cons. destruct (is_online r); simpl; lia. }
  assert (filter (λ r, is_online r = false) results = []
          ↔ Forall (λ r, status r = Prechecks.ONLINE) results) as Hall.
  { clear Hsplit. induction results as [|r rs IH]; [done|].
    rewrite filter_cons, Forall_cons.
    assert (is_online r = true ↔ status r = Prechecks.ONLINE) as Hon.
    { unfold is_online. by destruct (status r). }
    destruct (is_online r).
    - rewrite decide_False by done. rewrite IH. tauto.
    - rewrite decide_True by done. split; [done|].
      intros [Hr _]. by apply Hon in Hr. }
  split; [lia|]. rewrite length_fmap. split; [lia|].
  assert (Z.eqb (Z.of_nat (length (filter (λ r, is_online r = true) results)))
            (Z.of_nat (length results)) = true
          ↔ filter (λ r, is_online r = false) results = []) as Hhealthy.
  { rewrite Z.eqb_eq. split.
    - intros Heq. apply nil_length_inv. lia.
    - intros Hnil. rewrite Hnil in Hsplit. simpl in Hsplit. lia. }
  split.
  - rewrite Hhealthy. split; [by intros -> | apply fmap_nil_inv].
  - by rewrite Hhealthy.
Qed.

End ClientHealthFacts.
(** ** The workload executor *)

Module ExecutorFacts.
Import Executor.

Section executor.
Variable world : list (list string) → list string → Ssh.spawn_outcome.

(** One call: the command is the last argument, and the state gains the
    call and nothing else. *)
Lemma run_ssh_command_spec (host : option string) (username command : string)
    (password key_path : option string) (port timeout : Z) (s : xstate) :
  ∃ cl,
    run_ssh_command world host username command password key_path port
      timeout s
    = (outcome cl, mkX (calls s ++ [cl]) (command_log s))
    ∧ remote_command cl = command
    ∧ target (argv cl)
      = Some (username +:+ "@" +:+ Builtins.str_opt host).
Proof.
  unfold run_ssh_command, Ssh.run_ssh_command.
  set (opts := _ ++ match key_path with Some _ => _ | None => _ end).
  set (base := ["ssh"] ++ opts ++ [_; command]).
  set (cmd := match password with Some _ => _ | None => _ end).
  assert (∃ pre, cmd = pre ++ [username +:+ "@" +:+ Builtins.str_opt host;
                               command]) as [pre Hcmd].
  { subst cmd base.
    destruct password as [pw|];
      [destruct (Py.truthy_str (Some pw) && negb (Py.truthy_str key_path))|].
    - exists (["sshpass"; "-p"; pw; "ssh"] ++ opts). reflexivity.
    - exists (["ssh"] ++ opts). reflexivity.
    - exists (["ssh"] ++ opts). reflexivity. }
  clearbody cmd. subst cmd. cbn [Ssh.spawn].
  assert (∀ r, remote_command
                 (mkCall (pre ++ [username +:+ "@" +:+ Builtins.str_opt host;
                                  command]) r) = command
               ∧ target (pre ++ [username +:+ "@" +:+ Builtins.str_opt host;
                                 command])
                 = Some (username +:+ "@" +:+ Builtins.str_opt host))
    as Hcall.
  { intros r. unfold remote_command, target. cbn [argv]. split.
    - by rewrite (last_app_cons pre), last_cons.
    - rewrite length_app. cbn [length].
      replace (length pre + 2 - 1)%nat with (length pre + 1)%nat by lia.
      rewrite (take_app_add pre _ 1). cbn [take].
      by rewrite last_snoc. }
  destruct (world _ _); eexists (mkCall _ _);
    (split; [reflexivity|]); apply Hcall.
Qed.

Lemma ssh_spec (c : client) (command : string) (timeout : Z) (s : xstate) :
  ∃ cl,
    ssh world c command timeout s
    = (outcome cl, mkX (calls s ++ [cl]) (command_log s))
    ∧ remote_command cl = command.
Proof.
  unfold ssh.
  destruct (run_ssh_command_spec (hostname c) (default "root" (ssh_user c))
              command (ssh_password c) (ssh_key_path c)
              (default 22 (ssh_port c)) timeout s) as (cl & Hrun & Hcmd & _).
  by exists cl.
Qed.

(** Run the next [ssh] call of the goal. *)
Ltac next_call cl Hcmd :=
  match goal with
  | |- context [ssh world ?c ?cmd ?t ?s] =>
      let Hrun := fresh "Hrun" in
      destruct (ssh_spec c cmd t s) as (cl & Hrun & Hcmd);
      rewrite Hrun; clear Hrun; cbv beta iota zeta;
      cbn [calls command_log]
  end.

(** The calls a method made, from the state it ends in. *)
Lemma calls_of_run {A} (m : X A) (s : xstate) (a : A) (cls : list call)
    (log : list log_entry) :
  m s = (a, mkX (calls s ++ cls) log) →
  calls_of m s = cls ∧ (m s).1 = a.
Proof.
  intros Hrun. unfold calls_of. rewrite Hrun. cbn [snd fst calls].
  by rewrite drop_app_length.
Qed.

Lemma commands_of_run {A} (m : X A) (s : xstate) (a : A) (cls : list call)
    (log : list log_entry) :
  m s = (a, mkX (calls s ++ cls) log) →
  commands_of m s = (λ c, (remote_command c, exit_code c)) <$> cls
  ∧ (m s).1 = a.
Proof.
  intros Hrun. unfold commands_of.
  by destruct (calls_of_run m s a cls log Hrun) as [-> ->].
Qed.

(** The run of [ensure_fio_installed]. *)
Lemma ensure_fio_installed_run (c : client) (s : xstate) :
  ∃ ok msg cls log,
    ensure_fio_installed world c s = ((ok, msg), mkX (calls s ++ cls) log)
    ∧ ((∃ rc2,
          (λ c, (remote_command c, exit_code c)) <$> cls
          = [("which fio", 0); ("fio --version", rc2)]
          ∧ ok = true)
       ∨ (∃ rc1 rc2,
            rc1 ≠ 0 ∧ rc2 ≠ 0
            ∧ (λ c, (remote_command c, exit_code c)) <$> cls
              = [("which fio", rc1); (fio_install_command, rc2)]
            ∧ ok = false)
       ∨ (∃ rc1 rc3,
            rc1 ≠ 0
            ∧ (λ c, (remote_command c, exit_code c)) <$> cls
              = [("which fio", rc1); (fio_install_command, 0);
                 ("fio --version", rc3)]
            ∧ ok = bool_decide (rc3 = 0))).
Proof.
  unfold ensure_fio_installed, bind, log_command, ret. cbv beta iota zeta.
  next_call cl1 Hcmd1. unfold rc, exit_code.
  destruct (Z.eqb_spec (Ssh.exit_code (outcome cl1)) 0) as [Hrc1|Hrc1].
  - next_call cl2 Hcmd2. do 4 eexists. rewrite <- app_assoc.
    split; [reflexivity|]. left. eexists.
    cbn [fmap list_fmap app]. unfold exit_code. rewrite Hcmd1, Hcmd2, Hrc1.
    done.
  - cbv beta iota zeta. next_call cl2 Hcmd2.
    destruct (Z.eqb_spec (Ssh.exit_code (outcome cl2)) 0) as [Hrc2|Hrc2];
      cbn [negb].
    + next_call cl3 Hcmd3.
      destruct (Z.eqb_spec (Ssh.exit_code (outcome cl3)) 0) as [Hrc3|Hrc3];
        cbn [negb]; do 4 eexists; rewrite <- !app_assoc;
        (split; [reflexivity|]); right; right; do 2 eexists;
        cbn [fmap list_fmap app]; unfold exit_code;
        rewrite Hcmd1, Hcmd2, Hcmd3, Hrc2;
        (split; [exact Hrc1|]); (split; [reflexivity|]).
      * by rewrite bool_decide_eq_true_2.
      * by rewrite bool_decide_eq_false_2.
    + do 4 eexists. rewrite <- !app_assoc.
      split; [reflexivity|]. right; left. do 2 eexists.
      cbn [fmap list_fmap app]. unfold exit_code. rewrite Hcmd1, Hcmd2.
      split; [exact Hrc1|]. split; [exact Hrc2|]. done.
Qed.

(** X18: [ensure_fio_installed] runs the installation only when
    [which fio] did not exit with 0. When FIO is found it reports success
    whatever [fio --version] does; otherwise it reports success exactly
    when the installation exits with 0 and [fio --version] does so
    afterwards, and stops after an installation that failed. *)
Theorem X18_ensure_fio_installed (c : client) (s : xstate) :
  let m := ensure_fio_installed world c in
  let ok := (m s).1.1 in
  (∃ rc2,
     commands_of m s = [("which fio", 0); ("fio --version", rc2)]
     ∧ ok = true)
  ∨ (∃ rc1 rc2,
       rc1 ≠ 0 ∧ rc2 ≠ 0
       ∧ commands_of m s = [("which fio", rc1); (fio_install_command, rc2)]
       ∧ ok = false)
  ∨ (∃ rc1 rc3,
       rc1 ≠ 0
       ∧ commands_of m s
         = [("which fio", rc1); (fio_install_command, 0);
            ("fio --version", rc3)]
       ∧ ok = bool_decide (rc3 = 0)).
Proof.
  intros m ok.
  destruct (ensure_fio_installed_run c s)
    as (ok' & msg & cls & log & Hrun & Htable).
  destruct (commands_of_run m s _ cls log Hrun) as [Hcmds Hres].
  subst ok. rewrite Hcmds, Hres. exact Htable.
Qed.

(** The mount command of a supported filesystem type can be built
    unless the type is [cephfs] and the [ceph] key holds [None]. *)
Lemma mount_command_supported (mc : mount_config) (cc : cluster_config)
    (fs_type mp options : string) :
  fs_type ∈ ["cephfs"; "nfs"; "glusterfs"] →
  (fs_type = "cephfs" ∧ ceph cc = IsNone
   ∧ mount_command mc cc fs_type mp options
     = Py.Raise "AttributeError" "'NoneType' object has no attribute 'get'")
  ∨ (¬ (fs_type = "cephfs" ∧ ceph cc = IsNone)
     ∧ ∃ mount_cmd,
         mount_command mc cc fs_type mp options = Py.Ok (Some mount_cmd)).
Proof.
  intros Hfs. unfold mount_command.
  apply elem_of_cons in Hfs as [->|Hfs].
  { cbn [String.eqb Ascii.eqb Bool.eqb]. unfold _build_cephfs_mount, ceph_section, section_of.
    destruct (ceph cc) as [| |d] eqn:Hceph; cbn [Py.bind].
    - right. split; [by intros [_ ?]|]. by eexists.
    - left. by repeat split.
    - right. split; [by intros [_ ?]|]. by eexists. }
  apply elem_of_cons in Hfs as [->|Hfs].
  { right. split; [by intros [? _]|]. by eexists. }
  apply elem_of_cons in Hfs as [->|Hfs]; [|by apply elem_of_nil in Hfs].
  right. split; [by intros [? _]|]. by eexists.
Qed.

(** The run of [mount_filesystem]. *)
Lemma mount_filesystem_run (c : client) (mc : mount_config)
    (cc : cluster_config) (s : xstate) :
  let fs_type := default "cephfs" (filesystem_type mc) in
  let mp := default "/mnt/scale_test" (mount_point mc) in
  let prepare rc1 rc2 :=
    [("mkdir -p " +:+ mp, rc1);
     ("umount " +:+ mp +:+ " 2>/dev/null || true", rc2)] in
  ∃ res cls log rc1 rc2,
    mount_filesystem world c mc cc s = (res, mkX (calls s ++ cls) log)
    ∧ match mount_command mc cc fs_type mp (default "" (mount_options mc)) with
      | Py.Raise exn msg =>
          (λ c, (remote_command c, exit_code c)) <$> cls = prepare rc1 rc2
          ∧ res = Py.Raise exn msg
      | Py.Ok None =>
          (λ c, (remote_command c, exit_code c)) <$> cls = prepare rc1 rc2
          ∧ res = Py.Ok (false, "Unsupported filesystem type: " +:+ fs_type)
      | Py.Ok (Some mount_cmd) =>
          (∃ rc3 msg,
             rc3 ≠ 0
             ∧ (λ c, (remote_command c, exit_code c)) <$> cls
               = prepare rc1 rc2 ++ [(mount_cmd, rc3)]
             ∧ res = Py.Ok (false, msg))
          ∨ (∃ rc4 msg,
               (λ c, (remote_command c, exit_code c)) <$> cls
               = prepare rc1 rc2
                 ++ [(mount_cmd, 0); ("mountpoint -q " +:+ mp, rc4)]
               ∧ res = Py.Ok (bool_decide (rc4 = 0), msg))
      end.
Proof.
  intros fs_type mp prepare.
  unfold mount_filesystem, bind, log_command, ret. cbv beta iota zeta.
  fold fs_type mp.
  next_call cl1 Hcmd1. next_call cl2 Hcmd2.
  destruct (mount_command mc cc fs_type mp (default "" (mount_options mc)))
    as [[mount_cmd|]|exn msg].
  - next_call cl3 Hcmd3. unfold rc.
    destruct (Z.eqb_spec (Ssh.exit_code (outcome cl3)) 0) as [Hrc3|Hrc3];
      cbn [negb].
    + next_call cl4 Hcmd4.
      destruct (Z.eqb_spec (Ssh.exit_code (outcome cl4)) 0) as [Hrc4|Hrc4];
        cbn [negb].
      * eexists _, [cl1; cl2; cl3; cl4], _, (exit_code cl1), (exit_code cl2).
        split; [by rewrite <- !app_assoc|].
        right. exists (exit_code cl4). eexists.
        cbn [fmap list_fmap app]. subst prepare. cbv beta.
        unfold exit_code at 3. rewrite Hcmd1, Hcmd2, Hcmd3, Hcmd4, Hrc3.
        split; [reflexivity|]. unfold exit_code.
        rewrite bool_decide_eq_true_2 by exact Hrc4. reflexivity.
      * eexists _, [cl1; cl2; cl3; cl4], _, (exit_code cl1), (exit_code cl2).
        split; [by rewrite <- !app_assoc|].
        right. exists (exit_code cl4). eexists.
        cbn [fmap list_fmap app]. subst prepare. cbv beta.
        unfold exit_code at 3. rewrite Hcmd1, Hcmd2, Hcmd3, Hcmd4, Hrc3.
        split; [reflexivity|]. unfold exit_code.
        rewrite bool_decide_eq_false_2 by exact Hrc4. reflexivity.
    + eexists _, [cl1; cl2; cl3], _, (exit_code cl1), (exit_code cl2). split.
      { by rewrite <- !app_assoc. }
      left. exists (exit_code cl3). eexists. cbn [fmap list_fmap app].
      subst prepare. cbv beta. rewrite Hcmd1, Hcmd2, Hcmd3.
      split; [exact Hrc3|]. split; reflexivity.
  - eexists _, [cl1; cl2], _, (exit_code cl1), (exit_code cl2). split.
    { by rewrite <- !app_assoc. }
    cbn [fmap list_fmap]. subst prepare. cbv beta. by rewrite Hcmd1, Hcmd2.
  - eexists _, [cl1; cl2], _, (exit_code cl1), (exit_code cl2). split.
    { by rewrite <- !app_assoc. }
    cbn [fmap list_fmap]. subst prepare. cbv beta. by rewrite Hcmd1, Hcmd2.
Qed.

(** X19: [mount_filesystem] for a supported filesystem type first creates
    the mount point and unmounts whatever is mounted there, ignoring how
    these two commands end. For [cephfs] on a cluster configuration whose
    [ceph] key holds [None] it then raises [AttributeError] and runs
    nothing more. In every other case it runs the mount command, does not
    run the [mountpoint -q] check after a mount that failed, and reports
    success exactly when the mount command and the check both exit with
    0. *)
Theorem X19_mount_filesystem (c : client) (mc : mount_config)
    (cc : cluster_config) (s : xstate) :
  let fs_type := default "cephfs" (filesystem_type mc) in
  let mp := default "/mnt/scale_test" (mount_point mc) in
  let m := mount_filesystem world c mc cc in
  fs_type ∈ ["cephfs"; "nfs"; "glusterfs"] →
  ∃ rc1 rc2,
    let prepare :=
      [("mkdir -p " +:+ mp, rc1);
       ("umount " +:+ mp +:+ " 2>/dev/null || true", rc2)] in
    (fs_type = "cephfs" ∧ ceph cc = IsNone →
     commands_of m s = prepare
     ∧ (m s).1
       = Py.Raise "AttributeError" "'NoneType' object has no attribute 'get'")
    ∧ (¬ (fs_type = "cephfs" ∧ ceph cc = IsNone) →
       ∃ mount_cmd,
         mount_command mc cc fs_type mp (default "" (mount_options mc))
         = Py.Ok (Some mount_cmd)
         ∧ ((∃ rc3 msg,
               rc3 ≠ 0
               ∧ commands_of m s = prepare ++ [(mount_cmd, rc3)]
               ∧ (m s).1 = Py.Ok (false, msg))
            ∨ (∃ rc4 msg,
                 commands_of m s
                 = prepare
                   ++ [(mount_cmd, 0); ("mountpoint -q " +:+ mp, rc4)]
                 ∧ (m s).1 = Py.Ok (bool_decide (rc4 = 0), msg)))).
Proof.
  intros fs_type mp m Hfs.
  destruct (mount_filesystem_run c mc cc s)
    as (res & cls & log & rc1 & rc2 & Hrun & Htable).
  fold fs_type mp in Htable.
  destruct (commands_of_run m s _ cls log Hrun) as [Hcmds Hres].
  exists rc1, rc2. cbv zeta. rewrite Hcmds, Hres.
  destruct (mount_command_supported mc cc fs_type mp
              (default "" (mount_options mc)) Hfs)
    as [(Hceph & Hnone & Hcmd)|(Hnot & mount_cmd & Hcmd)];
    rewrite Hcmd in Htable.
  - split; [intros _; exact Htable|]. intros Hnot. by destruct Hnot.
  - split; [intros Hboth; by destruct Hnot|]. intros _.
    exists mount_cmd. split; [exact Hcmd | exact Htable].
Qed.

(** X20: a filesystem type other than [cephfs], [nfs] and [glusterfs] is
    rejected, yet only after the mount point was created on the client
    and whatever was mounted there unmounted. *)
Theorem X20_mount_unsupported_type (c : client) (mc : mount_config)
    (cc : cluster_config) (s : xstate) :
  let fs_type := default "cephfs" (filesystem_type mc) in
  let mp := default "/mnt/scale_test" (mount_point mc) in
  let m := mount_filesystem world c mc cc in
  fs_type ∉ ["cephfs"; "nfs"; "glusterfs"] →
  ∃ rc1 rc2,
    commands_of m s
    = [("mkdir -p " +:+ mp, rc1);
       ("umount " +:+ mp +:+ " 2>/dev/null || true", rc2)]
    ∧ (m s).1 = Py.Ok (false, "Unsupported filesystem type: " +:+ fs_type).
Proof.
  intros fs_type mp m Hfs.
  destruct (mount_filesystem_run c mc cc s)
    as (res & cls & log & rc1 & rc2 & Hrun & Htable).
  fold fs_type mp in Htable.
  assert (mount_command mc cc fs_type mp (default "" (mount_options mc))
          = Py.Ok None) as Hnone.
  { unfold mount_command.
    destruct (String.eqb_spec fs_type "cephfs") as [Heq|_];
      [destruct Hfs; rewrite Heq; in_list|].
    destruct (String.eqb_spec fs_type "nfs") as [Heq|_];
      [destruct Hfs; rewrite Heq; in_list|].
    destruct (String.eqb_spec fs_type "glusterfs") as [Heq|_];
      [destruct Hfs; rewrite Heq; in_list|].
    done. }
  rewrite Hnone in Htable.
  destruct (commands_of_run m s _ cls log Hrun) as [Hcmds Hres].
  exists rc1, rc2. rewrite Hcmds, Hres. exact Htable.
Qed.

(** The run of the RBD fill. *)
Lemma run_fill_rbd_run (c : client) (fc : fill_config)
    (execution_id : string) (s : xstate) :
  let image :=
    default "fill_test" (image_prefix fc) +:+ "_"
    +:+ Builtins.str_opt (log_id c) +:+ "_" +:+ execution_id in
  let pool := default "rbd" (pool_name fc) in
  let create_cmd :=
    "rbd create " +:+ pool +:+ "/" +:+ image +:+ " --size "
    +:+ default "1G" (file_size fc) in
  let map_cmd := "rbd map " +:+ pool +:+ "/" +:+ image in
  ∃ res cls log,
    run_fill_rbd world c fc execution_id s
    = (res, mkX (calls s ++ cls) log)
    ∧ ((∃ rc1, rc1 ≠ 0
               ∧ (λ c, (remote_command c, exit_code c)) <$> cls
                 = [(create_cmd, rc1)]
               ∧ res.1.1 = false)
       ∨ (∃ rc2, rc2 ≠ 0
                 ∧ (λ c, (remote_command c, exit_code c)) <$> cls
                   = [(create_cmd, 0); (map_cmd, rc2)]
                 ∧ res.1.1 = false)
       ∨ (∃ device rc3 rc4,
            (λ c, (remote_command c, exit_code c)) <$> cls
            = [(create_cmd, 0); (map_cmd, 0);
               ("dd if=/dev/zero of=" +:+ device
                +:+ " bs=1M oflag=direct status=progress 2>&1", rc3);
               ("rbd unmap " +:+ device, rc4)]
            ∧ res = (true, "RBD fill completed",
                     Some (mkRbd device image)))).
Proof.
  intros image pool create_cmd map_cmd.
  unfold run_fill_rbd, bind, log_command, ret. cbv beta iota zeta.
  fold image. fold pool. fold create_cmd. fold map_cmd.
  next_call cl1 Hcmd1. unfold rc.
  destruct (Z.eqb_spec (Ssh.exit_code (outcome cl1)) 0) as [Hrc1|Hrc1];
    cbn [negb].
  - next_call cl2 Hcmd2.
    destruct (Z.eqb_spec (Ssh.exit_code (outcome cl2)) 0) as [Hrc2|Hrc2];
      cbn [negb].
    + next_call cl3 Hcmd3. next_call cl4 Hcmd4.
      eexists _, [cl1; cl2; cl3; cl4], _. split.
      { by rewrite <- !app_assoc. }
      right; right.
      exists (Builtins.strip (Ssh.stdout (outcome cl2))),
        (exit_code cl3), (exit_code cl4).
      cbn [fmap list_fmap]. unfold exit_code at 1 2.
      by rewrite Hcmd1, Hcmd2, Hcmd3, Hcmd4, Hrc1, Hrc2.
    + eexists _, [cl1; cl2], _. split.
      { by rewrite <- !app_assoc. }
      right; left. exists (exit_code cl2).
      cbn [fmap list_fmap]. unfold exit_code at 2.
      by rewrite Hcmd1, Hcmd2, Hrc1.
  - eexists _, [cl1], _. split; [done|].
    left. exists (exit_code cl1).
    cbn [fmap list_fmap]. by rewrite Hcmd1.
Qed.

(** X21: [run_fill_cluster] on RBD stops when the image cannot be
    created or mapped; once the device is mapped it always runs
    [rbd unmap] on it after the [dd], and reports success whatever [dd]
    and [rbd unmap] returned. It never removes the image it created. *)
Theorem X21_rbd_fill {FM : Type}
    (fill_metrics : string → Z → option (FM * string))
    (c : client) (fc : fill_config) (cc : cluster_config)
    (execution_id : string) (s : xstate) :
  let m := run_fill_cluster world fill_metrics c fc cc execution_id in
  let image :=
    default "fill_test" (image_prefix fc) +:+ "_"
    +:+ Builtins.str_opt (log_id c) +:+ "_" +:+ execution_id in
  let pool := default "rbd" (pool_name fc) in
  let create_cmd :=
    "rbd create " +:+ pool +:+ "/" +:+ image +:+ " --size "
    +:+ default "1G" (file_size fc) in
  let map_cmd := "rbd map " +:+ pool +:+ "/" +:+ image in
  storage_type fc = Some "rbd" →
  (∃ rc1 res, rc1 ≠ 0
          ∧ commands_of m s = [(create_cmd, rc1)]
          ∧ (m s).1 = Py.Ok res ∧ res.1.1 = false)
  ∨ (∃ rc2 res, rc2 ≠ 0
            ∧ commands_of m s = [(create_cmd, 0); (map_cmd, rc2)]
            ∧ (m s).1 = Py.Ok res ∧ res.1.1 = false)
  ∨ (∃ device rc3 rc4,
       commands_of m s
       = [(create_cmd, 0); (map_cmd, 0);
          ("dd if=/dev/zero of=" +:+ device
           +:+ " bs=1M oflag=direct status=progress 2>&1", rc3);
          ("rbd unmap " +:+ device, rc4)]
       ∧ (m s).1
         = Py.Ok (true, "RBD fill completed",
                  Some (RbdDevice (mkRbd device image)))).
Proof.
  intros m image pool create_cmd map_cmd Hrbd.
  destruct (run_fill_rbd_run c fc execution_id s)
    as (res & cls & log & Hrun & Htable).
  assert (m s = (Py.Ok (res.1, RbdDevice <$> res.2),
                 mkX (calls s ++ cls) log))
    as Hm.
  { subst m. unfold run_fill_cluster. rewrite Hrbd.
    cbn [default from_option Datatypes.id].
    change (String.eqb "rbd" "cephfs") with false.
    change (String.eqb "rbd" "rbd") with true. cbv beta iota.
    unfold bind at 1. by rewrite Hrun. }
  destruct (commands_of_run m s _ cls log Hm) as [Hcmds Hres].
  rewrite Hcmds, Hres.
  destruct Htable as [(rc1 & Hrc1 & Hc & Hfalse)
                     |[(rc2 & Hrc2 & Hc & Hfalse)
                      |(device & rc3 & rc4 & Hc & ->)]].
  - left. by exists rc1, (res.1, RbdDevice <$> res.2).
  - right; left. by exists rc2, (res.1, RbdDevice <$> res.2).
  - right; right. by exists device, rc3, rc4.
Qed.

(** The run of [run_fio]. *)
Lemma run_fio_run {J M : Type} (json_loads : string → option J)
    (_parse_fio_results : J → Py.result (option M))
    (c : client) (wl : workload) (execution_id : string) (s : xstate) :
  let fio_cmd :=
    Fio._build_fio_command (default no_io (io wl)) (default no_test (test wl))
      (fio_directory wl) execution_id (Builtins.str_opt (id c)) in
  ∃ res cl log,
    run_fio world json_loads _parse_fio_results c wl execution_id s
    = (res, mkX (calls s ++ [cl]) log)
    ∧ remote_command cl = fio_cmd
    ∧ match res with
      | Py.Ok (ok, msg, metrics) =>
          ok = bool_decide (exit_code cl = 0)
          ∧ (ok = false →
             metrics = None
             ∧ msg = "FIO failed: "
                     +:+ Py.str_or (Ssh.stderr (outcome cl))
                           (Ssh.stdout (outcome cl)))
          ∧ (is_Some metrics → msg = "FIO completed")
      | Py.Raise _ _ => exit_code cl = 0
      end.
Proof.
  intros fio_cmd.
  unfold run_fio, bind, log_command, ret. cbv beta iota zeta. fold fio_cmd.
  next_call cl Hcmd. unfold rc.
  destruct (Z.eqb_spec (Ssh.exit_code (outcome cl)) 0) as [Hrc|Hrc];
    cbn [negb].
  - assert (bool_decide (exit_code cl = 0) = true) as Hok
      by (by apply bool_decide_eq_true_2).
    destruct (Builtins.from_first _ _) as [text|];
      [destruct (json_loads text) as [fio_result|];
       [destruct (_parse_fio_results fio_result) as [metrics|exn msg]|]|];
      do 3 eexists; (split; [reflexivity|]); (split; [exact Hcmd|]);
      rewrite ?Hok; try done;
      (split; [done|]); (split; [done|]); by intros [? ?].
  - do 3 eexists. split; [reflexivity|]. split; [exact Hcmd|].
    rewrite bool_decide_eq_false_2 by done.
    split; [done|]. split; [done|]. by intros [? ?].
Qed.

(** X22: [run_fio] runs exactly one command on the client, the FIO
    command line for the directory of the workload. It reports failure
    exactly when that command did not exit with 0 (a timeout or a failed
    spawn being exit code -1), and then returns no metrics; with exit code
    0 it reports success even when the output holds no metrics. *)
Theorem X22_run_fio {J M : Type} (json_loads : string → option J)
    (_parse_fio_results : J → Py.result (option M))
    (c : client) (wl : workload) (execution_id : string) (s : xstate) :
  let m := run_fio world json_loads _parse_fio_results c wl execution_id in
  ∃ code,
    commands_of m s
    = [(Fio._build_fio_command (default no_io (io wl))
          (default no_test (test wl)) (fio_directory wl) execution_id
          (Builtins.str_opt (id c)), code)]
    ∧ match (m s).1 with
      | Py.Ok (ok, msg, metrics) =>
          ok = bool_decide (code = 0)
          ∧ (ok = false → metrics = None)
          ∧ (is_Some metrics → msg = "FIO completed")
      | Py.Raise _ _ => code = 0
      end.
Proof.
  intros m.
  destruct (run_fio_run json_loads _parse_fio_results c wl execution_id s)
    as (res & cl & log & Hrun & Hcmd & Hres).
  destruct (commands_of_run m s _ [cl] log Hrun) as [Hcmds ->].
  exists (exit_code cl). rewrite Hcmds. cbn [fmap list_fmap].
  rewrite Hcmd. split; [done|].
  destruct res as [[[ok msg] metrics]|exn msg]; [|done].
  destruct Hres as (? & Hfail & ?). split; [done|].
  split; [|done]. intros Hok. by apply Hfail.
Qed.

(** The cleanup command, with a mount point. *)
Lemma cleanup_command_mounted (mp : string) :
  mp ≠ "" →
  cleanup_command (Some mp)
  = "rm -rf /tmp/fio_test* 2>/dev/null; rm -rf " +:+ mp
    +:+ "/scale_test_* 2>/dev/null; umount " +:+ mp
    +:+ " 2>/dev/null || true".
Proof.
  intros Hmp. unfold cleanup_command, Py.truthy_str.
  by rewrite (proj2 (String.eqb_neq _ _)).
Qed.

(** The three writes on the client. *)
Lemma write_ceph_config_run (c : client) (user conf_content
    keyring_content : string) (s : xstate) :
  let keyring_file := "/etc/ceph/ceph.client." +:+ user +:+ ".keyring" in
  ∃ res cls log,
    write_ceph_config world c user conf_content keyring_content s
    = (res, mkX (calls s ++ cls) log)
    ∧ (res.1 = true →
       ∃ d w k,
         cls = [d; w; k]
         ∧ Forall (λ f, exit_code f = 0) [d; w; k]
         ∧ remote_command d = "mkdir -p /etc/ceph && chmod 755 /etc/ceph"
         ∧ remote_command w
           = "cat > /etc/ceph/ceph.conf << 'CEPHCONF'" +:+ Builtins.nl
             +:+ conf_content +:+ Builtins.nl +:+ "CEPHCONF"
         ∧ remote_command k
           = "cat > " +:+ keyring_file +:+ " << 'KEYRING'" +:+ Builtins.nl
             +:+ keyring_content +:+ Builtins.nl +:+ "KEYRING"
             +:+ Builtins.nl +:+ "chmod 600 " +:+ keyring_file).
Proof.
  intros keyring_file.
  unfold write_ceph_config, bind, ret. cbv beta iota zeta. fold keyring_file.
  unfold rc. next_call d Hd.
  destruct (Z.eqb_spec (Ssh.exit_code (outcome d)) 0) as [Hrcd|Hrcd];
    cbn [negb]; [|by eexists _, [d], _].
  next_call w Hw.
  destruct (Z.eqb_spec (Ssh.exit_code (outcome w)) 0) as [Hrcw|Hrcw];
    cbn [negb];
    [|eexists _, [d; w], _; split; [by rewrite <- !app_assoc | done]].
  next_call k Hk.
  destruct (Z.eqb_spec (Ssh.exit_code (outcome k)) 0) as [Hrck|Hrck];
    cbn [negb];
    [|eexists _, [d; w; k], _; split; [by rewrite <- !app_assoc | done]].
  eexists _, [d; w; k], _. split; [by rewrite <- !app_assoc|]. intros _.
  exists d, w, k. split; [done|]. split; [by repeat constructor | done].
Qed.

(** The run of the five steps. *)
Lemma fetch_and_write_run (c : client) (installer : installer_config)
    (cfg : ceph_config) (s : xstate) :
  let user := default "admin" (user cfg) in
  let keyring_file := "/etc/ceph/ceph.client." +:+ user +:+ ".keyring" in
  ∃ res cls log,
    fetch_and_write world c installer cfg s
    = (res, mkX (calls s ++ cls) log)
    ∧ (res.1 = true →
       ∃ retried conf keyring d w k,
         cls = conf :: retried ++ [keyring; d; w; k]
         ∧ (length retried ≤ 1)%nat
         ∧ Forall (λ f, exit_code f ≠ 0) retried
         ∧ Forall (λ f, exit_code f = 0) [conf; keyring; d; w; k]
         ∧ remote_command conf
           = "cat " +:+ default "/etc/ceph/ceph.conf" (conf_path cfg)
         ∧ remote_command d = "mkdir -p /etc/ceph && chmod 755 /etc/ceph"
         ∧ remote_command w
           = "cat > /etc/ceph/ceph.conf << 'CEPHCONF'" +:+ Builtins.nl
             +:+ Ssh.stdout (outcome conf) +:+ Builtins.nl +:+ "CEPHCONF"
         ∧ remote_command k
           = "cat > " +:+ keyring_file +:+ " << 'KEYRING'" +:+ Builtins.nl
             +:+ Ssh.stdout (outcome keyring) +:+ Builtins.nl +:+ "KEYRING"
             +:+ Builtins.nl +:+ "chmod 600 " +:+ keyring_file).
Proof.
  intros user keyring_file. unfold fetch_and_write.
  unfold bind, ret. cbv beta iota zeta. fold user.
  assert (∀ host username command password key_path port timeout st,
            ∃ cl,
              run_ssh_command world host username command password key_path
                port timeout st
              = (outcome cl, mkX (calls st ++ [cl]) (command_log st))
              ∧ remote_command cl = command) as Hssh.
  { intros. destruct (run_ssh_command_spec host0 username0 command password
                        key_path port0 timeout st) as (cl & ? & ? & _).
    by exists cl. }
  destruct (Hssh (host installer) (default "root" (username installer))
              ("cat " +:+ default "/etc/ceph/ceph.conf" (conf_path cfg))
              (ssh_password c) (ssh_key_path c) (default 22 (port installer))
              300 s) as (conf & -> & Hconf).
  cbv beta iota zeta. cbn [calls command_log]. unfold rc.
  destruct (Z.eqb_spec (Ssh.exit_code (outcome conf)) 0) as [Hrc0|Hrc0];
    cbn [negb]; [|by eexists _, [conf], _].
  match goal with
  | |- context [run_ssh_command world ?h ?u ?cmd ?pw ?kp ?p ?t ?st] =>
      destruct (Hssh h u cmd pw kp p t st) as (keyring & -> & Hkeyring)
  end.
  cbv beta iota zeta. cbn [calls command_log].
  destruct (Z.eqb_spec (Ssh.exit_code (outcome keyring)) 0) as [Hrc1|Hrc1];
    cbn [negb].
  - match goal with
    | |- context [write_ceph_config world c user ?cf ?kr ?st] =>
        destruct (write_ceph_config_run c user cf kr st)
          as (res & cls & log & -> & Hwrite)
    end.
    cbn [calls] in *. exists res, ([conf; keyring] ++ cls), log.
    split; [by rewrite <- !app_assoc|].
    intros Hok. destruct (Hwrite Hok) as (d & w & k & -> & Hz & Hd & Hw & Hk).
    exists [], conf, keyring, d, w, k.
    split; [done|]. split; [simpl; lia|]. split; [constructor|].
    split; [by repeat constructor; try (by inversion Hz; subst);
            apply Forall_cons in Hz as [? Hz];
            try apply Forall_cons in Hz as [? Hz];
            try apply Forall_cons in Hz as [? Hz]|].
    done.
  - match goal with
    | |- context [run_ssh_command world ?h ?u ?cmd ?pw ?kp ?p ?t ?st] =>
        destruct (Hssh h u cmd pw kp p t st) as (alt & -> & Halt)
    end.
    cbv beta iota zeta. cbn [calls command_log].
    destruct (Z.eqb_spec (Ssh.exit_code (outcome alt)) 0) as [Hrc2|Hrc2];
      cbn [negb];
      [|eexists _, [conf; keyring; alt], _;
        split; [by rewrite <- !app_assoc | done]].
    match goal with
    | |- context [write_ceph_config world c user ?cf ?kr ?st] =>
        destruct (write_ceph_config_run c user cf kr st)
          as (res & cls & log & -> & Hwrite)
    end.
    cbn [calls] in *. exists res, ([conf; keyring; alt] ++ cls), log.
    split; [by rewrite <- !app_assoc|].
    intros Hok. destruct (Hwrite Hok) as (d & w & k & -> & Hz & Hd & Hw & Hk).
    exists [keyring], conf, alt, d, w, k.
    split; [done|]. split; [simpl; lia|]. split; [by repeat constructor|].
    split; [|done].
    apply Forall_cons in Hz as [? Hz]. apply Forall_cons in Hz as [? Hz].
    apply Forall_cons in Hz as [? Hz]. by repeat constructor.
Qed.

(** The run of [push_ceph_config_to_client]. *)
Lemma push_ceph_config_run (c : client) (cc : cluster_config) (s : xstate) :
  ∃ res cls log,
    push_ceph_config_to_client world c cc s
    = (res, mkX (calls s ++ cls) log)
    ∧ (Py.truthy_str (installer_node cc ≫= host) = false →
       cls = []
       ∧ res = Py.Ok (false, "No installer node configured for cluster"))
    ∧ (Py.truthy_str (installer_node cc ≫= host) = true →
       ceph cc = IsNone →
       cls = []
       ∧ res = Py.Raise "AttributeError"
                 "'NoneType' object has no attribute 'get'")
    ∧ (∀ msg, res = Py.Ok (true, msg) →
       ∃ cfg installer res' log',
         ceph_section cc = Py.Ok cfg
         ∧ fetch_and_write world c installer cfg s
           = (res', mkX (calls s ++ cls) log')
         ∧ res'.1 = true).
Proof.
  unfold push_ceph_config_to_client.
  destruct (installer_node cc) as [installer|]; cbn [mbind option_bind];
    [|by exists (Py.Ok (false, "No installer node configured for cluster")),
         [], (command_log s); rewrite app_nil_r; destruct s].
  destruct (Py.truthy_str (host installer)) eqn:Htruthy; cbn [negb];
    [|by exists (Py.Ok (false, "No installer node configured for cluster")),
         [], (command_log s); rewrite app_nil_r; destruct s].
  unfold ceph_section, section_of.
  destruct (ceph cc) as [| |d] eqn:Hceph.
  - destruct (fetch_and_write_run c installer no_ceph s)
      as (res & cls & log & Hrun & _).
    unfold bind, ret. rewrite Hrun. exists (Py.Ok res), cls, log.
    split; [reflexivity|]. split; [done|]. split; [done|].
    intros msg [= Hres]. exists no_ceph, installer, res, log.
    split; [reflexivity|]. split; [exact Hrun|]. by rewrite Hres.
  - exists (Py.Raise "AttributeError"
              "'NoneType' object has no attribute 'get'"), [], (command_log s).
    unfold ret. rewrite app_nil_r. split; [by destruct s|].
    split; [done|]. split; [done|]. intros msg Hres. discriminate Hres.
  - destruct (fetch_and_write_run c installer d s)
      as (res & cls & log & Hrun & _).
    unfold bind, ret. rewrite Hrun. exists (Py.Ok res), cls, log.
    split; [reflexivity|]. split; [done|]. split; [done|].
    intros msg [= Hres]. exists d, installer, res, log.
    split; [reflexivity|]. split; [exact Hrun|]. by rewrite Hres.
Qed.

(** X23: [push_ceph_config_to_client] contacts no host when the cluster
    has no installer host, nor when the [ceph] key of the cluster
    configuration holds [None], where it raises [AttributeError]. When it
    reports success, the configuration file and a keyring were read on
    the installer with exit code 0 (the keyring at the second path tried,
    if the first read failed), and the three commands that followed
    created the directory on the client and wrote there, unchanged, the
    configuration and the keyring just read, each with exit code 0. *)
Theorem X23_push_ceph_config (c : client) (cc : cluster_config)
    (s : xstate) :
  let m := push_ceph_config_to_client world c cc in
  (Py.truthy_str (installer_node cc ≫= host) = false →
   calls_of m s = []
   ∧ (m s).1 = Py.Ok (false, "No installer node configured for cluster"))
  ∧ (Py.truthy_str (installer_node cc ≫= host) = true →
     ceph cc = IsNone →
     calls_of m s = []
     ∧ (m s).1
       = Py.Raise "AttributeError" "'NoneType' object has no attribute 'get'")
  ∧ (∀ msg, (m s).1 = Py.Ok (true, msg) →
     ∃ cfg retried conf keyring d w k,
       let keyring_file :=
         "/etc/ceph/ceph.client." +:+ default "admin" (user cfg)
         +:+ ".keyring" in
       ceph_section cc = Py.Ok cfg
       ∧ calls_of m s = conf :: retried ++ [keyring; d; w; k]
       ∧ (length retried ≤ 1)%nat
       ∧ Forall (λ f, exit_code f ≠ 0) retried
       ∧ Forall (λ f, exit_code f = 0) [conf; keyring; d; w; k]
       ∧ remote_command conf
         = "cat " +:+ default "/etc/ceph/ceph.conf" (conf_path cfg)
       ∧ remote_command d = "mkdir -p /etc/ceph && chmod 755 /etc/ceph"
       ∧ remote_command w
         = "cat > /etc/ceph/ceph.conf << 'CEPHCONF'" +:+ Builtins.nl
           +:+ Ssh.stdout (outcome conf) +:+ Builtins.nl +:+ "CEPHCONF"
       ∧ remote_command k
         = "cat > " +:+ keyring_file +:+ " << 'KEYRING'" +:+ Builtins.nl
           +:+ Ssh.stdout (outcome keyring) +:+ Builtins.nl +:+ "KEYRING"
           +:+ Builtins.nl +:+ "chmod 600 " +:+ keyring_file).
Proof.
  intros m.
  destruct (push_ceph_config_run c cc s)
    as (res & cls & log & Hrun & Hnone & Hnull & Hok).
  destruct (calls_of_run m s _ cls log Hrun) as [-> ->].
  split; [exact Hnone|]. split; [exact Hnull|].
  intros msg Hres.
  destruct (Hok msg Hres) as (cfg & installer & res' & log' & Hsec & Hrun' & Htrue).
  destruct (fetch_and_write_run c installer cfg s)
    as (res2 & cls2 & log2 & Hrun2 & Hok2).
  rewrite Hrun' in Hrun2. injection Hrun2 as -> Hcalls ->.
  apply app_inv_head in Hcalls as <-.
  destruct (Hok2 Htrue) as (retried & conf & keyring & d & w & k & Hspec).
  exists cfg, retried, conf, keyring, d, w, k. cbv zeta.
  split; [exact Hsec|]. exact Hspec.
Qed.

(** [cleanup_client] runs one command. *)
Lemma cleanup_client_run (c : client) (mount_point : option string)
    (s : xstate) :
  ∃ code,
    commands_of (cleanup_client world c mount_point) s
    = [(cleanup_command mount_point, code)].
Proof.
  assert (∃ cl log,
            cleanup_client world c mount_point s
            = (tt, mkX (calls s ++ [cl]) log)
            ∧ remote_command cl = cleanup_command mount_point)
    as (cl & log & Hrun & Hcmd).
  { unfold cleanup_client, bind, ret. next_call cl Hcmd. by eexists _, _. }
  destruct (commands_of_run _ s _ [cl] log Hrun) as [-> _].
  exists (exit_code cl). cbn [fmap list_fmap]. by rewrite Hcmd.
Qed.

End executor.

(** A CephFS mount on a cluster configuration with two monitors. *)
Lemma X19_witness :
  let world : list (list string) → list string → Ssh.spawn_outcome :=
    λ _ _, Ssh.Exited 0 "" "" in
  let c := mkClient (Some "client-1") (Some "10.0.0.1") None None None None in
  let mc := mkMountConfig (Some "cephfs") (Some "/mnt/t") None None None None
              None None None None None None in
  let cc := mkCluster
              (Holds (mkCeph (Some ["10.0.0.7"; "10.0.0.8:3300"]) None None
                        None))
              None Missing in
  let m := mount_filesystem world c mc cc in
  let s := mkX [] [] in
  ∃ rc1 rc2,
    let prepare :=
      [("mkdir -p " +:+ "/mnt/t", rc1);
       ("umount " +:+ "/mnt/t" +:+ " 2>/dev/null || true", rc2)] in
    ("cephfs" = "cephfs" ∧ ceph cc = IsNone →
     commands_of m s = prepare
     ∧ (m s).1
       = Py.Raise "AttributeError" "'NoneType' object has no attribute 'get'")
    ∧ (¬ ("cephfs" = "cephfs" ∧ ceph cc = IsNone) →
       ∃ mount_cmd,
         mount_command mc cc "cephfs" "/mnt/t" "" = Py.Ok (Some mount_cmd)
         ∧ ((∃ rc3 msg,
               rc3 ≠ 0
               ∧ commands_of m s = prepare ++ [(mount_cmd, rc3)]
               ∧ (m s).1 = Py.Ok (false, msg))
            ∨ (∃ rc4 msg,
                 commands_of m s
                 = prepare
                   ++ [(mount_cmd, 0); ("mountpoint -q " +:+ "/mnt/t", rc4)]
                 ∧ (m s).1 = Py.Ok (bool_decide (rc4 = 0), msg)))).
Proof.
  intros world c mc cc m s.
  apply (X19_mount_filesystem world c mc cc s). compute_done.
Defined.

(** The same mount on the dictionary of a cluster without a Ceph
    connection: two commands are run, then the method raises. *)
Example mount_cephfs_without_ceph_section :
  let world : list (list string) → list string → Ssh.spawn_outcome :=
    λ _ _, Ssh.Exited 0 "" "" in
  let c := mkClient (Some "client-1") (Some "10.0.0.1") None None None None in
  let mc := mkMountConfig (Some "cephfs") (Some "/mnt/t") None None None None
              None None None None None None in
  let m := mount_filesystem world c mc (mkCluster IsNone None Missing) in
  commands_of m (mkX [] [])
  = [("mkdir -p /mnt/t", 0); ("umount /mnt/t 2>/dev/null || true", 0)]
  ∧ (m (mkX [] [])).1
    = Py.Raise "AttributeError" "'NoneType' object has no attribute 'get'".
Proof. split; vm_compute; reflexivity. Qed.

Lemma X20_witness :
  let world : list (list string) → list string → Ssh.spawn_outcome :=
    λ _ _, Ssh.Exited 0 "" "" in
  let c := mkClient (Some "client-1") (Some "10.0.0.1") None None None None in
  let mc := mkMountConfig (Some "lustre") (Some "/mnt/t") None None None None
              None None None None None None in
  let m := mount_filesystem world c mc (mkCluster Missing None Missing) in
  ∃ rc1 rc2,
    commands_of m (mkX [] [])
    = [("mkdir -p " +:+ "/mnt/t", rc1);
       ("umount " +:+ "/mnt/t" +:+ " 2>/dev/null || true", rc2)]
    ∧ (m (mkX [] [])).1
      = Py.Ok (false, "Unsupported filesystem type: " +:+ "lustre").
Proof.
  intros world c mc m.
  apply (X20_mount_unsupported_type world c mc (mkCluster Missing None Missing)
           (mkX [] [])).
  compute_done.
Defined.

Lemma X21_witness :
  let world : list (list string) → list string → Ssh.spawn_outcome :=
    λ _ _, Ssh.Exited 0 "/dev/rbd0" "" in
  let c := mkClient (Some "client-1") (Some "10.0.0.1") None None None None in
  let fc := mkFill (Some "rbd") None None None None None None None None in
  let m := run_fill_cluster world (λ _ _, @None (unit * string)) c fc
             (mkCluster Missing None Missing) "exec-1" in
  let image :=
    "fill_test" +:+ "_" +:+ Builtins.str_opt (Some "client-1") +:+ "_"
    +:+ "exec-1" in
  let create_cmd :=
    "rbd create " +:+ "rbd" +:+ "/" +:+ image +:+ " --size " +:+ "1G" in
  let map_cmd := "rbd map " +:+ "rbd" +:+ "/" +:+ image in
  let s := mkX [] [] in
  (∃ rc1 res, rc1 ≠ 0
          ∧ commands_of m s = [(create_cmd, rc1)]
          ∧ (m s).1 = Py.Ok res ∧ res.1.1 = false)
  ∨ (∃ rc2 res, rc2 ≠ 0
            ∧ commands_of m s = [(create_cmd, 0); (map_cmd, rc2)]
            ∧ (m s).1 = Py.Ok res ∧ res.1.1 = false)
  ∨ (∃ device rc3 rc4,
       commands_of m s
       = [(create_cmd, 0); (map_cmd, 0);
          ("dd if=/dev/zero of=" +:+ device
           +:+ " bs=1M oflag=direct status=progress 2>&1", rc3);
          ("rbd unmap " +:+ device, rc4)]
       ∧ (m s).1
         = Py.Ok (true, "RBD fill completed",
                  Some (RbdDevice (mkRbd device image)))).
Proof.
  intros world c fc m image create_cmd map_cmd s.
  apply (X21_rbd_fill world (λ _ _, @None (unit * string)) c fc
           (mkCluster Missing None Missing) "exec-1" s).
  reflexivity.
Defined.

(** A monitor address with the default port added names a port. *)
Lemma contains_colon_port (mon : string) :
  Builtins.contains ":" (mon +:+ ":6789") = true.
Proof.
  induction mon as [|a mon IH]; [done|].
  change (Builtins.contains ":" (String a mon +:+ ":6789"))
    with (String.prefix ":" (String a (mon +:+ ":6789"))
          || Builtins.contains ":" (mon +:+ ":6789")).
  rewrite IH. apply orb_true_r.
Qed.

Lemma string_app_assoc (s1 s2 s3 : string) :
  (s1 +:+ s2) +:+ s3 = s1 +:+ s2 +:+ s3.
Proof.
  induction s1 as [|a s1 IH]; [reflexivity|].
  change (String a ((s1 +:+ s2) +:+ s3) = String a (s1 +:+ s2 +:+ s3)).
  by rewrite IH.
Qed.

(** X25: [_build_cephfs_mount] raises [AttributeError] when the [ceph]
    key of the cluster configuration holds [None]. Otherwise it returns a
    command that holds the monitor addresses, joined by commas; every
    address names a port, the default 6789 when the configuration gives
    none, and there is always at least one address, [localhost:6789]
    when the configuration lists no monitor. *)
Theorem X25_monitors_have_ports (mc : mount_config) (cc : cluster_config)
    (mount_point extra_options : string) :
  (ceph cc = IsNone →
   _build_cephfs_mount mc cc mount_point extra_options
   = Py.Raise "AttributeError" "'NoneType' object has no attribute 'get'")
  ∧ (∀ cfg, ceph_section cc = Py.Ok cfg →
       let mons := formatted_monitors cfg in
       (∃ before after,
          _build_cephfs_mount mc cc mount_point extra_options
          = Py.Ok (before +:+ Py.join "," mons +:+ after))
       ∧ Forall (λ mon, Builtins.contains ":" mon = true) mons
       ∧ mons ≠ []
       ∧ (default [] (monitors cfg) = [] → mons = ["localhost:6789"])
       ∧ (default [] (monitors cfg) ≠ [] →
          length mons = length (default [] (monitors cfg)))).
Proof.
  split.
  { intros Hnull. unfold _build_cephfs_mount, ceph_section, section_of.
    by rewrite Hnull. }
  intros cfg Hsec mons. split.
  { unfold _build_cephfs_mount. rewrite Hsec. cbn [Py.bind]. cbv zeta.
    fold mons.
    set (usr := default (default "admin" (user cfg)) (cephfs_user mc)).
    set (path := default "/" (cephfs_path mc)).
    set (secret := if Py.truthy_str (cephfs_secret_file mc)
                   then default "" (cephfs_secret_file mc)
                   else "/etc/ceph/ceph.client." +:+ usr +:+ ".keyring").
    destruct (String.eqb (default "kernel" (mount_method mc)) "fuse").
    - exists ("ceph-fuse --id " +:+ usr +:+ " -k " +:+ secret +:+ " -m ").
      exists ((if negb (String.eqb path "") && negb (String.eqb path "/")
               then " -r " +:+ path else "")
              +:+ " " +:+ mount_point).
      f_equal. rewrite !string_app_assoc. reflexivity.
    - exists ("SECRET=$(ceph-authtool " +:+ secret +:+ " -n client." +:+ usr
              +:+ " -p 2>/dev/null || grep -A1 'client." +:+ usr +:+ "' "
              +:+ secret +:+ " | grep key | awk '{{print $3}}') && "
              +:+ "mount -t ceph ").
      exists (":" +:+ path +:+ " " +:+ mount_point +:+ " -o name=" +:+ usr
              +:+ ",secret=$SECRET"
              +:+ (if negb (String.eqb extra_options "")
                   then "," +:+ extra_options else "")).
      f_equal. rewrite !string_app_assoc. reflexivity. }
  subst mons. unfold formatted_monitors.
  set (mons := default [] (monitors cfg)).
  assert (∀ l, Forall (λ mon, Builtins.contains ":" mon = true)
                 (format_monitor <$> l)) as Hall.
  { intros l. apply Forall_fmap, Forall_forall. intros mon _.
    unfold format_monitor. cbn [compose].
    destruct (Builtins.contains ":" mon) eqn:Hc; cbn [negb]; [done|].
    apply contains_colon_port. }
  split; [apply Hall|].
  destruct mons as [|mon mons'] eqn:Hmons.
  - rewrite bool_decide_eq_true_2 by done. by repeat split.
  - rewrite bool_decide_eq_false_2 by done.
    split; [done|]. split; [done|]. intros _. by rewrite length_fmap.
Qed.

End ExecutorFacts.

(** ** The engine and the executor together *)

Module CleanupFacts.
Import Engine.

Section cleanup.
Context {F : Py.Float}.
Variable e : env.
Variable execution_id : string.
Variable wl : workload_config.

Lemma started_on_app (op : remote_op) (tr1 tr2 : list event) :
  started_on op (tr1 ++ tr2) = started_on op tr1 ++ started_on op tr2.
Proof. unfold started_on. apply bind_app. Qed.

Lemma started_on_other (op op' : remote_op) (cs : list client) :
  op ≠ op' → started_on op (Remote op' <$> cs) = [].
Proof.
  intros Hne. unfold started_on. induction cs as [|c cs IH]; [done|].
  rewrite fmap_cons, bind_cons, IH. by destruct op, op'.
Qed.

(** What the cleanup phase does to the outside world: it saves the
    command log if there is one, unmounts on every client when the
    workload is a file workload that asks for it, cleans up on every
    client and saves the summary. *)
Lemma cleanup_phase_trace (s : state) (x : exec_state) :
  active s = Some x →
  let unmounts :=
    match is_file_workload_with_mount wl with
    | Some mc => default true (auto_unmount mc)
    | None => false
    end in
  ∃ sf sm,
    _run_cleanup_phase e execution_id wl s = (Py.Ok tt, sf)
    ∧ trace sf
      = trace s
        ++ (if bool_decide (command_log s = []) then []
            else [SaveCommandLog (command_log s)])
        ++ (if unmounts then Remote UnmountFilesystem <$> ex_clients x
            else [])
        ++ (Remote CleanupClient <$> ex_clients x)
        ++ [SaveSummary sm].
Proof.
  intros Hact unmounts. unfold _run_cleanup_phase.
  unfold bind at 1, gets at 1. cbv beta iota.
  assert (∃ s1, (if bool_decide (command_log s = []) then ret tt
                 else bind (emit (SaveCommandLog (command_log s)))
                        (λ _, modify (with_command_log []))) s
                = (Py.Ok tt, s1)
                ∧ active s1 = active s
                ∧ aggregate_file s1 = aggregate_file s
                ∧ trace s1
                  = trace s
                    ++ (if bool_decide (command_log s = []) then []
                        else [SaveCommandLog (command_log s)]))
    as (s1 & Hlog & Hact1 & Hagg1 & Htr1).
  { destruct (bool_decide (command_log s = [])).
    - exists s. repeat split. by rewrite app_nil_r.
    - eexists. repeat split. }
  rewrite (EngineFacts.bind_ok _ _ _ _ _ Hlog).
  unfold _update_state at 1. unfold bind at 1, modify at 1. cbv beta iota.
  set (s2 := with_active _ _).
  destruct (EngineFacts.suspended_spec e DuringCleanup s2)
    as (s3 & Hsusp & Hact3 & Hdb3 & Htr3 & _).
  rewrite (EngineFacts.bind_ok _ _ _ _ _ Hsusp).
  unfold bind at 1, the_active at 1. rewrite Hact3. subst s2.
  cbn [active with_active]. rewrite Hact1, Hact.
  cbn [fmap option_fmap option_map ex_clients with_phase].
  assert (∃ s4, (match is_file_workload_with_mount wl with
                 | Some mc =>
                     if default true (auto_unmount mc)
                     then fan_out UnmountFilesystem (ex_clients x)
                     else ret tt
                 | None => ret tt
                 end) s3 = (Py.Ok tt, s4)
                ∧ aggregate_file s4 = aggregate_file s3
                ∧ trace s4
                  = trace s3
                    ++ (if unmounts
                        then Remote UnmountFilesystem <$> ex_clients x
                        else []))
    as (s4 & Hun & Hagg4 & Htr4).
  { subst unmounts.
    destruct (is_file_workload_with_mount wl) as [mc|];
      [destruct (default true (auto_unmount mc))|].
    - eexists. repeat split.
    - exists s3. repeat split. by rewrite app_nil_r.
    - exists s3. repeat split. by rewrite app_nil_r. }
  rewrite (EngineFacts.bind_ok _ _ _ _ _ Hun).
  unfold fan_out at 1. unfold bind at 1, modify at 1. cbv beta iota.
  unfold bind at 1, gets at 1. cbv beta iota.
  cbn [aggregate_file with_trace with_command_log].
  unfold Store.read_metrics.
  destruct (MetricsFacts.read_lines_unfiltered
              (λ m : aggregate_metrics, Py.Ok (Store.mkDatetime false (a_ts m))) (aggregate_file s4))
    as [ms ->].
  unfold emit, _update_state, bind, modify. cbv beta iota.
  eexists _, _. split; [done|].
  cbn [trace with_active with_trace with_command_log].
  rewrite Htr4, Htr3. cbn [trace with_active]. rewrite Htr1.
  by rewrite <- !app_assoc.
Qed.

(** X24: a workload whose mount configuration names a mount point and
    sets [auto_unmount] to false: the cleanup phase starts no
    [unmount_filesystem], yet it starts [cleanup_client] on every client
    of the execution with that mount point, and the one command
    [cleanup_client] then runs ends by unmounting it. *)
Theorem X24_cleanup_unmounts_without_auto_unmount (s : state)
    (x : exec_state) (mc : mount_config) (mp : string) :
  active s = Some x →
  mount wl = Some mc →
  mount_point mc = Some mp → mp ≠ "" →
  auto_unmount mc = Some false →
  ∃ sf,
    _run_cleanup_phase e execution_id wl s = (Py.Ok tt, sf)
    ∧ started_on UnmountFilesystem (drop (length (trace s)) (trace sf)) = []
    ∧ started_on CleanupClient (drop (length (trace s)) (trace sf))
      = ex_clients x
    ∧ Executor.cleanup_mount_point wl = Some mp
    ∧ ∀ world c xs, ∃ code,
        Executor.commands_of
          (Executor.cleanup_client world c (Executor.cleanup_mount_point wl))
          xs
        = [("rm -rf /tmp/fio_test* 2>/dev/null; rm -rf " +:+ mp
            +:+ "/scale_test_* 2>/dev/null; umount " +:+ mp
            +:+ " 2>/dev/null || true", code)].
Proof.
  intros Hact Hmount Hmp Hne Hauto.
  destruct (cleanup_phase_trace s x Hact) as (sf & sm & Hrun & Htr).
  assert (match is_file_workload_with_mount wl with
          | Some mc => default true (auto_unmount mc)
          | None => false
          end = false) as Hno.
  { unfold is_file_workload_with_mount. rewrite Hmount.
    destruct (String.eqb _ "file"); [by rewrite Hauto | done]. }
  cbv zeta in Htr. rewrite Hno in Htr.
  assert (Executor.cleanup_mount_point wl = Some mp) as Hcmp.
  { unfold Executor.cleanup_mount_point. by rewrite Hmount. }
  exists sf. split; [exact Hrun|].
  rewrite Htr, drop_app_length, !started_on_app.
  rewrite EngineFacts.started_on_fan_out.
  rewrite (started_on_other UnmountFilesystem CleanupClient) by done.
  split.
  { by destruct (bool_decide (command_log s = [])). }
  split.
  { destruct (bool_decide (command_log s = [])); cbn; by rewrite app_nil_r. }
  split; [exact Hcmp|]. intros world c xs. rewrite Hcmp.
  destruct (ExecutorFacts.cleanup_client_run world c (Some mp) xs)
    as (code & ->).
  exists code. by rewrite ExecutorFacts.cleanup_command_mounted.
Qed.

End cleanup.

Lemma X24_witness :
  let F := Py.Z_float in
  let e := Scenario.env_with [Scenario.c1; Scenario.c2; Scenario.c3]
             Scenario.all_green "" Scenario.never in
  let wl := mkWorkload (Some "fio") (Some "file")
              (Some (mkMount (Some "cephfs") (Some false) (Some "/mnt/t")))
              (Some (mkSelection (Some "all") None None)) None in
  let s := Scenario.prepared_state in
  ∃ sf,
    _run_cleanup_phase e "exec-1" wl s = (Py.Ok tt, sf)
    ∧ started_on UnmountFilesystem (drop (length (trace s)) (trace sf)) = []
    ∧ started_on CleanupClient (drop (length (trace s)) (trace sf))
      = [Scenario.c1; Scenario.c2; Scenario.c3]
    ∧ Executor.cleanup_mount_point wl = Some "/mnt/t"
    ∧ ∀ world c xs, ∃ code,
        Executor.commands_of
          (Executor.cleanup_client world c (Executor.cleanup_mount_point wl))
          xs
        = [("rm -rf /tmp/fio_test* 2>/dev/null; rm -rf " +:+ "/mnt/t"
            +:+ "/scale_test_* 2>/dev/null; umount " +:+ "/mnt/t"
            +:+ " 2>/dev/null || true", code)].
Proof.
  intros F e wl s.
  apply (X24_cleanup_unmounts_without_auto_unmount e "exec-1" wl s
           (mkExec "prepare" [Scenario.c1; Scenario.c2; Scenario.c3]
              ["client-1"; "client-2"; "client-3"] (Some []))
           (mkMount (Some "cephfs") (Some false) (Some "/mnt/t")) "/mnt/t").
  - reflexivity.
  - reflexivity.
  - reflexivity.
  - discriminate.
  - reflexivity.
Defined.

End CleanupFacts.
(** ** What a run leaves behind *)

Module OutcomeFacts.
Import Engine Outcome.

Section facts.
Context {F : Py.Float}.
Variable e : env.
Variable execution_id : string.
Variable wl : workload_config.

(** The record after a status update of the engine. *)
Lemma db_update_record (status : string) (kwargs : gmap string Store.value)
    (s : state) (r : gmap string Store.value) :
  engine_kwargs kwargs →
  Store.get_execution (db s) execution_id = Some r →
  ∃ t', db_update e execution_id status kwargs s = (Py.Ok tt, with_db t' s)
        ∧ Store.get_execution t' execution_id
          = Some (<["status" := Store.VText status]>
                    (Store.stamp_kwargs (utcnow e) status kwargs) ∪ r).
Proof.
  intros (Hs & He & Hi & Hcols) Hr. unfold db_update.
  rewrite StoreFacts.update_execution_status_ok by done.
  eexists. split; [done|].
  rewrite StoreFacts.get_execution_sql_update, Hr; [done|].
  rewrite lookup_insert_ne by done.
  rewrite StoreFacts.stamp_kwargs_lookup.
  by rewrite !decide_False by (intros [? _]; done).
Qed.

(** X26: the selection of the prepare phase, whatever the mode: the
    selected clients are clients of the inventory, in inventory order,
    none of them is an excluded client, mode [count] with a count of zero
    or more selects at most that many, and mode [specific] selects only
    clients that are named. *)
Theorem X26_select_clients (excluded : list string) (cs : list client) :
  let selected := select_clients wl excluded cs in
  selected `sublist_of` cs
  ∧ (∀ c, c ∈ selected → client_id c ∉ excluded)
  ∧ (∀ n, clients wl ≫= mode = Some "count" → clients wl ≫= count = Some n →
          0 ≤ n → (length selected ≤ Z.to_nat n)%nat)
  ∧ (clients wl ≫= mode = Some "specific" →
     ∀ c, c ∈ selected → client_id c ∈ default [] (clients wl ≫= client_ids)).
Proof.
  intros selected. subst selected. unfold select_clients.
  set (available := filter (λ c, client_id c ∉ excluded) cs).
  assert (available `sublist_of` cs) as Hsub by apply sublist_filter.
  assert (∀ c, c ∈ available → client_id c ∉ excluded) as Hex.
  { intros c Hc. by apply list_elem_of_filter in Hc as [? _]. }
  assert (∀ n, Py.slice_to available n `sublist_of` available) as Hslice.
  { intros n. unfold Py.slice_to. destruct (Z.leb 0 n); apply sublist_take. }
  split; [|split; [|split]].
  - destruct (String.eqb _ "all"); [done|].
    destruct (String.eqb _ "count").
    { destruct (clients wl ≫= count); [|done].
      etrans; [apply Hslice | exact Hsub]. }
    destruct (String.eqb _ "specific"); [|done].
    etrans; [apply sublist_filter | exact Hsub].
  - intros c Hc.
    destruct (String.eqb _ "all"); [by apply Hex|].
    destruct (String.eqb _ "count").
    { destruct (clients wl ≫= count) as [n|]; [|by apply Hex].
      apply Hex. by eapply elem_of_sublist. }
    destruct (String.eqb _ "specific"); [|by apply Hex].
    apply Hex. by apply list_elem_of_filter in Hc as [_ ?].
  - intros n -> -> Hn. cbn [default from_option Datatypes.id].
    change (String.eqb "count" "all") with false.
    change (String.eqb "count" "count") with true. cbv iota.
    unfold Py.slice_to. rewrite (proj2 (Z.leb_le _ _)) by done.
    rewrite length_take. lia.
  - intros -> c Hc. cbn [default from_option Datatypes.id] in Hc.
    change (String.eqb "specific" "all") with false in Hc.
    change (String.eqb "specific" "count") with false in Hc.
    change (String.eqb "specific" "specific") with true in Hc.
    cbv iota in Hc. by apply list_elem_of_filter in Hc as [? _].
Qed.

(** The prepare phase raises when no client is selected, before it starts
    anything. *)
Lemma prepare_phase_no_clients (s : state) (x : exec_state) :
  active s = Some x →
  select_clients wl (default [] (excluded_clients x)) (get_clients e) = [] →
  ∃ sf,
    _run_prepare_phase e execution_id wl s
    = (Py.Raise "Exception" "No clients available for execution", sf)
    ∧ trace sf = trace s
    ∧ ∀ r, Store.get_execution (db s) execution_id = Some r →
           is_Some (Store.get_execution (db sf) execution_id).
Proof.
  intros Hact Hsel. unfold _run_prepare_phase.
  destruct (EngineFacts.db_update_spec e execution_id "preparing" ∅ s
              (EngineFacts.engine_kwargs_empty)) as (t1 & Hup & Hrec1).
  rewrite (EngineFacts.bind_ok _ _ _ _ _ Hup).
  unfold _update_state at 1. unfold bind at 1, modify at 1. cbv beta iota.
  set (s2 := with_active _ _).
  assert (active s2 = Some (with_phase "prepare" x)) as Hact2.
  { subst s2. cbn. by rewrite Hact. }
  destruct (EngineFacts.suspended_spec e DuringPrepare s2)
    as (s3 & Hsusp & Hact3 & Hdb3 & Htr3 & _).
  rewrite (EngineFacts.bind_ok _ _ _ _ _ Hsusp).
  unfold bind at 1, the_active at 1. rewrite Hact3, Hact2.
  cbn [excluded_clients with_phase]. rewrite Hsel.
  rewrite bool_decide_eq_true_2 by done. unfold raise.
  eexists. split; [done|]. split; [by rewrite Htr3|].
  intros r Hr. rewrite Hdb3. subst s2. cbn [db with_active with_db].
  apply Hrec1. by eexists.
Qed.

(** X27: when the selection of the prepare phase is empty (every client
    excluded by the prechecks, or none matched by the selection), the
    run ends with the record [failed] and the error message
    [No clients available for execution], and no remote operation was
    started on any client. *)
Theorem X27_no_clients_selected (run_prechecks : bool) (t : Store.table) :
  let excluded :=
    if run_prechecks
    then Prechecks.excluded_clients (precheck_report e wl) else [] in
  let out := run_execution e execution_id wl run_prechecks (initial_state t) in
  has_record t execution_id →
  (run_prechecks = true →
   cluster_config_valid e = true
   ∧ Prechecks.can_proceed (precheck_report e wl) = true
   ∧ stop_requested e DuringPrechecks = false) →
  select_clients wl excluded (get_clients e) = [] →
  out.1 = Py.Ok tt
  ∧ final_status execution_id out.2 = Some (Store.VText "failed")
  ∧ column out.2 execution_id "error_message"
    = Some (Store.VText "No clients available for execution")
  ∧ ∀ op c, Remote op c ∉ trace out.2.
Proof.
  intros excluded out Hrec Hpre Hsel.
  assert (∃ sf, out = (Py.Ok tt, sf)
                ∧ final_status execution_id sf = Some (Store.VText "failed")
                ∧ column sf execution_id "error_message"
                  = Some (Store.VText "No clients available for execution")
                ∧ Forall (λ ev, is_remote ev = false) (trace sf))
    as (sf & -> & Hstatus & Hmsg & Hevs).
  2:{ split; [done|]. split; [exact Hstatus|]. split; [exact Hmsg|].
      intros op c Hin. rewrite Forall_forall in Hevs.
      by apply Hevs in Hin. }
  subst out. unfold run_execution.
  unfold bind at 1. unfold modify at 1. cbv beta iota.
  set (s1 := with_active _ _).
  assert (∃ s2 x,
            (if run_prechecks
             then bind (_run_prechecks_phase e execution_id wl)
                    (λ _, stop_is_set)
             else ret false) s1 = (Py.Ok false, s2)
            ∧ active s2 = Some x
            ∧ default [] (excluded_clients x) = excluded
            ∧ has_record (db s2) execution_id
            ∧ Forall (λ ev, is_remote ev = false) (trace s2))
    as (s2 & x & Hfirst & Hact2 & Hexcl & Hrec2 & Htr2).
  { subst excluded. destruct run_prechecks.
    - destruct (Hpre eq_refl) as (Hvalid & Hok & Hstop).
      destruct (EngineFacts.prechecks_phase_passes e execution_id wl s1 _
                  eq_refl Hvalid Hok)
        as (s2 & Hphase & Hact2 & Hflag2 & Htr2 & Hrec2).
      rewrite Hstop in Hflag2. cbn in Hflag2.
      exists s2. eexists. split.
      { rewrite (EngineFacts.bind_ok _ _ _ _ _ Hphase).
        rewrite EngineFacts.stop_is_set_spec. by rewrite Hflag2. }
      split; [exact Hact2|]. split; [done|]. split; [by apply Hrec2|].
      rewrite Htr2. cbn. by repeat constructor.
    - exists s1. eexists. split; [done|]. split; [done|]. split; [done|].
      split; [exact Hrec | constructor]. }
  rewrite <- Hexcl in Hsel.
  destruct (prepare_phase_no_clients s2 x Hact2 Hsel)
    as (s3 & Hprep & Htr3 & Hrec3).
  destruct Hrec2 as [r2 Hr2]. destruct (Hrec3 r2 Hr2) as [r3 Hr3].
  destruct (db_update_record "failed"
              {[ "error_message"
                   := Store.VText "No clients available for execution" ]}
              s3 r3) as (t4 & Hup & Hr4); [|exact Hr3|].
  { apply EngineFacts.engine_kwargs_singleton; [in_list | done | done]. }
  unfold try_finally, try_except.
  rewrite (EngineFacts.bind_ok _ _ s1 s2 false) by exact Hfirst.
  cbv beta iota.
  rewrite (EngineFacts.bind_raise _ _ s2 s3 _ _ Hprep).
  rewrite (EngineFacts.bind_ok _ _ _ _ _ Hup).
  unfold emit, _cleanup_execution, modify. cbv beta iota.
  eexists. split; [done|].
  set (r4 := _ ∪ r3) in Hr4.
  split; [|split].
  - unfold final_status, Store.status_of.
    cbn [db with_db with_active with_stop_flag with_pause_flag with_trace].
    rewrite Hr4. subst r4. cbn [mbind option_bind].
    rewrite lookup_union, lookup_insert_eq. by destruct (r3 !! "status").
  - unfold column.
    cbn [db with_db with_active with_stop_flag with_pause_flag with_trace].
    rewrite Hr4. subst r4. cbn [mbind option_bind].
    rewrite lookup_union, lookup_insert_ne by done.
    rewrite StoreFacts.stamp_kwargs_lookup.
    rewrite !decide_False by (intros [? _]; done).
    rewrite lookup_singleton_eq. by destruct (r3 !! "error_message").
  - cbn [trace with_db with_active with_stop_flag with_pause_flag with_trace].
    rewrite Htr3. apply Forall_app. split; [exact Htr2|].
    by repeat constructor.
Qed.

(** *** The aggregate of the run phase *)

Lemma appended_metrics_app (tr1 tr2 : list event) :
  appended_metrics (tr1 ++ tr2)
  = appended_metrics tr1 ++ appended_metrics tr2.
Proof. unfold appended_metrics. apply bind_app. Qed.

Lemma sum_iops_app (ms1 ms2 : list fio_metrics) :
  sum_iops (ms1 ++ ms2) = sum_iops ms1 + sum_iops ms2.
Proof.
  unfold sum_iops. induction ms1 as [|m ms1 IH]; [done|].
  cbn [app foldr]. rewrite IH. lia.
Qed.

Lemma appended_metrics_remote (op : remote_op) (cs : list client) :
  appended_metrics (Remote op <$> cs) = [].
Proof. induction cs as [|c cs IH]; [done|]. exact IH. Qed.

Lemma add_metrics_iops (acc : totals) (m : fio_metrics) :
  total_iops (add_metrics acc m) = total_iops acc + iops_t m.
Proof. unfold add_metrics. by destruct (Py.f_pos (lat_avg m)). Qed.

(** The loop adds to the running total the IOPS of exactly the metrics it
    appends to the per-client files. *)
Lemma process_results_totals (rs : list (client * Py.result run_result))
    (acc : totals) (s : state) :
  ∃ acc', process_results e acc rs s
          = (Py.Ok acc', with_trace (trace s ++ (rs ≫= result_events e)) s)
          ∧ total_iops acc'
            = total_iops acc
              + sum_iops (appended_metrics (rs ≫= result_events e)).
Proof.
  revert acc s. induction rs as [|[c r] rs IH]; intros acc s.
  - exists acc. split; [|cbn; lia]. cbn. rewrite app_nil_r. by destruct s.
  - cbn [process_results].
    assert (∃ acc1, process_result e acc c r s
                    = (Py.Ok acc1,
                       with_trace (trace s ++ result_events e (c, r)) s)
                    ∧ total_iops acc1
                      = total_iops acc
                        + sum_iops (appended_metrics (result_events e (c, r))))
      as (acc1 & Hone & Hsum1).
    { unfold process_result, result_events. cbn [fst snd].
      destruct r as [[[[|] message] [m|]]|exn msg];
        (eexists; split; [reflexivity|]); cbn; rewrite ?add_metrics_iops; lia. }
    rewrite (EngineFacts.bind_ok _ _ _ _ _ Hone).
    destruct (IH acc1 (with_trace (trace s ++ result_events e (c, r)) s))
      as (acc' & Hrest & Hsum).
    exists acc'. rewrite Hrest. cbn [trace with_trace].
    change (((c, r) :: rs) ≫= result_events e)
      with (result_events e (c, r) ++ (rs ≫= result_events e)).
    split; [by rewrite app_assoc; destruct s|].
    rewrite appended_metrics_app, sum_iops_app. lia.
Qed.

(** X29: the run phase on a non-empty client list appends one aggregate
    record. Its IOPS total is the sum over the per-client metrics the
    phase stored, its client count is the number of clients the phase
    fanned out to, whether or not their run gave metrics, and the same
    total is written to the [total_iops] column of the execution. *)
Theorem X29_aggregate_totals (s : state) (x : exec_state)
    (r : gmap string Store.value) :
  active s = Some x →
  ex_clients x ≠ [] →
  Store.get_execution (db s) execution_id = Some r →
  ∃ sf aggregate,
    _run_execution_phase e execution_id wl s = (Py.Ok tt, sf)
    ∧ last (trace sf) = Some (AppendMetrics aggregate)
    ∧ aggregate_file sf = aggregate_file s ++ [Store.Json aggregate]
    ∧ a_iops_t aggregate
      = sum_iops (appended_metrics (drop (length (trace s)) (trace sf)))
    ∧ a_clients aggregate = length (ex_clients x)
    ∧ column sf execution_id "total_iops"
      = Some (Store.VInt (a_iops_t aggregate)).
Proof.
  intros Hact Hcs Hr. unfold _run_execution_phase.
  destruct (db_update_record "running" ∅ s r EngineFacts.engine_kwargs_empty Hr)
    as (t1 & Hup & Hr1).
  rewrite (EngineFacts.bind_ok _ _ _ _ _ Hup).
  unfold _update_state at 1. unfold bind at 1, modify at 1. cbv beta iota.
  set (s2 := with_active _ _).
  assert (active s2 = Some (with_phase "steady_state" x)) as Hact2.
  { subst s2. cbn. by rewrite Hact. }
  destruct (EngineFacts.suspended_spec e DuringRun s2)
    as (s3 & Hsusp & Hact3 & Hdb3 & Htr3 & _).
  rewrite (EngineFacts.bind_ok _ _ _ _ _ Hsusp).
  unfold bind at 1, the_active at 1. rewrite Hact3, Hact2.
  cbn [ex_clients with_phase].
  rewrite bool_decide_eq_false_2 by done.
  unfold fan_out at 1. unfold bind at 1, modify at 1. cbv beta iota.
  set (s4 := with_trace _ _).
  destruct (process_results_totals
              ((λ c, (c, run_task e wl c)) <$> ex_clients x)
              (mkTotals 0 (Py.f_of_int 0) (Py.f_of_int 0) 0) s4)
    as (acc & Hloop & Hsum).
  rewrite (EngineFacts.bind_ok _ _ _ _ _ Hloop).
  unfold emit at 1. unfold bind at 1, modify at 1. cbv beta iota.
  unfold bind at 1, modify at 1. cbv beta iota.
  set (kw := <[ "total_iops" := Store.VInt (total_iops acc) ]> _).
  set (s5 := with_aggregate_file _ _).
  assert (Store.get_execution (db s5) execution_id
          = Some (<["status" := Store.VText "running"]>
                    (Store.stamp_kwargs (utcnow e) "running" ∅) ∪ r)) as Hr5.
  { subst s5 s4. cbn [db with_aggregate_file with_trace with_command_log].
    rewrite Hdb3. subst s2. exact Hr1. }
  assert (engine_kwargs kw) as Hkw.
  { subst kw.
    apply EngineFacts.engine_kwargs_insert; [in_list | done | done |].
    apply EngineFacts.engine_kwargs_insert; [in_list | done | done |].
    apply EngineFacts.engine_kwargs_singleton; [in_list | done | done]. }
  destruct (db_update_record "running" kw s5 _ Hkw Hr5) as (t6 & Hup6 & Hr6).
  rewrite Hup6. do 2 eexists. split; [reflexivity|].
  assert (trace s4 = trace s ++ (Remote (run_op wl) <$> ex_clients x))
    as Htr4.
  { subst s4. cbn [trace with_trace with_command_log]. rewrite Htr3.
    by subst s2. }
  assert (aggregate_file s4 = aggregate_file s) as Hagg.
  { subst s4. cbn [aggregate_file with_trace with_command_log].
    unfold suspended, stop_execution, modify, ret in Hsusp.
    destruct (stop_requested e DuringRun); injection Hsusp as <-;
      by subst s2. }
  subst s5. cbn [trace db aggregate_file with_db with_aggregate_file with_trace
                 a_iops_t a_clients].
  rewrite Htr4, Hagg. split; [apply last_snoc|]. split; [reflexivity|].
  split.
  { rewrite <- !app_assoc, drop_app_length.
    rewrite !appended_metrics_app, !sum_iops_app, appended_metrics_remote.
    rewrite Hsum. cbn. lia. }
  split; [reflexivity|].
  unfold column. cbn [db with_db]. rewrite Hr6. cbn [mbind option_bind].
  apply lookup_union_Some_l. rewrite lookup_insert_ne by done.
  rewrite StoreFacts.stamp_kwargs_lookup.
  rewrite !decide_False by (intros [? _]; done).
  subst kw. apply lookup_insert_eq.
Qed.

(** *** The record is kept *)

Lemma keeps_ret {A} (a : A) : keeps_record execution_id (ret a).
Proof. by intros s. Qed.

Lemma keeps_raise {A} (exn msg : string) :
  keeps_record execution_id (raise (A:=A) exn msg).
Proof. by intros s. Qed.

Lemma keeps_gets {A} (f : state → A) : keeps_record execution_id (gets f).
Proof. by intros s. Qed.

Lemma keeps_modify (f : state → state) :
  (∀ s, db (f s) = db s) → keeps_record execution_id (modify f).
Proof. intros Hf s Hrec. cbn. by rewrite Hf. Qed.

Lemma keeps_bind {A B} (m : M A) (k : A → M B) :
  keeps_record execution_id m →
  (∀ a, keeps_record execution_id (k a)) →
  keeps_record execution_id (bind m k).
Proof.
  intros Hm Hk s Hrec. specialize (Hm s Hrec). unfold bind.
  destruct (m s) as [[a|exn msg] s']; [|done]. by apply Hk.
Qed.

Lemma keeps_db_update (status : string) (kwargs : gmap string Store.value) :
  engine_kwargs kwargs →
  keeps_record execution_id (db_update e execution_id status kwargs).
Proof.
  intros Hkw s Hrec.
  destruct (EngineFacts.db_update_spec e execution_id status kwargs s Hkw)
    as (t' & -> & Hrec'). by apply Hrec'.
Qed.

Lemma keeps_the_active : keeps_record execution_id (the_active execution_id).
Proof. intros s Hrec. unfold the_active. by destruct (active s). Qed.

Lemma keeps_suspended (m : moment) : keeps_record execution_id (suspended e m).
Proof.
  intros s Hrec.
  destruct (EngineFacts.suspended_spec e m s) as (s' & Hs & _ & Hdb & _).
  rewrite Hs. cbn [snd]. by rewrite Hdb.
Qed.

Lemma keeps_process_results (rs : list (client * Py.result run_result))
    (acc : totals) :
  keeps_record execution_id (process_results e acc rs).
Proof.
  intros s Hrec.
  by destruct (EngineFacts.process_results_spec e rs acc s) as [acc' ->].
Qed.

Lemma keeps_for_each {A} (f : A → M unit) (l : list A) :
  (∀ a, keeps_record execution_id (f a)) →
  keeps_record execution_id (for_each f l).
Proof.
  intros Hf. induction l as [|a l IH]; [apply keeps_ret|].
  apply keeps_bind; [apply Hf | by intros _].
Qed.

Lemma keeps_emit (ev : event) : keeps_record execution_id (emit ev).
Proof. by intros s. Qed.

Lemma keeps_fan_out (op : remote_op) (cs : list client) :
  keeps_record execution_id (fan_out op cs).
Proof. by intros s. Qed.

Lemma keeps_update_state (p : string) :
  keeps_record execution_id (_update_state p).
Proof. by intros s. Qed.

(** One step of a proof that a computation keeps the record. *)
Ltac keeps_step :=
  lazymatch goal with
  | |- keeps_record _ (bind _ _) => apply keeps_bind; [|intros ?]
  | |- keeps_record _ (ret _) => apply keeps_ret
  | |- keeps_record _ (raise _ _) => apply keeps_raise
  | |- keeps_record _ (gets _) => apply keeps_gets
  | |- keeps_record _ stop_is_set => apply keeps_gets
  | |- keeps_record _ (emit _) => apply keeps_emit
  | |- keeps_record _ (fan_out _ _) => apply keeps_fan_out
  | |- keeps_record _ (_update_state _) => apply keeps_update_state
  | |- keeps_record _ (the_active _) => apply keeps_the_active
  | |- keeps_record _ (suspended _ _) => apply keeps_suspended
  | |- keeps_record _ (process_results _ _ _) => apply keeps_process_results
  | |- keeps_record _ (db_update _ _ _ _) => apply keeps_db_update
  | |- keeps_record _ (modify _) => apply keeps_modify; intros ?; reflexivity
  | |- keeps_record _ (if ?b then _ else _) => destruct b
  | |- keeps_record _ (match ?x with _ => _ end) => destruct x
  | |- keeps_record _ (let _ := _ in _) => cbv zeta
  end.

Lemma keeps_prechecks_phase :
  keeps_record execution_id (_run_prechecks_phase e execution_id wl).
Proof.
  unfold _run_prechecks_phase.
  repeat keeps_step. apply EngineFacts.engine_kwargs_empty.
Qed.

Lemma keeps_prepare_phase :
  keeps_record execution_id (_run_prepare_phase e execution_id wl).
Proof.
  unfold _run_prepare_phase, ensure_fio_step, mount_step.
  repeat keeps_step;
    first [ apply EngineFacts.engine_kwargs_empty
          | apply EngineFacts.engine_kwargs_singleton;
            [in_list | done | done] ].
Qed.

Lemma keeps_execution_phase :
  keeps_record execution_id (_run_execution_phase e execution_id wl).
Proof.
  unfold _run_execution_phase.
  repeat keeps_step;
    first [ apply EngineFacts.engine_kwargs_empty
          | apply EngineFacts.engine_kwargs_insert; [in_list | done | done |];
            apply EngineFacts.engine_kwargs_insert; [in_list | done | done |];
            apply EngineFacts.engine_kwargs_singleton;
            [in_list | done | done] ].
Qed.

Lemma keeps_cleanup_phase :
  keeps_record execution_id (_run_cleanup_phase e execution_id wl).
Proof.
  unfold _run_cleanup_phase.
  repeat keeps_step.
Qed.

(** *** The record ends in a terminal status *)

Lemma ends_in_bind {A B} (allowed : list string) (m : M A) (k : A → M B) :
  keeps_record execution_id m →
  (∀ a, ends_in execution_id allowed (k a)) →
  ends_in execution_id allowed (bind m k).
Proof.
  intros Hm Hk s Hrec. specialize (Hm s Hrec). unfold bind.
  destruct (m s) as [[a|exn msg] s']; [|done]. by apply Hk.
Qed.

Lemma ends_in_db_update (allowed : list string) (status : string)
    (kwargs : gmap string Store.value) :
  status ∈ allowed → engine_kwargs kwargs →
  ends_in execution_id allowed (db_update e execution_id status kwargs).
Proof.
  intros Hin Hkw s Hrec.
  destruct (EngineFacts.db_update_spec e execution_id status kwargs s Hkw)
    as (t' & -> & Hrec').
  destruct (Hrec' Hrec) as [_ Hst]. by exists status.
Qed.

(** Publishing the stop events leaves the table alone. *)
Lemma publish_keeps_db (cs : list client) (s : state) :
  db (for_each (λ c, match publish_to_agent e c with
                     | Py.Ok _ => emit (PublishStop c)
                     | Py.Raise exn msg => raise exn msg
                     end) cs s).2 = db s.
Proof.
  revert s. induction cs as [|c cs IH]; intros s; [done|].
  cbn [for_each]. unfold bind at 1.
  destruct (publish_to_agent e c) as [u|exn msg]; [|done].
  unfold emit at 1, modify at 1. cbv beta iota. by rewrite IH.
Qed.

Lemma ends_in_handle_stopped (allowed : list string) :
  "cancelled" ∈ allowed →
  ends_in execution_id allowed (_handle_stopped e execution_id).
Proof.
  intros Hin s Hrec. unfold _handle_stopped.
  destruct (EngineFacts.db_update_spec e execution_id "cancelled" ∅ s
              EngineFacts.engine_kwargs_empty) as (t' & Hup & Hrec').
  destruct (Hrec' Hrec) as [Hrec1 Hst].
  rewrite (EngineFacts.bind_ok _ _ _ _ _ Hup).
  unfold bind at 1, gets at 1. cbv beta iota.
  set (cs := from_option ex_clients [] _).
  pose proof (publish_keeps_db cs (with_db t' s)) as Hdb.
  unfold bind at 1.
  destruct (for_each _ cs (with_db t' s)) as [[u|exn msg] s'];
    cbn [snd db with_db] in Hdb.
  - unfold _cleanup_execution, modify.
    cbn [db with_active with_stop_flag with_pause_flag]. rewrite Hdb.
    exists "cancelled". split; [exact Hst | exact Hin].
  - rewrite Hdb. exact Hrec1.
Qed.

(** The body of the [try] of [run_execution]. *)
Lemma ends_in_body (run_prechecks : bool) :
  ends_in execution_id ["completed"; "cancelled"]
    (bind (if run_prechecks
           then bind (_run_prechecks_phase e execution_id wl)
                  (λ _, stop_is_set)
           else ret false)
       (λ stopped : bool,
          if stopped then _handle_stopped e execution_id
          else
            bind (_run_prepare_phase e execution_id wl) (λ _,
            bind stop_is_set (λ stopped : bool,
              if stopped then _handle_stopped e execution_id
              else
                bind (_run_execution_phase e execution_id wl) (λ _,
                bind (_run_cleanup_phase e execution_id wl) (λ _,
                db_update e execution_id "completed" ∅)))))).
Proof.
  apply ends_in_bind.
  { destruct run_prechecks; [|apply keeps_ret].
    apply keeps_bind; [apply keeps_prechecks_phase | intros _].
    apply keeps_gets. }
  intros [|]; [apply ends_in_handle_stopped; in_list|].
  apply ends_in_bind; [apply keeps_prepare_phase | intros _].
  apply ends_in_bind; [apply keeps_gets|].
  intros [|]; [apply ends_in_handle_stopped; in_list|].
  apply ends_in_bind; [apply keeps_execution_phase | intros _].
  apply ends_in_bind; [apply keeps_cleanup_phase | intros _].
  apply ends_in_db_update; [in_list | apply EngineFacts.engine_kwargs_empty].
Qed.

(** X28: whatever the collaborators answer and whenever a stop is
    requested, [run_execution] on an existing record returns normally,
    leaves the record in status [completed], [failed] or [cancelled],
    and removes the execution from the three tables of the engine. *)
Theorem X28_run_ends_terminal (run_prechecks : bool) (t : Store.table) :
  has_record t execution_id →
  let out := run_execution e execution_id wl run_prechecks (initial_state t) in
  out.1 = Py.Ok tt
  ∧ (∃ st, final_status execution_id out.2 = Some (Store.VText st)
           ∧ st ∈ ["completed"; "failed"; "cancelled"])
  ∧ active out.2 = None ∧ stop_flag out.2 = None ∧ pause_flag out.2 = None.
Proof.
  intros Hrec out.
  assert (∃ sf st, out = (Py.Ok tt, sf)
                   ∧ final_status execution_id sf = Some (Store.VText st)
                   ∧ st ∈ ["completed"; "failed"; "cancelled"]
                   ∧ active sf = None ∧ stop_flag sf = None
                   ∧ pause_flag sf = None)
    as (sf & st & -> & Hst & Hin & Hflags).
  2:{ split; [done|]. split; [by exists st | exact Hflags]. }
  subst out. unfold run_execution.
  unfold bind at 1. unfold modify at 1. cbv beta iota.
  set (s1 := with_active _ _).
  pose proof (ends_in_body run_prechecks s1 Hrec) as Hbody.
  unfold try_finally, try_except.
  match type of Hbody with
  | match ?body with _ => _ end => destruct body as [[u|exn msg] s2]
  end.
  - destruct Hbody as (st & Hst & Hin). destruct u.
    unfold _cleanup_execution, modify. eexists _, st.
    split; [reflexivity|]. split; [exact Hst|]. split; [|repeat split].
    apply elem_of_cons in Hin as [->|Hin]; [in_list|].
    apply elem_of_cons in Hin as [->|Hin]; [in_list|].
    by apply elem_of_nil in Hin.
  - destruct (EngineFacts.db_update_spec e execution_id "failed"
                {[ "error_message" := Store.VText msg ]} s2)
      as (t3 & Hup & Hrec3).
    { apply EngineFacts.engine_kwargs_singleton; [in_list | done | done]. }
    rewrite (EngineFacts.bind_ok _ _ _ _ _ Hup).
    destruct (Hrec3 Hbody) as [_ Hst].
    unfold emit, _cleanup_execution, modify. eexists _, "failed".
    split; [reflexivity|]. split; [exact Hst|].
    split; [in_list | repeat split].
Qed.

End facts.

Lemma pending_row_lookup :
  Store.get_execution [Scenario.pending_row] "exec-1"
  = Some Scenario.pending_row.
Proof.
  unfold Store.get_execution. cbn [filter list_filter].
  rewrite decide_True; [done|].
  unfold Store.has_id, Scenario.pending_row. by rewrite lookup_insert_eq.
Qed.

Lemma X27_witness :
  let F := Py.Z_float in
  let e := Scenario.env_with [] Scenario.all_green "" Scenario.never in
  let out := run_execution e "exec-1" Scenario.fio_workload true
               (initial_state [Scenario.pending_row]) in
  out.1 = Py.Ok tt
  ∧ final_status "exec-1" out.2 = Some (Store.VText "failed")
  ∧ column out.2 "exec-1" "error_message"
    = Some (Store.VText "No clients available for execution")
  ∧ ∀ op c, Remote op c ∉ trace out.2.
Proof.
  intros F e out.
  apply (X27_no_clients_selected e "exec-1" Scenario.fio_workload true
           [Scenario.pending_row]).
  - apply ScenarioFacts.pending_row_record.
  - intros _. vm_compute. repeat split.
  - reflexivity.
Defined.

Lemma X29_witness :
  let F := Py.Z_float in
  let e := Scenario.env_with [Scenario.c1; Scenario.c2; Scenario.c3]
             Scenario.all_green "" Scenario.never in
  let s := Scenario.prepared_state in
  ∃ sf aggregate,
    _run_execution_phase e "exec-1" Scenario.fio_workload s = (Py.Ok tt, sf)
    ∧ last (trace sf) = Some (AppendMetrics aggregate)
    ∧ aggregate_file sf = aggregate_file s ++ [Store.Json aggregate]
    ∧ a_iops_t aggregate
      = sum_iops (appended_metrics (drop (length (trace s)) (trace sf)))
    ∧ a_clients aggregate = 3%nat
    ∧ column sf "exec-1" "total_iops" = Some (Store.VInt (a_iops_t aggregate)).
Proof.
  intros F e s.
  apply (X29_aggregate_totals e "exec-1" Scenario.fio_workload s
           (mkExec "prepare" [Scenario.c1; Scenario.c2; Scenario.c3]
              ["client-1"; "client-2"; "client-3"] (Some []))
           Scenario.pending_row).
  - reflexivity.
  - discriminate.
  - apply pending_row_lookup.
Defined.

Lemma X28_witness :
  let F := Py.Z_float in
  let e := Scenario.env_with [Scenario.c1; Scenario.c2; Scenario.c3]
             Scenario.all_green "" Scenario.during_run in
  let out := run_execution e "exec-1" Scenario.fio_workload true
               (initial_state [Scenario.pending_row]) in
  out.1 = Py.Ok tt
  ∧ (∃ st, final_status "exec-1" out.2 = Some (Store.VText st)
           ∧ st ∈ ["completed"; "failed"; "cancelled"])
  ∧ active out.2 = None ∧ stop_flag out.2 = None ∧ pause_flag out.2 = None.
Proof.
  intros F e out.
  apply (X28_run_ends_terminal e "exec-1" Scenario.fio_workload true
           [Scenario.pending_row]).
  apply ScenarioFacts.pending_row_record.
Defined.

End OutcomeFacts.
